(* ===== verification/_CoqProject ===== *)
-Q . S2P
Prelude.v
Boot.v
Driver.v
Calibration.v
Sink.v
AcqState.v
Regex.v
RangeConfig.v
Streaming.v
Rows.v
Session.v
Gui.v
GuiSystem.v
App.v
