(* ===== verification/Prelude.v ===== *)
(** * A verification development of the PicoScope logging application

    The repository (picoscope-gui-app) drives a PicoScope 3000A/4000A
    oscilloscope in streaming mode and writes every sample as a row of a
    CSV file.  The window (src/gui.py) starts a thread whose run method
    sets the channel ranges and calls the module function start_recording
    of src/data_acquisition.py; that function drives the singleton
    DataAcquisition object: open the unit, configure the channels,
    register the buffers, ask for the maximum ADC value, start streaming,
    then poll psGetStreamingLatestValues until enough samples arrived.
    Each poll makes the driver call streaming_callback, which converts the
    new samples to millivolts and appends rows to the CSV file.  The stop
    button calls stop_recording from the window's thread.

    Files (in dependency order) and what they model:
    - [Prelude.v] (this file): Python exceptions [exn], the
      state-and-exception monad [PyM] with its notation scope [py_scope]
      (a raise keeps the mutations made before it, as the interpreter
      does), try/except, try/finally and for loops, dictionary lookup on
      association lists, str.upper and [in], the ctypes wrap-around
      [wrap_u32] / [wrap_s32], range(n), int() of a float, the hint
      databases [pico] and [pico_rw] and the tactic [py_simpl], and the
      frame library: [preserves f c] (running [c] leaves the projection
      [f] of the state unchanged), its combinator lemmas, the database
      [frame] and the tactic [frame_tac]; [py_for_sim], the simulation
      diagram of a for loop by a left fold.
    - [Boot.v]: main.py's start-up outside the engine: the module-level
      path set-up [module_init] (banner, program directory, the sys.path
      entry for a bundled picosdk, the crash log's name), the DLL loading
      of a frozen run_app [load_dlls] and the crash hook [excepthook].
      os.path is the class [PathOps]; the file system and the loader are
      the oracle [Env]; the state [Boot] is sys.path, the working
      directory, the loaded libraries, stdout, stderr and the files
      appended to.
    - [Driver.v]: scope_driver.py.  The record [Driver] of the constants
      the engine reads, its two instances [ps3000a_driver] and
      [ps4000a_driver], the capability tests [_has_digital_channels] and
      [ratio_mode_none].  The vendor library is not code of this
      repository: the scope is an oracle [Device] answering every call
      ([dev_call]) with a status and delivering, at the n-th poll, a list
      of callback batches ([batch]); [batch_ok] is the driver's contract
      on a batch (indices within the registered buffers).
    - [Calibration.v]: adc_to_mv_single and its range table.
    - [Sink.v]: the CSV file object (rows, durable prefix, closed flag),
      csv.writer.writerow, flush, close, and the header of start_recording.
    - [AcqState.v]: the attributes of DataAcquisition as the record
      [DataAcquisition] with its __init__ values [acq_init], and the
      [World]: the object, the log of vendor calls, whether the GUI
      connected the first_sample_recorded signal, the emissions of that
      signal and the number of polls.
    - [Regex.v]: the re.search of _convert_range_string_to_constant with
      the pattern (\d+(?:\.\d+)?)\s*([MK]?)V under re.IGNORECASE as a
      one-pass scanner [regex_search] (greedy spans, the optional
      fraction [frac_part], the unit [unit_part]), the value it yields
      ([scaled_voltage]), and a backtracking reference [ref_regex_search]
      that lists candidate matches in the order Python's engine tries
      them.
    - [RangeConfig.v]: _convert_range_string_to_constant (dictionary of the
      driver, the literal tables, the MAX rule, the regular expression of
      [Regex.v], the voltage table, the 20 V fallback), set_voltage_range
      and its shadowed first definition, set_voltage_rail, and
      setup_channels.
    - [Streaming.v]: setup_buffers, run_streaming (interval conversion,
      psRunStreaming, the while loop [stream_loop]), streaming_callback,
      the ctypes boundary that swallows callback exceptions, the abstract
      session of the whole loop ([spec_loop]) with its simulation, and the
      abstract row specification [spec_row] / [batch_rows].
    - [Rows.v]: what a row holds: the packing of sixteen digital lines
      into the two port samples ([pack_lines]), the cell types of a row
      ([row_typed]) and the order of the timestamps in the file
      ([order_inv]); no new code, theorems about [build_row],
      [digital_bit] and [stream_loop].
    - [Session.v]: start_recording (with the power-source recovery of
      psOpenUnit), stop_recording, the module function start_recording,
      gui.AcquisitionThread.run, and the two threads as a step relation
      [sys_step] (one loop iteration, leaving the loop, or stop_recording
      run by the window); the wrappers' open_unit methods, which nothing
      calls.
    - [Gui.v]: gui.py's MainWindow: the range names of the voltage-range
      boxes and their default entry, the widgets the start slot reads
      ([Window]), the start slot [window_start] and the thread it
      launches, the slots that change the buttons and timer ([WinState]),
      the elapsed-time label [timer_text] of update_timer, the window's
      title and layout ([window_layout]).
    - [GuiSystem.v]: the window and its acquisition threads under Qt's
      event loop: [gui_step] interleaves the button slots, each thread's
      two phases (set-up with its countdown signal, then start_recording),
      loop iterations, and the handling of the signals the threads post
      to the window ([ui_event], in a queue); reachability [gui_star].
    - [App.v]: the program around the engine.  main.py's run_app from the
      model dialog on ([run_app]: exit on cancel, otherwise install the
      chosen wrapper in the singleton and open the window), gui.main
      ([gui_main], which opens the window without a driver), the module
      stop_recording and the unused data_acquisition.AcquisitionThread
      ([dead_thread_run], its catch-all handler returning what it logs),
      utils.py ([validate_input], [format_data] with round half to even),
      and Info.py's [get_picoscope_info] (open with recovery, eleven
      GetUnitInfo reads whose strings are an oracle [unit_info], close).

    The theorems.
    - Streaming: one callback refines the row specification (the counter
      advances by the batch size, exactly the specified rows are appended
      in order, auto-stop is latched); through any number of loop
      iterations the file holds the header and one row per counted sample
      and fewer than 1000 rows are unflushed; the first-sample signal
      fires exactly once when every batch is non-empty, and fires again
      after an empty first batch; the loop terminates when every poll
      delivers a sample, and spins forever when the device falls silent;
      zero maxADC drops rows while counting them; the interval
      conversion, with its c_int32 wrap-around; every row has the
      header's width; setup_buffers allocates and registers exactly the
      enabled channels' buffers; the whole loop refines an abstract
      session (the rows, counter and auto-stop latch that folding the
      delivered batches poll by poll gives), by a simulation proved one
      callback and one poll at a time.
    - Session: against an accepting device start_recording makes
      exactly psOpenUnit, four psSetChannel, one psSetDataBuffers per
      enabled channel, psMaximumValue, psRunStreaming, and from then on
      only polls; the specification's scenario end to end (rows and the
      exact vendor call sequence, including the c_uint32 wrap of the
      sample cap 9999999990000 to 1316124912); stop when idle does
      nothing; a failing psStop skips psCloseUnit; a failing psOpenUnit
      (or a failing power-source change after it) leaves the session half
      started; once the device is silent no
      interleaving with stop_recording ends the loop; digital capture is
      never kept.
    - Regex: the one-pass scanner equals the backtracking reference on
      every string (an equivalence proved through the shape of the
      candidate lists: the first candidate is the greedy one, the later
      ones stop on a character that blocks the rest of the pattern).
    - Rows: reading line dch back from the packed port samples gives the
      line (a round trip over all sixteen lines); every row built for a
      sample is a float timestamp, one float per enabled analog channel
      and one 0/1 integer per digital line; through any number of loop
      iterations the data rows carry the timestamps of samples 0, 1, ...,
      nextSample - 1 in order.
    - App: a cancelled dialog exits leaving the engine without driver
      (the module start_recording would raise), an accepted one installs
      the chosen wrapper so that start_recording runs; started through
      gui.main instead, the window's Start dies on that RuntimeError
      without any vendor call; Info.py makes the
      eleven information reads in order without checking them and raises
      only a failed close; round(d, 2) moves a value by at most 0.005.
    - RangeConfig: resolution never fails and returns a table code or the
      20 V code; concrete resolutions; disabled channels are configured at
      20 V with offset 0; the set_voltage_range in effect and the first,
      shadowed definition lead to the same device settings.
    - Boot: the crash hook never raises and always reaches the default
      hook; the DLL block survives any loader failure and loads exactly
      the present, loadable DLLs in order; the sys.path guard of a frozen
      start-up tests one directory and inserts another, so the program
      directory can be inserted twice.
    - Gui: with the window's defaults on the 3000 series channel A is
      configured at 5 V and recorded at the 20 V scale (every value four
      times too large); the 3000-series range names, the engine's codes
      for them and the calibration table agree; an unparsable interval
      starts nothing; the label wraps every hour.  Kept as lemmas of the file: a value is recorded at
      20 V over the configured full scale, the label is always 23
      characters and is right across midnight, the 3000-series range box
      and its default.
    - GuiSystem: in every reachable configuration exactly one of Start
      and Stop is enabled and the label shows one of the slots' texts
      (an invariant proved by rule induction); Start, Stop, Start leaves
      two threads polling one device; Stop pressed while the thread is
      still initializing is lost and the session starts with the window
      showing it idle.
    - Calibration: the bound by the full scale.  Kept as lemmas:
      linearity, inverse proportionality in maxADC, the documented
      example, the 20 V fallback for unknown codes, the strict order of
      the table.

    Numbers.  ADC counts, indices and sample counters are [Z] (Python
    ints); the ctypes conversions are written out with [wrap_s32] and
    [wrap_u32].  Python floats are exact rationals [Q]: theorems about
    millivolt values and timestamps speak of the exact value the float
    computation rounds, and int() of a float is truncation of that
    rational (a float product such as 0.57 * 100 that rounds below an
    integer is not modelled).

    Fuel.  The while loop of run_streaming is [stream_loop] with a fuel
    argument, one unit per iteration.  Termination is proved as such:
    with fuel at least totalSamples - nextSample and a device delivering
    at least one sample per poll, the loop leaves with its condition
    false, so any larger fuel gives the same result.  start_recording
    passes its fuel to the loop; the non-termination theorems hold for
    every fuel.

    Not modelled: the status dictionary and csv_initialized (written,
    never read), the debug prints
    and time.sleep (the 3.5 s delay of data_acquisition.AcquisitionThread;
    its crash log is the exception [dead_thread_run] returns), the Qt
    widgets' own behaviour (widget contents are record fields, spin-box
    clamping and the save dialog are inputs; the event loop is the
    queue of [GuiSystem]), the model
    dialog's exec_ and combo index are inputs of [run_app]), the
    assignment sys.excepthook = excepthook, the behaviour of os.path
    itself (an interface), utils.show_error (a print), Info.py's module-level find_unit, print
    and close (picosdk I/O run at import), and the textual encoding of
    floats by the csv module. *)

From stdpp Require Import base list gmap strings.
From Stdlib Require Import ZArith QArith_base Lia.

Declare Scope py_scope.
Delimit Scope py_scope with py.
Open Scope Z_scope.

(** ** Python exceptions and the state-and-exception monad *)

(** The exceptions the modelled code can raise: [assert_pico_ok] raises a
    PicoSDK error carrying the status, numpy indexing out of range raises
    IndexError, a division by zero ZeroDivisionError, a write to a closed
    file ValueError, a missing attribute
    AttributeError, the module function
    start_recording a RuntimeError. *)
Inductive exn :=
| PicoSDKError (status : Z)
| IndexError
| AttributeError
| ZeroDivisionError
| ValueError
| RuntimeError (msg : string)
| OSError (path : string).

Inductive outcome (A : Type) :=
| Normal (a : A)
| Exc (e : exn).
Arguments Normal {A} a.
Arguments Exc {A} e.

(** A computation on the state [S]: the state is returned on both paths,
    because Python keeps the mutations made before a raise. *)
Definition PyM (S A : Type) := S -> outcome A * S.

Section Monad.
Context {S : Type}.

Definition py_ret {A} (a : A) : PyM S A := fun s => (Normal a, s).

Definition py_bind {A B} (c : PyM S A) (k : A -> PyM S B) : PyM S B :=
  fun s => match c s with
           | (Normal a, s') => k a s'
           | (Exc e, s') => (Exc e, s')
           end.

Definition py_raise {A} (e : exn) : PyM S A := fun s => (Exc e, s).

Definition py_get : PyM S S := fun s => (Normal s, s).

Definition py_modify (f : S -> S) : PyM S unit := fun s => (Normal tt, f s).

(** try: c except: h  (every exception is caught) *)
Definition py_try {A} (c : PyM S A) (h : exn -> PyM S A) : PyM S A :=
  fun s => match c s with
           | (Exc e, s') => h e s'
           | r => r
           end.

(** try: c finally: f *)
Definition py_finally {A} (c : PyM S A) (f : PyM S unit) : PyM S A :=
  fun s => match c s with
           | (r, s') => match f s' with
                        | (Normal _, s'') => (r, s'')
                        | (Exc e, s'') => (Exc e, s'')
                        end
           end.

(** for x in xs: body x *)
Fixpoint py_for {A} (xs : list A) (body : A -> PyM S unit) : PyM S unit :=
  match xs with
  | [] => py_ret tt
  | x :: xs' => py_bind (body x) (fun _ => py_for xs' body)
  end.

Lemma py_bind_ret {A B} (a : A) (k : A -> PyM S B) s :
  py_bind (py_ret a) k s = k a s.
Proof. reflexivity. Qed.

Lemma py_bind_normal {A B} (c : PyM S A) (k : A -> PyM S B) s a s' :
  c s = (Normal a, s') -> py_bind c k s = k a s'.
Proof. intros H. unfold py_bind. by rewrite H. Qed.

Lemma py_bind_exc {A B} (c : PyM S A) (k : A -> PyM S B) s e s' :
  c s = (Exc e, s') -> py_bind c k s = (Exc e, s').
Proof. intros H. unfold py_bind. by rewrite H. Qed.

Lemma py_for_app {A} (xs ys : list A) (body : A -> PyM S unit) s :
  py_for (xs ++ ys) body s = py_bind (py_for xs body) (fun _ => py_for ys body) s.
Proof.
  revert s; induction xs as [|x xs IH]; intros s; simpl; [done|].
  unfold py_bind; simpl. destruct (body x s) as [[[]|e] s']; [|done].
  apply IH.
Qed.

(** The simulation diagram of a for loop: when each iteration, run from
    a state related by [R] to an abstract state [t], returns normally in a
    state related to [f t x], the whole loop is simulated by the left fold
    of [f]. *)
Lemma py_for_sim {A T} (R : T -> S -> Prop) (Q : A -> Prop) (f : T -> A -> T) (xs : list A)
    (body : A -> PyM S unit) t s :
  (forall x t s, Q x -> R t s -> fst (body x s) = Normal tt /\ R (f t x) (snd (body x s))) ->
  Forall Q xs -> R t s ->
  fst (py_for xs body s) = Normal tt /\ R (fold_left f xs t) (snd (py_for xs body s)).
Proof.
  intros Hbody HQ; revert t s; induction HQ as [|x xs Hx HQ IH]; intros t s Hs; simpl; [done|].
  unfold py_bind. destruct (Hbody x t s Hx Hs) as [Hn HR].
  destruct (body x s) as [o s'] eqn:E; simpl in *. subst o. by apply IH.
Qed.

(** An invariant kept by every iteration of a for loop is kept by the
    loop, which then returns normally: the diagram above with a trivial
    abstract state. *)
Lemma py_for_inv {A} (P : S -> Prop) (Q : A -> Prop) (xs : list A)
    (body : A -> PyM S unit) s :
  (forall x s, Q x -> P s -> fst (body x s) = Normal tt /\ P (snd (body x s))) ->
  Forall Q xs -> P s ->
  fst (py_for xs body s) = Normal tt /\ P (snd (py_for xs body s)).
Proof.
  intros Hbody HQ Hs.
  exact (py_for_sim (fun (_ : unit) s => P s) Q (fun t _ => t) xs body tt s
           (fun x _ s Hx Hs => Hbody x s Hx Hs) HQ Hs).
Qed.

End Monad.

Notation "x <- c ;; k" := (py_bind c (fun x => k))
  (at level 100, c at next level, k at level 200, right associativity) : py_scope.
Notation "c ;; k" := (py_bind c (fun _ : unit => k)) : py_scope.

(** [assert_pico_ok(status)] from picosdk.functions: raises unless the
    status is PICO_OK (0). *)
Definition PICO_OK : Z := 0.

Definition assert_pico_ok {S} (status : Z) : PyM S unit :=
  if Z.eq_dec status PICO_OK then py_ret tt else py_raise (PicoSDKError status).

(** ** Python dictionaries given as literals *)

(** [d.get(k)] on a dictionary literal: the first binding of the key. *)
Fixpoint dict_get {K V} `{EqDecision K} (d : list (K * V)) (k : K) : option V :=
  match d with
  | [] => None
  | (k', v) :: d' => if decide (k = k') then Some v else dict_get d' k
  end.

(** [d.get(k, default)] *)
Definition dict_get_default {K V} `{EqDecision K} (d : list (K * V)) (k : K) (dflt : V) : V :=
  default dflt (dict_get d k).

(** [d.get(k, False)] on a [gmap] (the channels dictionary). *)
Definition gmap_get_false (d : gmap string bool) (k : string) : bool :=
  default false (d !! k).

(** ** Strings: Python's [sub in s] and [s.upper()] on ASCII text *)

Fixpoint str_contains (sub s : string) : bool :=
  String.prefix sub s ||
  match s with
  | EmptyString => false
  | String _ s' => str_contains sub s'
  end.

Definition ascii_upper (c : Ascii.ascii) : Ascii.ascii :=
  let n := Ascii.nat_of_ascii c in
  if (97 <=? n)%nat && (n <=? 122)%nat then Ascii.ascii_of_nat (n - 32) else c.

Fixpoint str_upper (s : string) : string :=
  match s with
  | EmptyString => EmptyString
  | String c s' => String (ascii_upper c) (str_upper s')
  end.

(** ** Machine-width integers *)

(** ctypes.c_uint32(x).value: the low 32 bits. *)
Definition wrap_u32 (z : Z) : Z := z mod 2 ^ 32.

(** ctypes.c_int32(x).value: the low 32 bits read in two's complement. *)
Definition wrap_s32 (z : Z) : Z := (z + 2 ^ 31) mod 2 ^ 32 - 2 ^ 31.

Lemma wrap_u32_range z : 0 <= wrap_u32 z < 2 ^ 32.
Proof. unfold wrap_u32. apply Z.mod_pos_bound. lia. Qed.

Lemma wrap_u32_small z : 0 <= z < 2 ^ 32 -> wrap_u32 z = z.
Proof. intros H. unfold wrap_u32. by apply Z.mod_small. Qed.

Lemma wrap_s32_range z : - 2 ^ 31 <= wrap_s32 z < 2 ^ 31.
Proof.
  unfold wrap_s32. pose proof (Z.mod_pos_bound (z + 2 ^ 31) (2 ^ 32)). lia.
Qed.

Lemma wrap_s32_small z : - 2 ^ 31 <= z < 2 ^ 31 -> wrap_s32 z = z.
Proof. intros H. unfold wrap_s32. rewrite Z.mod_small; lia. Qed.

(** ** Python [range(n)] on a possibly negative int *)

Definition py_range (n : Z) : list Z := map Z.of_nat (seq 0 (Z.to_nat n)).

Lemma py_range_length n : length (py_range n) = Z.to_nat n.
Proof. unfold py_range. by rewrite length_map, length_seq. Qed.

Lemma py_range_succ (n : nat) :
  py_range (Z.of_nat (S n)) = py_range (Z.of_nat n) ++ [Z.of_nat n].
Proof.
  unfold py_range. rewrite !Nat2Z.id, seq_S, map_app. done.
Qed.

(** range(x + n) is range(x) followed by x + range(n). *)
Lemma py_range_add x n :
  0 <= x -> 0 <= n -> py_range (x + n) = py_range x ++ map (fun i => x + i) (py_range n).
Proof.
  intros Hx Hn. rewrite <- (Z2Nat.id n) by exact Hn. induction (Z.to_nat n) as [|m IH].
  - by rewrite Z.add_0_r, app_nil_r.
  - replace (x + Z.of_nat (S m)) with (Z.of_nat (S (Z.to_nat x + m))) by lia.
    rewrite py_range_succ, py_range_succ, map_app, app_assoc.
    replace (Z.of_nat (Z.to_nat x + m)) with (x + Z.of_nat m) by lia. rewrite <- IH. reflexivity.
Qed.

Lemma in_py_range z n : 0 <= z < n -> In z (py_range n).
Proof.
  intros Hz. unfold py_range. apply in_map_iff.
  exists (Z.to_nat z). split; [lia|]. apply in_seq. lia.
Qed.

(** A boolean test checked on range(n) by evaluation holds on [0, n). *)
Lemma forallb_py_range (P : Z -> bool) n :
  forallb P (py_range n) = true -> forall z, 0 <= z < n -> P z = true.
Proof.
  intros H z Hz. rewrite forallb_forall in H. apply H.
  apply in_py_range, Hz.
Qed.

(** ** Automation *)

Create HintDb pico discriminated.
Create Rewrite HintDb pico_rw.
#[export] Hint Rewrite @py_bind_ret : pico_rw.
#[export] Hint Resolve wrap_u32_range wrap_s32_range : pico.

(** Unfold the monad plumbing of a goal and split on what blocks it. *)
Ltac py_simpl :=
  repeat (unfold py_bind, py_ret, py_get, py_modify, py_raise, assert_pico_ok in *;
          simpl in *).

(** ** Outcomes without state *)

Definition out_bind {A B} (o : outcome A) (k : A -> outcome B) : outcome B :=
  match o with Normal a => k a | Exc e => Exc e end.

(** Run a stateless outcome inside the monad. *)
Definition py_lift {S A} (o : outcome A) : PyM S A := fun s => (o, s).

(** int(x) on a float: truncation toward zero. *)
Definition py_int (q : QArith_base.Q) : Z := Z.quot (QArith_base.Qnum q) (Zpos (QArith_base.Qden q)).

(** ** Lists *)

Lemma Forall2_in_l {A B} (R : A -> B -> Prop) l k x :
  Forall2 R l k -> In x l -> exists y, In y k /\ R x y.
Proof.
  induction 1 as [|a b l k Hab Hlk IH]; simpl; [done|].
  intros [->|Hx]; [by exists b; auto|]. destruct (IH Hx) as (y & Hy & Hr). exists y; auto.
Qed.

(** ** Frame reasoning: what a computation leaves unchanged

    [preserves f c]: running [c] never changes the projection [f] of the
    state, whatever the outcome.  The combinators preserve it when their
    parts do; the database [frame] and the tactic [frame_tac] discharge
    such goals for a computation built from them. *)

Section Preserves.
Context {S X : Type} (f : S -> X).

Definition preserves {A} (c : PyM S A) : Prop := forall s, f (snd (c s)) = f s.

Lemma preserves_ret {A} (a : A) : preserves (py_ret a).
Proof. intros s. reflexivity. Qed.

Lemma preserves_raise {A} (e : exn) : preserves (py_raise (A:=A) e).
Proof. intros s. reflexivity. Qed.

Lemma preserves_get : preserves py_get.
Proof. intros s. reflexivity. Qed.

Lemma preserves_lift {A} (o : outcome A) : preserves (py_lift o).
Proof. intros s. reflexivity. Qed.

Lemma preserves_modify (g : S -> S) : (forall s, f (g s) = f s) -> preserves (py_modify g).
Proof. intros H s. apply H. Qed.

Lemma preserves_bind {A B} (c : PyM S A) (k : A -> PyM S B) :
  preserves c -> (forall a, preserves (k a)) -> preserves (py_bind c k).
Proof.
  intros Hc Hk s. unfold py_bind. specialize (Hc s).
  destruct (c s) as [[a|e] s']; simpl in *; [rewrite Hk|]; exact Hc.
Qed.

Lemma preserves_try {A} (c : PyM S A) (h : exn -> PyM S A) :
  preserves c -> (forall e, preserves (h e)) -> preserves (py_try c h).
Proof.
  intros Hc Hh s. unfold py_try. specialize (Hc s).
  destruct (c s) as [[a|e] s']; simpl in *; [|rewrite Hh]; exact Hc.
Qed.

Lemma preserves_finally {A} (c : PyM S A) (g : PyM S unit) :
  preserves c -> preserves g -> preserves (py_finally c g).
Proof.
  intros Hc Hg s. unfold py_finally. specialize (Hc s).
  destruct (c s) as [r s']. specialize (Hg s').
  destruct (g s') as [[[]|e] s'']; simpl in *; congruence.
Qed.

Lemma preserves_for {A} (xs : list A) (body : A -> PyM S unit) :
  (forall x, preserves (body x)) -> preserves (py_for xs body).
Proof.
  intros Hb. induction xs as [|x xs IH]; simpl; [apply preserves_ret|].
  apply preserves_bind; [apply Hb | intros _; exact IH].
Qed.

Lemma preserves_pico_ok (st : Z) : preserves (assert_pico_ok st).
Proof. unfold assert_pico_ok. destruct (Z.eq_dec st PICO_OK); [apply preserves_ret | apply preserves_raise]. Qed.
End Preserves.

Create HintDb frame discriminated.
#[export] Hint Resolve preserves_ret preserves_raise preserves_get preserves_lift
  preserves_pico_ok : frame.

(** Decompose a computation with the combinators, splitting on the
    conditionals and matches of its body, and close the leaves with the
    [frame] database. *)
Ltac frame_tac :=
  repeat first
    [ match goal with |- preserves _ _ => fail 1 | |- forall _, _ => intro end
    | match goal with
      | |- preserves _ (py_bind _ _) => apply preserves_bind
      | |- preserves _ (py_try _ _) => apply preserves_try
      | |- preserves _ (py_finally _ _) => apply preserves_finally
      | |- preserves _ (py_for _ _) => apply preserves_for
      | |- preserves _ (py_modify _) => apply preserves_modify; intros; reflexivity
      | |- preserves _ (if ?b then _ else _) => destruct b
      | |- preserves _ (match ?x with _ => _ end) => destruct x
      end
    | solve [eauto with frame] ].
