(* ===== verification/Boot.v ===== *)
(** * Start-up and crash logging (src/main.py)

    main.py runs at import: it prints its banner, computes the directory
    of the program ([base_dir]: the executable's directory when frozen by
    a bundler, the script's otherwise), puts the directory that holds the
    bundled picosdk package in front of sys.path when it exists, and
    names the crash log and a data file in that directory
    ([module_init]).  run_app, when frozen, changes to the executable's
    directory and loads the two vendor DLLs that are present, printing
    what it could not load ([load_dlls]).  [excepthook], installed as
    sys.excepthook, appends the traceback to the crash log when the file
    can be opened, ignores any failure to do so, and always hands the
    exception to the default hook, which prints it on stderr.

    os.path is an interface ([PathOps]: dirname, join, abspath) so that
    the theorems hold for the Windows and the POSIX flavours alike; the
    file system and the loader are an oracle [Env] (which paths exist,
    which DLLs load, which files can be opened for appending, the text of
    a loader error).  The state [Boot] is what the code changes: sys.path,
    the working directory, the loaded libraries, stdout, stderr and the
    contents of the files it appends to. *)

From stdpp Require Import base list gmap strings.
From Stdlib Require Import Ascii String.
From S2P Require Import Prelude.

Open Scope py_scope.

(** ** os.path and the environment *)

Class PathOps := {
  dirname : string -> string;
  join : string -> string -> string;
  abspath : string -> string
}.

Record Env := mkEnv {
  (** getattr(sys, 'frozen', False) *)
  env_frozen : bool;
  (** sys.executable and __file__ *)
  env_executable : string;
  env_file : string;
  (** os.path.exists *)
  env_exists : string -> bool;
  (** ctypes.windll.LoadLibrary succeeds, and the text of its error *)
  env_loads : string -> bool;
  env_load_error : string -> string;
  (** open(path, "a") succeeds *)
  env_can_append : string -> bool
}.

Record Boot := mkBoot {
  sys_path : list string;
  cwd : string;
  loaded : list string;
  stdout : list string;
  stderr : list string;
  files : gmap string string
}.

Section Startup.
Context `{PathOps} (env : Env).

Definition py_print (msg : string) : PyM Boot unit :=
  py_modify (fun b => mkBoot (sys_path b) (cwd b) (loaded b) (stdout b ++ [msg]) (stderr b) (files b)).

(** sys.path.insert(0, p) *)
Definition sys_path_insert0 (p : string) : PyM Boot unit :=
  py_modify (fun b => mkBoot (p :: sys_path b) (cwd b) (loaded b) (stdout b) (stderr b) (files b)).

(** os.chdir(p) *)
Definition chdir (p : string) : PyM Boot unit :=
  py_modify (fun b => mkBoot (sys_path b) p (loaded b) (stdout b) (stderr b) (files b)).

(** The module-level code of main.py up to run_app: returns
    (log_path, csv_path). *)
Definition module_init : PyM Boot (string * string) :=
  py_print "Starting PicoScope GUI Application..." ;;
  b <- py_get ;;
  base_dir <-
    (if env_frozen env then
       let base_dir := dirname (env_executable env) in
       let picosdk_path := join base_dir "picosdk" in
       (if env_exists env picosdk_path && negb (bool_decide (picosdk_path ∈ sys_path b))
        then sys_path_insert0 (dirname picosdk_path) else py_ret tt) ;;
       py_ret base_dir
     else py_ret (dirname (abspath (env_file env)))) ;;
  py_ret (join base_dir "picoscope_crash.log", join base_dir "Data.csv").

(** ctypes.windll.LoadLibrary(dll_path) *)
Definition load_library (p : string) : PyM Boot unit :=
  if env_loads env p
  then py_modify (fun b => mkBoot (sys_path b) (cwd b) (loaded b ++ [p]) (stdout b) (stderr b) (files b))
  else py_raise (OSError p).

(** One iteration of the DLL loop of run_app. *)
Definition load_dll (exe_dir dll_file : string) : PyM Boot unit :=
  let dll_path := join exe_dir dll_file in
  if env_exists env dll_path then
    py_try (load_library dll_path ;; py_print ("Successfully loaded " +:+ dll_file))
           (fun _ => py_print ("Could not load " +:+ dll_file +:+ ": " +:+ env_load_error env dll_path))
  else py_ret tt.

Definition dll_files : list string := ["ps3000a.dll"; "ps4000a.dll"].

(** The frozen-executable block at the top of run_app. *)
Definition load_dlls : PyM Boot unit :=
  if env_frozen env then
    let exe_dir := dirname (env_executable env) in
    chdir exe_dir ;;
    py_for dll_files (load_dll exe_dir)
  else py_ret tt.

(** Append [text] to the file at [p] (with open(p, "a") as f: f.write). *)
Definition append_file (p text : string) : PyM Boot unit :=
  if env_can_append env p
  then py_modify (fun b => mkBoot (sys_path b) (cwd b) (loaded b) (stdout b) (stderr b)
                             (<[p := default "" (files b !! p) +:+ text]> (files b)))
  else py_raise (OSError p).

(** excepthook(exc_type, exc_value, exc_tb) with the crash log
    [log_path]; [tb] is the text traceback.print_exception produces. *)
Definition excepthook (log_path tb : string) : PyM Boot unit :=
  py_try (append_file log_path tb) (fun _ => py_ret tt) ;;
  py_modify (fun b => mkBoot (sys_path b) (cwd b) (loaded b) (stdout b) (stderr b ++ [tb]) (files b)).

End Startup.

(** A POSIX flavour of os.path for the examples: [dirname] drops the
    last component, [join] puts one separator between its arguments,
    paths are already absolute. *)
Fixpoint drop_to_sep (l : list Ascii.ascii) : list Ascii.ascii :=
  match l with
  | [] => []
  | c :: l' => if Ascii.eqb c "/"%char then l' else drop_to_sep l'
  end.

#[export] Instance posix_paths : PathOps := {|
  dirname s := string_of_list_ascii (rev (drop_to_sep (rev (list_ascii_of_string s))));
  join a b := a +:+ "/" +:+ b;
  abspath s := s
|}.

(** ** Theorems *)

Lemma py_try_swallow {S} (c : PyM S unit) s :
  fst (py_try c (fun _ => py_ret tt) s) = Normal tt.
Proof. unfold py_try. destruct (c s) as [[[]|e] s']; reflexivity. Qed.

(** C15: The crash hook never fails.  Whatever happens when the crash log
    is opened, excepthook returns normally, the traceback always reaches
    stderr through the default hook, and the log grows by exactly the
    traceback when it can be opened for appending and is untouched
    otherwise; nothing else changes. *)
Theorem excepthook_total `{PathOps} env log_path tb b :
  fst (excepthook env log_path tb b) = Normal tt /\
  stderr (snd (excepthook env log_path tb b)) = stderr b ++ [tb] /\
  files (snd (excepthook env log_path tb b)) =
    (if env_can_append env log_path
     then <[log_path := default "" (files b !! log_path) +:+ tb]> (files b) else files b) /\
  stdout (snd (excepthook env log_path tb b)) = stdout b /\
  sys_path (snd (excepthook env log_path tb b)) = sys_path b.
Proof.
  unfold excepthook, append_file, py_bind, py_try, py_modify, py_raise.
  destruct (env_can_append env log_path); cbn; repeat split.
Qed.

(** C14: The sys.path guard of a frozen start-up tests the picosdk
    directory but inserts its parent, the program directory: when the
    bundled picosdk exists and the program directory is already on
    sys.path, it is put in front a second time.  The crash log and the
    data file are named in the program directory. *)
Theorem module_init_frozen_sys_path `{PathOps} env b :
  let base_dir := dirname (env_executable env) in
  env_frozen env = true -> env_exists env (join base_dir "picosdk") = true ->
  join base_dir "picosdk" ∉ sys_path b -> dirname (join base_dir "picosdk") = base_dir ->
  fst (module_init env b) = Normal (join base_dir "picoscope_crash.log", join base_dir "Data.csv") /\
  sys_path (snd (module_init env b)) = base_dir :: sys_path b.
Proof.
  intros base_dir Hf He Hn Hd. unfold module_init, py_bind, py_print, py_get, py_modify.
  cbn. rewrite Hf. fold base_dir. rewrite He, bool_decide_false by exact Hn. cbn.
  rewrite Hd. split; reflexivity.
Qed.

(** What one iteration of the DLL loop prints. *)
Definition load_dll_msg `{PathOps} env exe_dir dll : list string :=
  let p := join exe_dir dll in
  if env_exists env p then
    [if env_loads env p then "Successfully loaded " +:+ dll
     else "Could not load " +:+ dll +:+ ": " +:+ env_load_error env p]
  else [].

Lemma load_dll_run `{PathOps} env exe_dir dll b :
  let p := join exe_dir dll in
  load_dll env exe_dir dll b =
  (Normal tt, mkBoot (sys_path b) (cwd b)
                (loaded b ++ (if env_exists env p && env_loads env p then [p] else []))
                (stdout b ++ load_dll_msg env exe_dir dll) (stderr b) (files b)).
Proof.
  cbn. unfold load_dll, load_dll_msg, load_library, py_try, py_bind, py_print, py_modify, py_raise, py_ret.
  destruct (env_exists env (join exe_dir dll)), (env_loads env (join exe_dir dll));
    cbn; rewrite ?app_nil_r; by destruct b.
Qed.

(** C16: A frozen start-up survives missing or broken DLLs: the loading
    block of run_app returns normally whatever the loader does, and the
    libraries loaded are exactly those of ps3000a.dll and ps4000a.dll,
    in that order, that exist in the executable's directory and load;
    it changes to that directory and leaves sys.path alone.  Run as a
    script it does nothing. *)
Theorem load_dlls_total `{PathOps} env b :
  let exe_dir := dirname (env_executable env) in
  fst (load_dlls env b) = Normal tt /\
  loaded (snd (load_dlls env b)) =
    loaded b ++ (if env_frozen env
                 then List.filter (fun p => env_exists env p && env_loads env p)
                                  (map (join exe_dir) dll_files)
                 else []) /\
  cwd (snd (load_dlls env b)) = (if env_frozen env then exe_dir else cwd b) /\
  sys_path (snd (load_dlls env b)) = sys_path b.
Proof.
  intros exe_dir. unfold load_dlls. destruct (env_frozen env); cbn [fst snd];
    [| rewrite app_nil_r; repeat split].
  unfold dll_files, chdir, py_modify, py_bind. cbn [py_for fst snd]. fold exe_dir.
  unfold py_bind. rewrite !load_dll_run. cbn [fst snd py_ret loaded cwd sys_path].
  rewrite <- !app_assoc. cbn [List.filter map].
  destruct (_ && _), (_ && _); repeat split.
Qed.

Definition witness_env : Env :=
  mkEnv true "/opt/pico/app.exe" "/opt/pico/main.py" (fun _ => true) (fun _ => true)
        (fun _ => "") (fun _ => true).

Definition witness_boot : Boot := mkBoot ["/opt/pico"] "/" [] [] [] ∅.

Lemma module_init_frozen_sys_path_witness :
  env_frozen witness_env = true /\ env_exists witness_env "/opt/pico/picosdk" = true /\
  ("/opt/pico/picosdk" ∉ sys_path witness_boot) /\
  sys_path (snd (module_init witness_env witness_boot)) = ["/opt/pico"; "/opt/pico"].
Proof.
  assert (Hn : "/opt/pico/picosdk" ∉ sys_path witness_boot) by (apply (bool_decide_eq_false_1 _); reflexivity).
  split; [reflexivity|]. split; [reflexivity|]. split; [exact Hn|].
  exact (proj2 (module_init_frozen_sys_path witness_env witness_boot eq_refl eq_refl Hn eq_refl)).
Defined.
