(* ===== verification/Driver.v ===== *)
(** * The driver wrappers and the device (src/scope_driver.py)

    [Driver] is the record of the constants that DataAcquisition reads from
    a driver wrapper (the attributes self.driver.ps_...); [ps3000a_driver] and
    [ps4000a_driver] are the two wrappers of scope_driver.py, their
    numeric values being the picosdk enumerations the wrappers alias.
    [_has_digital_channels] and [ratio_mode_none] are the two driver
    capability tests of data_acquisition.py.

    The vendor library itself is not code of this repository: the device
    is an oracle [Device] that answers each call ([dev_call]) with a
    status, the maximum ADC value and, for the n-th poll of
    GetStreamingLatestValues, the list of callback batches it delivers.
    The theorems of the other files quantify over every [Device]. *)

From stdpp Require Import base list strings.
From Stdlib Require Import ZArith QArith.
From S2P Require Import Prelude.

Open Scope Z_scope.

(** ** The driver wrappers *)

Record Driver := mkDriver {
  (** type(self.driver).__name__ *)
  drv_type_name : string;
  (** self.driver.ps_RANGE, a dictionary name -> range code *)
  ps_RANGE : list (string * Z);
  ps_CHANNEL_A : Z; ps_CHANNEL_B : Z; ps_CHANNEL_C : Z; ps_CHANNEL_D : Z;
  ps_20V : Z;
  ps_2V : Z;
  ps_DC : Z;
  ps_US : Z;
  ps_NS : Z;
  (** self.driver.ps_RATIO_MODE, a dictionary *)
  ps_RATIO_MODE : list (string * Z);
  (** hasattr(self.driver, 'ps_DIGITAL_PORTi') and its value *)
  ps_DIGITAL_PORT0 : option Z;
  ps_DIGITAL_PORT1 : option Z
}.

(** picosdk's PS3000A_RANGE enumeration (PS3000A_10MV = 0 ... PS3000A_50V = 11,
    then PS3000A_MAX_RANGES). *)
Definition PS3000A_RANGE : list (string * Z) :=
  [("PS3000A_10MV", 0); ("PS3000A_20MV", 1); ("PS3000A_50MV", 2);
   ("PS3000A_100MV", 3); ("PS3000A_200MV", 4); ("PS3000A_500MV", 5);
   ("PS3000A_1V", 6); ("PS3000A_2V", 7); ("PS3000A_5V", 8);
   ("PS3000A_10V", 9); ("PS3000A_20V", 10); ("PS3000A_50V", 11);
   ("PS3000A_MAX_RANGES", 12)].

(** PS3000ADriver.__init__: the constants it aliases.  It defines no
    ps_DIGITAL_PORT0 / ps_DIGITAL_PORT1 attribute. *)
Definition ps3000a_driver : Driver := {|
  drv_type_name := "PS3000ADriver";
  ps_RANGE := PS3000A_RANGE;
  ps_CHANNEL_A := 0; ps_CHANNEL_B := 1; ps_CHANNEL_C := 2; ps_CHANNEL_D := 3;
  ps_20V := default 10 (dict_get PS3000A_RANGE "PS3000A_20V");
  ps_2V := default 7 (dict_get PS3000A_RANGE "PS3000A_2V");
  ps_DC := 1;
  ps_US := 3;
  ps_NS := 2;
  ps_RATIO_MODE := [("PS3000A_RATIO_MODE_NONE", 0); ("PS3000A_RATIO_MODE_AGGREGATE", 1);
                    ("PS3000A_RATIO_MODE_DECIMATE", 2); ("PS3000A_RATIO_MODE_AVERAGE", 4)];
  ps_DIGITAL_PORT0 := None;
  ps_DIGITAL_PORT1 := None
|}.

(** PS4000ADriver.__init__: ps_RANGE is the module's PICO_VOLTAGE_RANGE
    dictionary, a parameter here; ps_20V and ps_2V are the literals 10
    and 7 of the source.  No digital port attribute either. *)
Definition ps4000a_driver (pico_voltage_range : list (string * Z)) : Driver := {|
  drv_type_name := "PS4000ADriver";
  ps_RANGE := pico_voltage_range;
  ps_CHANNEL_A := 0; ps_CHANNEL_B := 1; ps_CHANNEL_C := 2; ps_CHANNEL_D := 3;
  ps_20V := 10;
  ps_2V := 7;
  ps_DC := 1;
  ps_US := 3;
  ps_NS := 2;
  ps_RATIO_MODE := [("PS4000A_RATIO_MODE_NONE", 0); ("PS4000A_RATIO_MODE_AGGREGATE", 1);
                    ("PS4000A_RATIO_MODE_DECIMATE", 2); ("PS4000A_RATIO_MODE_AVERAGE", 4)];
  ps_DIGITAL_PORT0 := None;
  ps_DIGITAL_PORT1 := None
|}.

(** DataAcquisition._has_digital_channels *)
Definition _has_digital_channels (drv : Driver) : bool :=
  bool_decide (is_Some (ps_DIGITAL_PORT0 drv)) && bool_decide (is_Some (ps_DIGITAL_PORT1 drv)).

(** The ratio-mode constant of setup_buffers and run_streaming: both
    wrappers hold a dictionary, so the first branch is taken. *)
Definition ratio_mode_none (drv : Driver) : Z :=
  dict_get_default (ps_RATIO_MODE drv) "PS3000A_RATIO_MODE_NONE" 0.

(** ** The device *)

(** The buffers the engine registers: one per analog channel, one per
    digital port. *)
Inductive buf_id := BufA | BufB | BufC | BufD | BufDig0 | BufDig1.

#[export] Instance buf_id_eq_dec : EqDecision buf_id.
Proof. solve_decision. Defined.

(** The vendor calls the engine (and Info.py) makes, with the arguments
    that matter. *)
Inductive dev_call :=
| OpenUnit
| ChangePowerSource (power_status : Z)
| MaximumValue
| SetChannel (channel enabled coupling range : Z) (offset : Q)
| SetDataBuffers (source len segment ratio : Z)
| RunStreaming (interval units pretrigger total autostop downsample ratio buflen : Z)
| GetStreamingLatestValues
| Stop
| CloseUnit
| GetUnitInfo (info : Z).

(** One invocation of the streaming callback: noOfSamples, startIndex,
    overflow and autoStop, and the values the driver wrote into each
    registered buffer from startIndex on before calling back. *)
Record batch := mkBatch {
  b_noOfSamples : Z;
  b_startIndex : Z;
  b_overflow : Z;
  b_autoStop : bool;
  b_data : buf_id -> list Z
}.

Record Device := mkDevice {
  dev_status : dev_call -> Z;
  (** the value psMaximumValue writes into maxADC *)
  dev_maxADC : Z;
  (** the batches delivered by the n-th call of GetStreamingLatestValues *)
  dev_batches : nat -> list batch
}.

(** The driver's own contract on a batch: it fits in buffers of
    [size] samples, and it wrote exactly noOfSamples values. *)
Definition batch_ok (size : Z) (b : batch) : Prop :=
  0 <= b_startIndex b /\ 0 <= b_noOfSamples b /\
  b_startIndex b + b_noOfSamples b <= size /\
  forall i, length (b_data b i) = Z.to_nat (b_noOfSamples b).
