(* ===== verification/Calibration.v ===== *)
(** * The calibration model (DataAcquisition.adc_to_mv_single)

    [voltage_ranges] is the dictionary literal of adc_to_mv_single (range
    code -> full scale in volts), [full_scale_volts] its lookup with the
    20 V default, and [adc_to_mv_single] the conversion of one ADC count to
    millivolts, raising ZeroDivisionError when maxADC is 0 as Python does.
    Floats are exact rationals; results are compared with [Qeq], lifted to
    outcomes as the setoid [out_Qeq].

    The theorems: the value on the non-zero path, linearity in the count,
    inverse proportionality in maxADC, the fallback of unknown codes, the
    strict order of the table, the bound |mV| <= full scale, and the
    division-by-zero error. *)

From stdpp Require Import base list.
From Stdlib Require Import ZArith QArith Qfield Qabs Lia Lqa.
From Stdlib Require Import Morphisms RelationClasses.
From S2P Require Import Prelude.

Open Scope Q_scope.

(** The [voltage_ranges] literal: range code -> full scale (V). *)
Definition voltage_ranges : list (Z * Q) :=
  [(0%Z, 1#100); (1%Z, 2#100); (2%Z, 5#100); (3%Z, 1#10); (4%Z, 2#10);
   (5%Z, 5#10); (6%Z, 1); (7%Z, 2); (8%Z, 5); (9%Z, 10); (10%Z, 20);
   (11%Z, 50); (12%Z, 100); (13%Z, 200)].

(** voltage_ranges.get(voltage_range_constant, 20.0) *)
Definition full_scale_volts (voltage_range_constant : Z) : Q :=
  dict_get_default voltage_ranges voltage_range_constant 20.

(** adc_to_mv_single(adc_value, voltage_range_constant, maxADC):
    (int(adc_value) * vRange * 1000.0) / maxADC.value *)
Definition adc_to_mv_single (adc_value voltage_range_constant maxADC : Z) : outcome Q :=
  let vRange := full_scale_volts voltage_range_constant in
  if Z.eq_dec maxADC 0 then Exc ZeroDivisionError
  else Normal ((inject_Z adc_value * vRange * 1000) / inject_Z maxADC).

(** ** Outcomes up to equality of rationals *)

Definition out_Qeq (o1 o2 : outcome Q) : Prop :=
  match o1, o2 with
  | Normal a, Normal b => a == b
  | Exc e1, Exc e2 => e1 = e2
  | _, _ => False
  end.

#[export] Instance out_Qeq_equiv : Equivalence out_Qeq.
Proof.
  split.
  - intros [a|e]; simpl; reflexivity.
  - intros [a|e] [b|e']; simpl; auto. intros H; symmetry; exact H.
  - intros [a|e] [b|e'] [c|e'']; simpl; try tauto.
    + intros H1 H2. rewrite H1; exact H2.
    + intros -> ->; reflexivity.
Qed.

Definition out_map (f : Q -> Q) (o : outcome Q) : outcome Q :=
  match o with Normal a => Normal (f a) | Exc e => Exc e end.

#[export] Instance out_map_proper (f : Q -> Q) :
  Proper (Qeq ==> Qeq) f -> Proper (out_Qeq ==> out_Qeq) (out_map f).
Proof. intros Hf [a|e] [b|e']; simpl; auto. Qed.

(** ** Facts about the table *)

Lemma full_scale_volts_pos r : 0 < full_scale_volts r.
Proof.
  unfold full_scale_volts, dict_get_default.
  repeat (simpl; case_decide; [reflexivity|]). reflexivity.
Qed.

Lemma full_scale_volts_unknown r :
  (r < 0 \/ 13 < r)%Z -> full_scale_volts r = 20.
Proof.
  intros Hr. unfold full_scale_volts, dict_get_default.
  repeat (simpl; case_decide; [subst; lia|]). reflexivity.
Qed.

Lemma adc_to_mv_single_normal adc r m :
  m <> 0%Z ->
  adc_to_mv_single adc r m = Normal ((inject_Z adc * full_scale_volts r * 1000) / inject_Z m).
Proof. intros Hm. unfold adc_to_mv_single. by destruct (Z.eq_dec m 0). Qed.

Lemma inject_Z_nonzero m : m <> 0%Z -> ~ inject_Z m == 0.
Proof. intros Hm H. apply Hm. rewrite <- (inject_Z_injective m 0). exact H. Qed.

Lemma full_scale_volts_nonzero r : ~ full_scale_volts r == 0.
Proof. intros H. pose proof (full_scale_volts_pos r) as Hp. rewrite H in Hp. discriminate. Qed.

#[export] Hint Resolve full_scale_volts_pos full_scale_volts_nonzero inject_Z_nonzero : pico.

Lemma inject_Z_le_iff a b : (a <= b)%Z <-> inject_Z a <= inject_Z b.
Proof. by rewrite Zle_Qle. Qed.

(** Enumerate the fourteen codes of the table. *)
Lemma table_code_cases r :
  (0 <= r <= 13)%Z ->
  r = 0%Z \/ r = 1%Z \/ r = 2%Z \/ r = 3%Z \/ r = 4%Z \/ r = 5%Z \/ r = 6%Z \/
  r = 7%Z \/ r = 8%Z \/ r = 9%Z \/ r = 10%Z \/ r = 11%Z \/ r = 12%Z \/ r = 13%Z.
Proof. lia. Qed.

(** ** Theorems *)

(** Scaling the raw count by any integer factor scales the millivolt
    value by the same factor (linearity in raw_count), for every range
    code and every maxADC, the error path included. *)
Theorem adc_to_mv_single_linear (k c r m : Z) :
  out_Qeq (adc_to_mv_single (k * c) r m)
          (out_map (Qmult (inject_Z k)) (adc_to_mv_single c r m)).
Proof.
  unfold adc_to_mv_single. destruct (Z.eq_dec m 0) as [|Hm]; simpl; [done|].
  rewrite inject_Z_mult. field. auto with pico.
Qed.

(** Doubling maxADC halves the millivolt value (inverse
    proportionality in max_adc_count). *)
Theorem adc_to_mv_single_double_max (c r m : Z) :
  out_Qeq (adc_to_mv_single c r (2 * m))
          (out_map (fun q => q / 2) (adc_to_mv_single c r m)).
Proof.
  unfold adc_to_mv_single.
  destruct (Z.eq_dec (2 * m) 0), (Z.eq_dec m 0); simpl; try done; try lia.
  rewrite inject_Z_mult. field. auto with pico.
Qed.

(** The documented example: raw count 16384 on the 20 V range (code
    10) with maxADC 32768 gives 10000 mV. *)
Example adc_to_mv_single_example :
  out_Qeq (adc_to_mv_single 16384 10 32768) (Normal 10000).
Proof. vm_compute. reflexivity. Qed.

(** A range code outside the fourteen-entry table converts exactly as
    the 20 V code (10) does: the lookup falls back to 20 V instead of
    failing. *)
Theorem adc_to_mv_single_unknown_code (c r m : Z) :
  (r < 0 \/ 13 < r)%Z ->
  adc_to_mv_single c r m = adc_to_mv_single c 10 m.
Proof.
  intros Hr. unfold adc_to_mv_single. rewrite full_scale_volts_unknown by exact Hr.
  reflexivity.
Qed.

Lemma adc_to_mv_single_unknown_code_witness :
  (14 < 0 \/ 13 < 14)%Z /\
  adc_to_mv_single 16384 14 32768 = adc_to_mv_single 16384 10 32768.
Proof.
  split; [lia|]. apply adc_to_mv_single_unknown_code. lia.
Defined.

(** The table is strictly increasing: a larger range code of the
    table always means a larger full scale, so the codes 0..13 are the
    ranges 10 mV .. 200 V in order. *)
Theorem full_scale_volts_strict_mono (r1 r2 : Z) :
  (0 <= r1)%Z -> (r1 < r2)%Z -> (r2 <= 13)%Z ->
  full_scale_volts r1 < full_scale_volts r2.
Proof.
  intros H1 H12 H2.
  destruct (table_code_cases r1) as [|[|[|[|[|[|[|[|[|[|[|[|[|]]]]]]]]]]]]]; [lia|..];
  destruct (table_code_cases r2) as [|[|[|[|[|[|[|[|[|[|[|[|[|]]]]]]]]]]]]]; try lia;
  subst; vm_compute; reflexivity.
Qed.

Lemma full_scale_volts_strict_mono_witness :
  full_scale_volts 7 < full_scale_volts 10.
Proof. apply full_scale_volts_strict_mono; lia. Defined.

(** C37: For 0 < maxADC and a raw count with |count| <= maxADC, the
    conversion returns a value whose magnitude is at most the full scale
    of the range in millivolts. *)
Theorem adc_to_mv_single_bounded (c r m : Z) :
  (0 < m)%Z -> (Z.abs c <= m)%Z ->
  exists q, adc_to_mv_single c r m = Normal q /\ Qabs q <= full_scale_volts r * 1000.
Proof.
  intros Hm Hc. eexists; split; [apply adc_to_mv_single_normal; lia|].
  pose proof (full_scale_volts_pos r) as Hv.
  set (v := full_scale_volts r) in *.
  assert (Hm' : 0 < inject_Z m) by (change 0 with (inject_Z 0); rewrite <- Zlt_Qlt; lia).
  assert (Hlo : inject_Z (- m)%Z <= inject_Z c) by (apply (proj1 (inject_Z_le_iff _ _)); lia).
  assert (Hhi : inject_Z c <= inject_Z m) by (apply (proj1 (inject_Z_le_iff _ _)); lia).
  rewrite inject_Z_opp in Hlo.
  apply Qabs_Qle_condition; split.
  - apply Qle_shift_div_l; [exact Hm'|]. nra.
  - apply Qle_shift_div_r; [exact Hm'|]. nra.
Qed.

Lemma adc_to_mv_single_bounded_witness :
  (0 < 32767)%Z /\ (Z.abs (-32767) <= 32767)%Z /\
  exists q, adc_to_mv_single (-32767) 10 32767 = Normal q /\ Qabs q <= full_scale_volts 10 * 1000.
Proof.
  split; [lia|]. split; [vm_compute; discriminate|].
  apply adc_to_mv_single_bounded; [lia | vm_compute; discriminate].
Defined.
