(* ===== verification/Sink.v ===== *)
(** * The CSV sink (the csv file of DataAcquisition)

    start_recording opens the file with open(filename, 'w', newline=''),
    wraps it in csv.writer, and writes the header row; streaming_callback
    appends one row per sample and calls flush() every 1000 samples;
    stop_recording closes it.  [CsvFile] is that file object: the rows
    written so far (header first), the number of them certainly on disk
    (a flush or close writes everything; Python's own buffer may write
    earlier, so [csv_flushed] is the guaranteed durable prefix), and the
    closed flag.  [cell] is what a row holds: a float (exact rational), an
    int (the ns timestamps and the digital bits), or a string (the
    header).  [make_header] is the header built by start_recording. *)

From stdpp Require Import base list gmap strings pretty.
From Stdlib Require Import ZArith QArith.
From S2P Require Import Prelude.

Open Scope Z_scope.

Inductive cell :=
| CNum (q : Q)
| CInt (z : Z)
| CStr (s : string).

Definition row := list cell.

Record CsvFile := mkCsvFile {
  csv_rows : list row;
  csv_flushed : nat;
  csv_closed : bool
}.

(** open(filename, mode='w', newline=''): an empty file. *)
Definition csv_open : CsvFile := {| csv_rows := []; csv_flushed := 0; csv_closed := false |}.

(** csvwriter.writerow(row) *)
Definition csv_writerow (r : row) (f : CsvFile) : CsvFile :=
  {| csv_rows := csv_rows f ++ [r]; csv_flushed := csv_flushed f; csv_closed := csv_closed f |}.

(** csvfile.flush() *)
Definition csv_flush (f : CsvFile) : CsvFile :=
  {| csv_rows := csv_rows f; csv_flushed := length (csv_rows f); csv_closed := csv_closed f |}.

(** csvfile.close(): flushes, then marks the file closed (a second close
    does nothing). *)
Definition csv_close (f : CsvFile) : CsvFile :=
  {| csv_rows := csv_rows f; csv_flushed := length (csv_rows f); csv_closed := true |}.

(** The header of start_recording: 'Time (<unit>)', one column per
    enabled analog channel in the order A, B, C, D, then 'D<n>' for each
    digital channel, in the given order. *)
Definition channel_header (channels : gmap string bool) (ch : string) : list cell :=
  if gmap_get_false channels ch then [CStr ("Channel " +:+ ch +:+ " (mV)")] else [].

Definition make_header (time_unit : string) (channels : gmap string bool)
    (digital_channels : list Z) : row :=
  [CStr ("Time (" +:+ time_unit +:+ ")")] ++
  channel_header channels "A" ++ channel_header channels "B" ++
  channel_header channels "C" ++ channel_header channels "D" ++
  map (fun dch => CStr ("D" +:+ pretty dch)) digital_channels.

(** The number of enabled analog channels. *)
Definition n_enabled (channels : gmap string bool) : nat :=
  length (filter (gmap_get_false channels) ["A"; "B"; "C"; "D"]).

Lemma channel_header_length channels ch :
  length (channel_header channels ch) = if gmap_get_false channels ch then 1%nat else 0%nat.
Proof. unfold channel_header. by destruct (gmap_get_false channels ch). Qed.

Lemma make_header_length time_unit channels digital_channels :
  length (make_header time_unit channels digital_channels) =
  (1 + n_enabled channels + length digital_channels)%nat.
Proof.
  unfold make_header, n_enabled. rewrite !length_app, !channel_header_length, length_map.
  simpl. rewrite !filter_cons, filter_nil.
  destruct (gmap_get_false channels "A"), (gmap_get_false channels "B"),
    (gmap_get_false channels "C"), (gmap_get_false channels "D"); simpl; lia.
Qed.

Lemma csv_writerow_rows r f : csv_rows (csv_writerow r f) = csv_rows f ++ [r].
Proof. reflexivity. Qed.

Lemma csv_writerow_flushed r f : csv_flushed (csv_writerow r f) = csv_flushed f.
Proof. reflexivity. Qed.

#[export] Hint Rewrite csv_writerow_rows csv_writerow_flushed : pico_rw.

(** ** Comparing rows by value (floats compare as numbers) *)

Definition cell_eqb (c1 c2 : cell) : bool :=
  match c1, c2 with
  | CNum a, CNum b => Qeq_bool a b
  | CInt a, CInt b => Z.eqb a b
  | CStr a, CStr b => String.eqb a b
  | _, _ => false
  end.

Fixpoint row_eqb (r1 r2 : row) : bool :=
  match r1, r2 with
  | [], [] => true
  | c1 :: r1', c2 :: r2' => cell_eqb c1 c2 && row_eqb r1' r2'
  | _, _ => false
  end.

Fixpoint rows_eqb (l1 l2 : list row) : bool :=
  match l1, l2 with
  | [], [] => true
  | r1 :: l1', r2 :: l2' => row_eqb r1 r2 && rows_eqb l1' l2'
  | _, _ => false
  end.
