(* ===== verification/AcqState.v ===== *)
(** * The state of the acquisition engine (class DataAcquisition)

    [DataAcquisition] has one field per attribute of the Python object
    that the engine reads or writes (the write-only status dictionary,
    the unused bufferComplete* attributes and the ctypes
    callback pointer are left out); [set_x] replaces attribute x.
    [acq_init] is DataAcquisition(driver=None), the module singleton
    _acquisition_instance before main.run_app installs the driver.

    [World] adds what lies outside the object: the trace of vendor calls
    with the statuses they returned, whether the module global
    first_sample_recorded is connected, how many times it was emitted,
    and how many times the device has been polled.  [dev] performs one
    vendor call against a [Device]. *)

From stdpp Require Import base list gmap strings.
From Stdlib Require Import ZArith QArith.
From S2P Require Import Prelude Driver Sink.

Open Scope Z_scope.

(** The value stored in voltage_range[ch]: None, a range code, or a
    string (set_voltage_range converts strings, so the last case only
    arises if the dictionary is written directly). *)
Inductive range_value :=
| RNone
| RCode (code : Z)
| RStr (s : string).

Record DataAcquisition := mkAcq {
  (** self.driver (None until main.run_app sets it) *)
  driver : option Driver;
  (** self.chandle, the c_int16 device handle *)
  chandle : Z;
  is_recording : bool;
  totalSamples : Z;
  nextSample : Z;
  autoStopOuter : bool;
  wasCalledBack : bool;
  csvfile : option CsvFile;
  (** self.csvwriter is not None *)
  csvwriter : bool;
  (** self.maxADC.value (c_int16) *)
  maxADC : Z;
  sample_interval : Q;
  sampleIntervalNs : Z;
  time_unit : string;
  digital_channels : list Z;
  (** self.channels (an attribute first set by start_recording) *)
  channels : gmap string bool;
  voltage_range : gmap string range_value;
  voltage_offset : gmap string Q;
  (** self.voltage_max, written by set_voltage_rail, never read *)
  voltage_max : gmap string (option Q);
  (** bufferAMax ... bufferDigitalMax1 (None before setup_buffers allocates them) *)
  buffers : buf_id -> option (list Z)
}.

Definition set_driver (v : option Driver) (a : DataAcquisition) : DataAcquisition :=
  {|
     driver := v; chandle := chandle a; is_recording := is_recording a; totalSamples := totalSamples a;
     nextSample := nextSample a; autoStopOuter := autoStopOuter a; wasCalledBack := wasCalledBack a; csvfile := csvfile a;
     csvwriter := csvwriter a; maxADC := maxADC a; sample_interval := sample_interval a; sampleIntervalNs := sampleIntervalNs a;
     time_unit := time_unit a; digital_channels := digital_channels a; channels := channels a; voltage_range := voltage_range a;
     voltage_offset := voltage_offset a; voltage_max := voltage_max a; buffers := buffers a |}.

Definition set_chandle (v : Z) (a : DataAcquisition) : DataAcquisition :=
  {|
     driver := driver a; chandle := v; is_recording := is_recording a; totalSamples := totalSamples a;
     nextSample := nextSample a; autoStopOuter := autoStopOuter a; wasCalledBack := wasCalledBack a; csvfile := csvfile a;
     csvwriter := csvwriter a; maxADC := maxADC a; sample_interval := sample_interval a; sampleIntervalNs := sampleIntervalNs a;
     time_unit := time_unit a; digital_channels := digital_channels a; channels := channels a; voltage_range := voltage_range a;
     voltage_offset := voltage_offset a; voltage_max := voltage_max a; buffers := buffers a |}.

Definition set_is_recording (v : bool) (a : DataAcquisition) : DataAcquisition :=
  {|
     driver := driver a; chandle := chandle a; is_recording := v; totalSamples := totalSamples a;
     nextSample := nextSample a; autoStopOuter := autoStopOuter a; wasCalledBack := wasCalledBack a; csvfile := csvfile a;
     csvwriter := csvwriter a; maxADC := maxADC a; sample_interval := sample_interval a; sampleIntervalNs := sampleIntervalNs a;
     time_unit := time_unit a; digital_channels := digital_channels a; channels := channels a; voltage_range := voltage_range a;
     voltage_offset := voltage_offset a; voltage_max := voltage_max a; buffers := buffers a |}.

Definition set_totalSamples (v : Z) (a : DataAcquisition) : DataAcquisition :=
  {|
     driver := driver a; chandle := chandle a; is_recording := is_recording a; totalSamples := v;
     nextSample := nextSample a; autoStopOuter := autoStopOuter a; wasCalledBack := wasCalledBack a; csvfile := csvfile a;
     csvwriter := csvwriter a; maxADC := maxADC a; sample_interval := sample_interval a; sampleIntervalNs := sampleIntervalNs a;
     time_unit := time_unit a; digital_channels := digital_channels a; channels := channels a; voltage_range := voltage_range a;
     voltage_offset := voltage_offset a; voltage_max := voltage_max a; buffers := buffers a |}.

Definition set_nextSample (v : Z) (a : DataAcquisition) : DataAcquisition :=
  {|
     driver := driver a; chandle := chandle a; is_recording := is_recording a; totalSamples := totalSamples a;
     nextSample := v; autoStopOuter := autoStopOuter a; wasCalledBack := wasCalledBack a; csvfile := csvfile a;
     csvwriter := csvwriter a; maxADC := maxADC a; sample_interval := sample_interval a; sampleIntervalNs := sampleIntervalNs a;
     time_unit := time_unit a; digital_channels := digital_channels a; channels := channels a; voltage_range := voltage_range a;
     voltage_offset := voltage_offset a; voltage_max := voltage_max a; buffers := buffers a |}.

Definition set_autoStopOuter (v : bool) (a : DataAcquisition) : DataAcquisition :=
  {|
     driver := driver a; chandle := chandle a; is_recording := is_recording a; totalSamples := totalSamples a;
     nextSample := nextSample a; autoStopOuter := v; wasCalledBack := wasCalledBack a; csvfile := csvfile a;
     csvwriter := csvwriter a; maxADC := maxADC a; sample_interval := sample_interval a; sampleIntervalNs := sampleIntervalNs a;
     time_unit := time_unit a; digital_channels := digital_channels a; channels := channels a; voltage_range := voltage_range a;
     voltage_offset := voltage_offset a; voltage_max := voltage_max a; buffers := buffers a |}.

Definition set_wasCalledBack (v : bool) (a : DataAcquisition) : DataAcquisition :=
  {|
     driver := driver a; chandle := chandle a; is_recording := is_recording a; totalSamples := totalSamples a;
     nextSample := nextSample a; autoStopOuter := autoStopOuter a; wasCalledBack := v; csvfile := csvfile a;
     csvwriter := csvwriter a; maxADC := maxADC a; sample_interval := sample_interval a; sampleIntervalNs := sampleIntervalNs a;
     time_unit := time_unit a; digital_channels := digital_channels a; channels := channels a; voltage_range := voltage_range a;
     voltage_offset := voltage_offset a; voltage_max := voltage_max a; buffers := buffers a |}.

Definition set_csvfile (v : option CsvFile) (a : DataAcquisition) : DataAcquisition :=
  {|
     driver := driver a; chandle := chandle a; is_recording := is_recording a; totalSamples := totalSamples a;
     nextSample := nextSample a; autoStopOuter := autoStopOuter a; wasCalledBack := wasCalledBack a; csvfile := v;
     csvwriter := csvwriter a; maxADC := maxADC a; sample_interval := sample_interval a; sampleIntervalNs := sampleIntervalNs a;
     time_unit := time_unit a; digital_channels := digital_channels a; channels := channels a; voltage_range := voltage_range a;
     voltage_offset := voltage_offset a; voltage_max := voltage_max a; buffers := buffers a |}.

Definition set_csvwriter (v : bool) (a : DataAcquisition) : DataAcquisition :=
  {|
     driver := driver a; chandle := chandle a; is_recording := is_recording a; totalSamples := totalSamples a;
     nextSample := nextSample a; autoStopOuter := autoStopOuter a; wasCalledBack := wasCalledBack a; csvfile := csvfile a;
     csvwriter := v; maxADC := maxADC a; sample_interval := sample_interval a; sampleIntervalNs := sampleIntervalNs a;
     time_unit := time_unit a; digital_channels := digital_channels a; channels := channels a; voltage_range := voltage_range a;
     voltage_offset := voltage_offset a; voltage_max := voltage_max a; buffers := buffers a |}.

Definition set_maxADC (v : Z) (a : DataAcquisition) : DataAcquisition :=
  {|
     driver := driver a; chandle := chandle a; is_recording := is_recording a; totalSamples := totalSamples a;
     nextSample := nextSample a; autoStopOuter := autoStopOuter a; wasCalledBack := wasCalledBack a; csvfile := csvfile a;
     csvwriter := csvwriter a; maxADC := v; sample_interval := sample_interval a; sampleIntervalNs := sampleIntervalNs a;
     time_unit := time_unit a; digital_channels := digital_channels a; channels := channels a; voltage_range := voltage_range a;
     voltage_offset := voltage_offset a; voltage_max := voltage_max a; buffers := buffers a |}.

Definition set_sample_interval (v : Q) (a : DataAcquisition) : DataAcquisition :=
  {|
     driver := driver a; chandle := chandle a; is_recording := is_recording a; totalSamples := totalSamples a;
     nextSample := nextSample a; autoStopOuter := autoStopOuter a; wasCalledBack := wasCalledBack a; csvfile := csvfile a;
     csvwriter := csvwriter a; maxADC := maxADC a; sample_interval := v; sampleIntervalNs := sampleIntervalNs a;
     time_unit := time_unit a; digital_channels := digital_channels a; channels := channels a; voltage_range := voltage_range a;
     voltage_offset := voltage_offset a; voltage_max := voltage_max a; buffers := buffers a |}.

Definition set_sampleIntervalNs (v : Z) (a : DataAcquisition) : DataAcquisition :=
  {|
     driver := driver a; chandle := chandle a; is_recording := is_recording a; totalSamples := totalSamples a;
     nextSample := nextSample a; autoStopOuter := autoStopOuter a; wasCalledBack := wasCalledBack a; csvfile := csvfile a;
     csvwriter := csvwriter a; maxADC := maxADC a; sample_interval := sample_interval a; sampleIntervalNs := v;
     time_unit := time_unit a; digital_channels := digital_channels a; channels := channels a; voltage_range := voltage_range a;
     voltage_offset := voltage_offset a; voltage_max := voltage_max a; buffers := buffers a |}.

Definition set_time_unit (v : string) (a : DataAcquisition) : DataAcquisition :=
  {|
     driver := driver a; chandle := chandle a; is_recording := is_recording a; totalSamples := totalSamples a;
     nextSample := nextSample a; autoStopOuter := autoStopOuter a; wasCalledBack := wasCalledBack a; csvfile := csvfile a;
     csvwriter := csvwriter a; maxADC := maxADC a; sample_interval := sample_interval a; sampleIntervalNs := sampleIntervalNs a;
     time_unit := v; digital_channels := digital_channels a; channels := channels a; voltage_range := voltage_range a;
     voltage_offset := voltage_offset a; voltage_max := voltage_max a; buffers := buffers a |}.

Definition set_digital_channels (v : list Z) (a : DataAcquisition) : DataAcquisition :=
  {|
     driver := driver a; chandle := chandle a; is_recording := is_recording a; totalSamples := totalSamples a;
     nextSample := nextSample a; autoStopOuter := autoStopOuter a; wasCalledBack := wasCalledBack a; csvfile := csvfile a;
     csvwriter := csvwriter a; maxADC := maxADC a; sample_interval := sample_interval a; sampleIntervalNs := sampleIntervalNs a;
     time_unit := time_unit a; digital_channels := v; channels := channels a; voltage_range := voltage_range a;
     voltage_offset := voltage_offset a; voltage_max := voltage_max a; buffers := buffers a |}.

Definition set_channels (v : gmap string bool) (a : DataAcquisition) : DataAcquisition :=
  {|
     driver := driver a; chandle := chandle a; is_recording := is_recording a; totalSamples := totalSamples a;
     nextSample := nextSample a; autoStopOuter := autoStopOuter a; wasCalledBack := wasCalledBack a; csvfile := csvfile a;
     csvwriter := csvwriter a; maxADC := maxADC a; sample_interval := sample_interval a; sampleIntervalNs := sampleIntervalNs a;
     time_unit := time_unit a; digital_channels := digital_channels a; channels := v; voltage_range := voltage_range a;
     voltage_offset := voltage_offset a; voltage_max := voltage_max a; buffers := buffers a |}.

Definition set_voltage_range (v : gmap string range_value) (a : DataAcquisition) : DataAcquisition :=
  {|
     driver := driver a; chandle := chandle a; is_recording := is_recording a; totalSamples := totalSamples a;
     nextSample := nextSample a; autoStopOuter := autoStopOuter a; wasCalledBack := wasCalledBack a; csvfile := csvfile a;
     csvwriter := csvwriter a; maxADC := maxADC a; sample_interval := sample_interval a; sampleIntervalNs := sampleIntervalNs a;
     time_unit := time_unit a; digital_channels := digital_channels a; channels := channels a; voltage_range := v;
     voltage_offset := voltage_offset a; voltage_max := voltage_max a; buffers := buffers a |}.

Definition set_voltage_offset (v : gmap string Q) (a : DataAcquisition) : DataAcquisition :=
  {|
     driver := driver a; chandle := chandle a; is_recording := is_recording a; totalSamples := totalSamples a;
     nextSample := nextSample a; autoStopOuter := autoStopOuter a; wasCalledBack := wasCalledBack a; csvfile := csvfile a;
     csvwriter := csvwriter a; maxADC := maxADC a; sample_interval := sample_interval a; sampleIntervalNs := sampleIntervalNs a;
     time_unit := time_unit a; digital_channels := digital_channels a; channels := channels a; voltage_range := voltage_range a;
     voltage_offset := v; voltage_max := voltage_max a; buffers := buffers a |}.

Definition set_voltage_max (v : gmap string (option Q)) (a : DataAcquisition) : DataAcquisition :=
  {|
     driver := driver a; chandle := chandle a; is_recording := is_recording a; totalSamples := totalSamples a;
     nextSample := nextSample a; autoStopOuter := autoStopOuter a; wasCalledBack := wasCalledBack a; csvfile := csvfile a;
     csvwriter := csvwriter a; maxADC := maxADC a; sample_interval := sample_interval a; sampleIntervalNs := sampleIntervalNs a;
     time_unit := time_unit a; digital_channels := digital_channels a; channels := channels a; voltage_range := voltage_range a;
     voltage_offset := voltage_offset a; voltage_max := v; buffers := buffers a |}.

Definition set_buffers (v : buf_id -> option (list Z)) (a : DataAcquisition) : DataAcquisition :=
  {|
     driver := driver a; chandle := chandle a; is_recording := is_recording a; totalSamples := totalSamples a;
     nextSample := nextSample a; autoStopOuter := autoStopOuter a; wasCalledBack := wasCalledBack a; csvfile := csvfile a;
     csvwriter := csvwriter a; maxADC := maxADC a; sample_interval := sample_interval a; sampleIntervalNs := sampleIntervalNs a;
     time_unit := time_unit a; digital_channels := digital_channels a; channels := channels a; voltage_range := voltage_range a;
     voltage_offset := voltage_offset a; voltage_max := voltage_max a; buffers := v |}.
(** DataAcquisition.__init__(driver) *)
Definition acq_init (drv : option Driver) : DataAcquisition := {|
  driver := drv; chandle := 0; is_recording := false; totalSamples := 0;
  nextSample := 0; autoStopOuter := false; wasCalledBack := false;
  csvfile := None; csvwriter := false; maxADC := 0;
  sample_interval := 1#4; sampleIntervalNs := 250 * 1000; time_unit := "ms";
  digital_channels := [];
  channels := ∅;
  voltage_range := <["A" := RNone]> (<["B" := RNone]> (<["C" := RNone]> {["D" := RNone]}));
  voltage_offset := <["A" := 0%Q]> (<["B" := 0%Q]> (<["C" := 0%Q]> {["D" := 0%Q]}));
  voltage_max := <["A" := None]> (<["B" := None]> (<["C" := None]> {["D" := None]}));
  buffers := fun _ => None
|}.

Record World := mkWorld {
  w_acq : DataAcquisition;
  (** the vendor calls made so far, with their statuses, oldest first *)
  w_trace : list (dev_call * Z);
  (** data_acquisition.first_sample_recorded is not None *)
  w_fsr_connected : bool;
  (** the number of first_sample_recorded.emit() calls *)
  w_emits : nat;
  (** the number of psGetStreamingLatestValues calls *)
  w_polls : nat
}.

Definition set_acq (a : DataAcquisition) (w : World) : World :=
  {| w_acq := a; w_trace := w_trace w; w_fsr_connected := w_fsr_connected w;
     w_emits := w_emits w; w_polls := w_polls w |}.

(** Modify the Python object. *)
Definition acq_modify (f : DataAcquisition -> DataAcquisition) : PyM World unit :=
  py_modify (fun w => set_acq (f (w_acq w)) w).

(** Read the Python object. *)
Definition acq_get : PyM World DataAcquisition := fun w => (Normal (w_acq w), w).

(** One vendor call: its status comes from the device and is logged. *)
Definition dev (d : Device) (c : dev_call) : PyM World Z :=
  fun w => let st := dev_status d c in
           (Normal st, {| w_acq := w_acq w; w_trace := w_trace w ++ [(c, st)];
                          w_fsr_connected := w_fsr_connected w;
                          w_emits := w_emits w; w_polls := w_polls w |}).

Definition bump_emits (w : World) : World :=
  {| w_acq := w_acq w; w_trace := w_trace w; w_fsr_connected := w_fsr_connected w;
     w_emits := S (w_emits w); w_polls := w_polls w |}.

(** first_sample_recorded.emit() *)
Definition emit_first_sample : PyM World unit := py_modify bump_emits.

(** The initial world: the singleton with [drv] installed, nothing called. *)
Definition world_init (drv : option Driver) (fsr : bool) : World :=
  {| w_acq := acq_init drv; w_trace := []; w_fsr_connected := fsr;
     w_emits := 0; w_polls := 0 |}.

(** ** Frame facts: which operations leave the call log or the object alone *)

Lemma acq_modify_trace g : preserves w_trace (acq_modify g).
Proof. apply preserves_modify. reflexivity. Qed.

Lemma acq_get_trace : preserves w_trace acq_get.
Proof. intros w. reflexivity. Qed.

Lemma emit_first_sample_trace : preserves w_trace emit_first_sample.
Proof. apply preserves_modify. reflexivity. Qed.

Lemma dev_acq d c : preserves w_acq (dev d c).
Proof. intros w. reflexivity. Qed.

#[export] Hint Resolve acq_modify_trace acq_get_trace emit_first_sample_trace dev_acq : frame.
