(* ===== verification/Regex.v ===== *)
(** * The regular expression of the range resolution

    _convert_range_string_to_constant searches range names with
    re.search(r'(\d+(?:\.\d+)?)\s*([MK]?)V', range_string, re.IGNORECASE)
    and reads group 1 as a float and group 2 as a unit prefix.
    [regex_at] is a one-pass greedy matcher for that pattern at the head
    of a string, [regex_search] the leftmost-position search, and
    [scaled_voltage] the value in volts the method computes from the two
    groups.

    Python's re engine is a backtracking matcher: greedy quantifiers try
    their longest choice first and give characters back when the rest of
    the pattern fails.  [ref_candidates] enumerates every way the pattern
    can match at the head of a string, in exactly that order of
    preference, and [ref_regex_at] takes the first, which is the match
    re reports.  The theorem [regex_at_ref] shows that the one-pass
    matcher returns the same match: for this pattern, giving characters
    back never helps, because each quantifier stops at a character the
    rest of the pattern cannot start with; [regex_search_ref] lifts it
    to the search over every start position. *)

From stdpp Require Import base list strings.
From Stdlib Require Import ZArith QArith Ascii Lia.
From S2P Require Import Prelude.

Open Scope Z_scope.

(** ** The regular expression (\d+(?:\.\d+)?)\s*([MK]?)V, IGNORECASE *)

Definition is_digit (c : ascii) : bool :=
  (48 <=? nat_of_ascii c)%nat && (nat_of_ascii c <=? 57)%nat.

(** \s on ASCII text: space, \t, \n, \v, \f, \r. *)
Definition is_space (c : ascii) : bool :=
  let n := nat_of_ascii c in (n =? 32)%nat || ((9 <=? n)%nat && (n <=? 13)%nat).

(** The longest prefix of [s] whose characters satisfy [p], and the rest. *)
Fixpoint span (p : ascii -> bool) (s : string) : string * string :=
  match s with
  | EmptyString => (EmptyString, EmptyString)
  | String c s' => if p c then let (a, b) := span p s' in (String c a, b) else (EmptyString, s)
  end.

Definition is_char_ci (u : ascii) (c : ascii) : bool :=
  Ascii.eqb (ascii_upper c) u.

(** (?:\.\d+)? after the integer digits: the fraction digits (empty when
    the group does not match) and the rest. *)
Definition frac_part (r1 : string) : string * string :=
  match r1 with
  | String c r => if Ascii.eqb c "."%char
                  then let (d2, r') := span is_digit r in
                       if String.eqb d2 "" then ("", r1) else (d2, r')
                  else ("", r1)
  | EmptyString => ("", r1)
  end.

(** ([MK]?)V after the blanks: group 2 (empty, or "M" / "K" in any
    case), if a V follows. *)
Definition unit_part (r3 : string) : option string :=
  match r3 with
  | String c r4 =>
      if is_char_ci "M"%char c || is_char_ci "K"%char c then
        match r4 with
        | String v _ => if is_char_ci "V"%char v then Some (String c EmptyString) else None
        | EmptyString => None
        end
      else if is_char_ci "V"%char c then Some ""
      else None
  | EmptyString => None
  end.

(** A match starting at the head of [s]: the integer digits, the
    fraction digits (maybe empty) and group 2. *)
Definition regex_at (s : string) : option (string * string * string) :=
  let (d1, r1) := span is_digit s in
  if String.eqb d1 "" then None else
  let '(frac, r2) := frac_part r1 in
  option_map (fun u => (d1, frac, u)) (unit_part (span is_space r2).2).

(** re.search: the leftmost position where the pattern matches. *)
Fixpoint regex_search (s : string) : option (string * string * string) :=
  match regex_at s with
  | Some m => Some m
  | None => match s with EmptyString => None | String _ s' => regex_search s' end
  end.

Fixpoint digits_value (acc : Z) (s : string) : Z :=
  match s with
  | EmptyString => acc
  | String c s' => digits_value (10 * acc + Z.of_nat (nat_of_ascii c - 48)) s'
  end.

(** float(group(1)) *)
Definition decimal_value (d1 frac : string) : Q :=
  inject_Z (digits_value 0 d1) +
  inject_Z (digits_value 0 frac) / inject_Z (10 ^ Z.of_nat (String.length frac)).

(** voltage_value after the unit of group 2 *)
Definition scaled_voltage (d1 frac unit : string) : Q :=
  let v := decimal_value d1 frac in
  if String.eqb (str_upper unit) "M" then v / 1000
  else if String.eqb (str_upper unit) "K" then v * 1000
  else v.


(** ** The reference: Python's backtracking order *)

(** All the ways a greedy [p*] can split [s], longest prefix first: the
    order in which the engine tries them. *)
Fixpoint greedy_splits (p : ascii -> bool) (s : string) : list (string * string) :=
  match s with
  | EmptyString => [("", "")]
  | String c s' =>
      if p c then map (fun ab => (String c ab.1, ab.2)) (greedy_splits p s') ++ [("", s)]
      else [("", s)]
  end.

(** [p+]: the same choices without the empty prefix. *)
Definition plus_splits (p : ascii -> bool) (s : string) : list (string * string) :=
  List.filter (fun ab => negb (String.eqb ab.1 "")) (greedy_splits p s).

(** (?:\.\d+)? : the group first, then its omission. *)
Definition frac_choices (r1 : string) : list (string * string) :=
  (match r1 with
   | String c r => if Ascii.eqb c "."%char then plus_splits is_digit r else []
   | EmptyString => []
   end) ++ [("", r1)].

(** ([MK]?) : a unit letter first, then none. *)
Definition unit_choices (r3 : string) : list (string * string) :=
  (match r3 with
   | String c r4 => if is_char_ci "M"%char c || is_char_ci "K"%char c then [(String c EmptyString, r4)] else []
   | EmptyString => []
   end) ++ [("", r3)].

Definition v_ok (r : string) : bool :=
  match r with String v _ => is_char_ci "V"%char v | EmptyString => false end.

Definition stage_unit (d1 frac r3 : string) : list (string * string * string) :=
  flat_map (fun u => if v_ok u.2 then [(d1, frac, u.1)] else []) (unit_choices r3).

Definition stage_space (d1 frac r2 : string) : list (string * string * string) :=
  flat_map (fun sp => stage_unit d1 frac sp.2) (greedy_splits is_space r2).

Definition stage_frac (d1 r1 : string) : list (string * string * string) :=
  flat_map (fun f => stage_space d1 f.1 f.2) (frac_choices r1).

(** Every match of the pattern at the head of [s], in the order the
    backtracking engine finds them. *)
Definition ref_candidates (s : string) : list (string * string * string) :=
  flat_map (fun d => stage_frac d.1 d.2) (plus_splits is_digit s).

(** The match the engine reports at the head of [s]. *)
Definition ref_regex_at (s : string) : option (string * string * string) :=
  head (ref_candidates s).

(** The positions re.search tries, left to right (the end of the string
    included). *)
Fixpoint suffixes (s : string) : list string :=
  s :: match s with EmptyString => [] | String _ s' => suffixes s' end.

(** re.search: the first match at the leftmost position that has one. *)
Definition ref_regex_search (s : string) : option (string * string * string) :=
  head (flat_map (fun t => match ref_regex_at t with Some m => [m] | None => [] end) (suffixes s)).

(** ** The one-pass matcher is the backtracking one *)

Definition starts_with (p : ascii -> bool) (r : string) : bool :=
  match r with String c _ => p c | EmptyString => false end.

(** The greedy choice comes first; every later choice leaves a rest that
    starts with a character the quantifier could have taken. *)
Lemma greedy_splits_shape p s :
  exists tl, greedy_splits p s = span p s :: tl /\ Forall (fun ab => starts_with p ab.2 = true) tl.
Proof.
  induction s as [|c s IH]; simpl; [by exists []|].
  destruct (p c) eqn:Hc; [|by exists []].
  destruct IH as (tl & -> & Htl). destruct (span p s) as [a b]. simpl.
  exists (map (fun ab => (String c ab.1, ab.2)) tl ++ [("", String c s)]). split; [reflexivity|].
  apply Forall_app; split; [apply Forall_map; exact Htl | constructor; [exact Hc | constructor]].
Qed.

Lemma plus_splits_shape p s :
  exists tl, plus_splits p s = (if String.eqb (span p s).1 "" then [] else [span p s]) ++ tl /\
             Forall (fun ab => starts_with p ab.2 = true) tl.
Proof.
  destruct (greedy_splits_shape p s) as (tl & E & Htl). unfold plus_splits. rewrite E. simpl.
  exists (List.filter (fun ab => negb (String.eqb ab.1 "")) tl). split.
  - by destruct (String.eqb (span p s).1 "").
  - apply List.Forall_forall. intros x Hx. apply filter_In in Hx as [Hx _].
    rewrite List.Forall_forall in Htl. exact (Htl x Hx).
Qed.

Lemma flat_map_Forall_nil {A B} (f : A -> list B) (P : A -> Prop) l :
  Forall P l -> (forall x, P x -> f x = []) -> flat_map f l = [].
Proof. induction 1 as [|x l Hx _ IH]; intros Hf; simpl; [done|]. by rewrite Hf, IH. Qed.

(** Digits, blanks and the dot are none of the letters M, K, V. *)
Lemma blocked_letters c :
  is_digit c || is_space c || Ascii.eqb c "."%char = true ->
  is_char_ci "M"%char c = false /\ is_char_ci "K"%char c = false /\ is_char_ci "V"%char c = false.
Proof. destruct c as [[] [] [] [] [] [] [] []]; vm_compute; intros H; try discriminate H; auto. Qed.

Lemma digit_not_space_dot c :
  is_digit c = true -> is_space c = false /\ Ascii.eqb c "."%char = false.
Proof. destruct c as [[] [] [] [] [] [] [] []]; vm_compute; intros H; try discriminate H; auto. Qed.

Lemma dot_not_space : is_space "."%char = false.
Proof. reflexivity. Qed.

Lemma mk_not_v c : is_char_ci "M"%char c || is_char_ci "K"%char c = true -> is_char_ci "V"%char c = false.
Proof. destruct c as [[] [] [] [] [] [] [] []]; vm_compute; intros H; try discriminate H; auto. Qed.

Definition blocked (c : ascii) : bool := is_digit c || is_space c || Ascii.eqb c "."%char.

Lemma stage_unit_blocked d f r : starts_with blocked r = true -> stage_unit d f r = [].
Proof.
  destruct r as [|c r]; [discriminate|]. intros H.
  destruct (blocked_letters c H) as (HM & HK & HV).
  unfold stage_unit, unit_choices, v_ok. rewrite HM, HK. simpl. by rewrite HV.
Qed.

Lemma stage_unit_eq d f r3 :
  stage_unit d f r3 = match unit_part r3 with Some u => [(d, f, u)] | None => [] end.
Proof.
  destruct r3 as [|c r4]; [reflexivity|]. unfold stage_unit, unit_choices, unit_part.
  destruct (is_char_ci "M"%char c || is_char_ci "K"%char c) eqn:E; simpl.
  - rewrite (mk_not_v c E), app_nil_r. destruct r4 as [|v r]; [reflexivity|]. simpl.
    by destruct (is_char_ci "V"%char v).
  - by destruct (is_char_ci "V"%char c).
Qed.

Lemma stage_space_eq d f r2 : stage_space d f r2 = stage_unit d f (span is_space r2).2.
Proof.
  unfold stage_space. destruct (greedy_splits_shape is_space r2) as (tl & -> & Htl). simpl.
  rewrite (flat_map_Forall_nil _ _ tl Htl), app_nil_r; [reflexivity|].
  intros [a b] Hb. apply stage_unit_blocked. destruct b as [|c b]; [discriminate|].
  simpl in *. unfold blocked. by rewrite Hb, orb_true_r.
Qed.

Lemma stage_space_blocked d f r :
  starts_with (fun c => is_digit c || Ascii.eqb c "."%char) r = true -> stage_space d f r = [].
Proof.
  intros H. rewrite stage_space_eq. destruct r as [|c r]; [discriminate|]. simpl in H.
  assert (Hs : is_space c = false).
  { destruct (is_digit c) eqn:Hd; [apply digit_not_space_dot, Hd|].
    apply Ascii.eqb_eq in H. by subst c. }
  simpl. rewrite Hs. simpl. apply stage_unit_blocked. simpl. unfold blocked.
  destruct (is_digit c); simpl in *; [done|]. by rewrite H, orb_true_r.
Qed.

Lemma stage_frac_eq d1 r1 : stage_frac d1 r1 = let '(frac, r2) := frac_part r1 in stage_space d1 frac r2.
Proof.
  unfold stage_frac, frac_choices, frac_part. destruct r1 as [|c r]; [reflexivity|].
  destruct (Ascii.eqb c "."%char) eqn:Hdot; [|simpl; by rewrite app_nil_r].
  destruct (plus_splits_shape is_digit r) as (tl & -> & Htl).
  assert (Hdead : stage_space d1 "" (String c r) = []).
  { apply stage_space_blocked. simpl. by rewrite Hdot, orb_true_r. }
  assert (Htl0 : flat_map (fun f => stage_space d1 f.1 f.2) tl = []).
  { apply (flat_map_Forall_nil _ _ tl Htl). intros [a b] Hb. apply stage_space_blocked.
    destruct b as [|c' b]; [discriminate|]. simpl in *. by rewrite Hb. }
  destruct (span is_digit r) as [d2 r'] eqn:Hs. simpl.
  rewrite !flat_map_app. simpl. rewrite Htl0, Hdead.
  destruct (String.eqb d2 ""); simpl; by rewrite ?app_nil_r.
Qed.

Lemma ref_candidates_eq s :
  ref_candidates s = let (d1, r1) := span is_digit s in
                     if String.eqb d1 "" then [] else stage_frac d1 r1.
Proof.
  unfold ref_candidates. destruct (plus_splits_shape is_digit s) as (tl & -> & Htl).
  assert (Htl0 : flat_map (fun d => stage_frac d.1 d.2) tl = []).
  { apply (flat_map_Forall_nil _ _ tl Htl). intros [a b] Hb.
    destruct b as [|c b]; [discriminate|]. simpl in Hb. simpl.
    rewrite stage_frac_eq. unfold frac_part.
    rewrite (proj2 (digit_not_space_dot c Hb)). apply stage_space_blocked. simpl. by rewrite Hb. }
  rewrite flat_map_app, Htl0, app_nil_r.
  destruct (span is_digit s) as [d1 r1]. simpl. destruct (String.eqb d1 ""); simpl; [done|].
  by rewrite app_nil_r.
Qed.

(** At the head of a string the one-pass matcher returns the first
    match of the backtracking order. *)
Lemma regex_at_ref s : regex_at s = ref_regex_at s.
Proof.
  unfold ref_regex_at. rewrite ref_candidates_eq. unfold regex_at.
  destruct (span is_digit s) as [d1 r1]. destruct (String.eqb d1 ""); [reflexivity|].
  rewrite stage_frac_eq. destruct (frac_part r1) as [frac r2].
  rewrite stage_space_eq, stage_unit_eq. by destruct (unit_part (span is_space r2).2).
Qed.

(** C11: Equivalence with the reference.  The one-pass search used for the
    range names returns exactly what re.search reports for the pattern
    (\d+(?:\.\d+)?)\s*([MK]?)V with re.IGNORECASE on every string: at
    the leftmost position where the pattern matches, the first of all
    its matches in the backtracking engine's order of preference; and no
    match when there is none. *)
Theorem regex_search_ref s : regex_search s = ref_regex_search s.
Proof.
  unfold ref_regex_search. induction s as [|c s IH]; cbn [regex_search suffixes flat_map];
    rewrite <- regex_at_ref.
  - by destruct (regex_at "").
  - destruct (regex_at (String c s)); [reflexivity|]. exact IH.
Qed.
