(* ===== verification/RangeConfig.v ===== *)
(** * Range resolution and channel configuration

    [_convert_range_string_to_constant] translates the method of the same
    name: the driver's own ps_RANGE dictionary first, then the literal
    mapping tables (the PS3000A block when str(ps_RANGE) mentions
    'PS3000A_20V', the PS4000A block when the driver's class name
    mentions 'PS4000A'), then the "MAX" rule, then the regular expression
    (\d+(?:\.\d+)?)\s*([MK]?)V searched case-insensitively
    ([Regex.regex_search]), then the 20 V fallback.  The method reads self.driver,
    so it returns an [outcome]: AttributeError when no driver is set.

    [set_voltage_range] is the second definition of that name in
    data_acquisition.py; the first, at line 57, is replaced by it when
    the class body runs and is [set_voltage_range_shadowed], which stores
    a range name unconverted.  Both reach the device with the same
    setting, since setup_channels converts a stored name with the same
    driver.  [set_voltage_rail] writes voltage_max, which nothing reads.  [setup_channels] issues one psSetChannel per
    channel A..D. *)

From stdpp Require Import base list gmap strings.
From Stdlib Require Import ZArith QArith Ascii.
From S2P Require Import Prelude Driver AcqState Regex.

Open Scope Z_scope.
Open Scope py_scope.

(** ** The literal tables *)

(** The PS3000A block: each name maps to ps_RANGE.get(name, default). *)
Definition ps3000a_mapping (drv : Driver) : list (string * Z) :=
  let g k dflt := dict_get_default (ps_RANGE drv) k dflt in
  [("PS3000A_20V", g "PS3000A_20V" (ps_20V drv)); ("PS3000A_2V", g "PS3000A_2V" (ps_2V drv));
   ("PS3000A_10V", g "PS3000A_10V" 9); ("PS3000A_5V", g "PS3000A_5V" 8);
   ("PS3000A_1V", g "PS3000A_1V" 6); ("PS3000A_500MV", g "PS3000A_500MV" 5);
   ("PS3000A_200MV", g "PS3000A_200MV" 4); ("PS3000A_100MV", g "PS3000A_100MV" 3);
   ("PS3000A_50MV", g "PS3000A_50MV" 2); ("PS3000A_20MV", g "PS3000A_20MV" 1);
   ("PS3000A_10MV", g "PS3000A_10MV" 0)].

(** The fourteen suffixes shared by the X1 probe, D9 BNC and differential
    names, with their codes. *)
Definition probe_suffixes : list (string * Z) :=
  [("10MV", 0); ("20MV", 1); ("50MV", 2); ("100MV", 3); ("200MV", 4); ("500MV", 5);
   ("1V", 6); ("2V", 7); ("5V", 8); ("10V", 9); ("20V", 10); ("50V", 11);
   ("100V", 12); ("200V", 13)].

Definition prefixed (p : string) : list (string * Z) :=
  map (fun kv => (p +:+ kv.1, kv.2)) probe_suffixes.

(** The PS4000A block: the X1 probe, D9 BNC, differential, 1 kV probe and
    plain names, in the order of the literal. *)
Definition ps4000a_mapping : list (string * Z) :=
  prefixed "PICO_X1_PROBE_" ++ prefixed "PICO_D9_BNC_" ++ prefixed "PICO_DIFFERENTIAL_" ++
  [("PICO_1KV_2_5V", 6003); ("PICO_1KV_5V", 6004); ("PICO_1KV_12_5V", 6005);
   ("PICO_1KV_25V", 6006); ("PICO_1KV_50V", 6007); ("PICO_1KV_125V", 6008);
   ("PICO_1KV_250V", 6009); ("PICO_1KV_500V", 6010); ("PICO_1KV_1000V", 6011);
   ("20V", 10); ("2V", 7); ("5V", 8); ("10V", 9); ("1V", 6)].

(** 'PS3000A_20V' in str(self.driver.ps_RANGE): the needle has no quote,
    so it occurs in the printed dictionary only inside a key. *)
Definition range_repr_mentions (drv : Driver) (needle : string) : bool :=
  existsb (fun kv => str_contains needle kv.1) (ps_RANGE drv).

(** range_mapping after its two update() calls (no key is in both). *)
Definition range_mapping (drv : Driver) : list (string * Z) :=
  (if range_repr_mentions drv "PS3000A_20V" then ps3000a_mapping drv else []) ++
  (if str_contains "PS4000A" (drv_type_name drv) then ps4000a_mapping else []).

(** voltage_to_range: full scale in volts -> code. *)
Definition voltage_to_range : list (Q * Z) :=
  [(1#100, 0); (2#100, 1); (5#100, 2); (1#10, 3); (2#10, 4); (5#10, 5); (1#1, 6);
   (2#1, 7); (5#1, 8); (10#1, 9); (20#1, 10); (50#1, 11); (100#1, 12); (200#1, 13)].

(** `voltage_value in voltage_to_range`: float keys compare by value. *)
Fixpoint qdict_get (d : list (Q * Z)) (q : Q) : option Z :=
  match d with
  | [] => None
  | (k, v) :: d' => if Qeq_bool q k then Some v else qdict_get d' q
  end.

(** ** The conversion *)

(** _convert_range_string_to_constant(range_string) for a driver. *)
Definition convert_with_driver (drv : Driver) (range_string : string) : Z :=
  match dict_get (ps_RANGE drv) range_string with
  | Some code => code
  | None =>
    match dict_get (range_mapping drv) range_string with
    | Some code => code
    | None =>
      if str_contains "MAX" (str_upper range_string) then ps_20V drv
      else match regex_search range_string with
           | Some (d1, frac, unit) =>
               match qdict_get voltage_to_range (scaled_voltage d1 frac unit) with
               | Some code => code
               | None => ps_20V drv
               end
           | None => ps_20V drv
           end
    end
  end.

(** The method on the object: without a driver (self.driver is None) every
    hasattr test fails and the first return of self.driver.ps_20V (or
    the regular-expression path when it finds a table voltage) decides. *)
Definition _convert_range_string_to_constant (drv : option Driver) (range_string : string)
    : outcome Z :=
  match drv with
  | Some d => Normal (convert_with_driver d range_string)
  | None =>
      if str_contains "MAX" (str_upper range_string) then Exc AttributeError
      else match regex_search range_string with
           | Some (d1, frac, unit) =>
               match qdict_get voltage_to_range (scaled_voltage d1 frac unit) with
               | Some code => Normal code
               | None => Exc AttributeError
               end
           | None => Exc AttributeError
           end
  end.

(** set_voltage_range(channel, range_value, offset) *)
Definition set_voltage_range (channel : string) (range_value : range_value) (offset : Q)
    : PyM World unit :=
  a <- acq_get ;;
  rc <- match range_value with
        | RStr s => py_lift (out_bind (_convert_range_string_to_constant (driver a) s)
                                      (fun c => Normal (RCode c)))
        | other => py_ret other
        end ;;
  acq_modify (fun a => set_voltage_offset (<[channel := offset]> (voltage_offset a))
                         (set_voltage_range (<[channel := rc]> (voltage_range a)) a)).

(** The first set_voltage_range(channel, range_constant, offset) of the
    class body (line 57), which the second definition replaces: it stores
    the value as given. *)
Definition set_voltage_range_shadowed (channel : string) (range_constant : range_value)
    (offset : Q) : PyM World unit :=
  acq_modify (fun a => set_voltage_offset (<[channel := offset]> (voltage_offset a))
                         (AcqState.set_voltage_range (<[channel := range_constant]> (voltage_range a)) a)).

(** set_voltage_rail(channel, vmax) *)
Definition set_voltage_rail (channel : string) (vmax : Q) : PyM World unit :=
  acq_modify (fun a => set_voltage_max (<[channel := Some vmax]> (voltage_max a)) a).

(** The range and offset setup_channels passes for one channel. *)
Definition channel_setting (drv : Driver) (a : DataAcquisition) (ch : string) : outcome (Z * Q) :=
  if gmap_get_false (channels a) ch then
    let off := default 0%Q (voltage_offset a !! ch) in
    match default RNone (voltage_range a !! ch) with
    | RNone => Normal (ps_20V drv, off)
    | RStr s => out_bind (_convert_range_string_to_constant (driver a) s) (fun c => Normal (c, off))
    | RCode c => Normal (c, off)
    end
  else Normal (ps_20V drv, 0%Q).

Definition channel_ids (drv : Driver) : list (string * Z) :=
  [("A", ps_CHANNEL_A drv); ("B", ps_CHANNEL_B drv); ("C", ps_CHANNEL_C drv); ("D", ps_CHANNEL_D drv)].

(** One iteration of setup_channels. *)
Definition setup_channel (d : Device) (drv : Driver) (chp : string * Z) : PyM World unit :=
  a <- acq_get ;;
  ro <- py_lift (channel_setting drv a chp.1) ;;
  let enabled := if gmap_get_false (channels a) chp.1 then 1 else 0 in
  st <- dev d (SetChannel chp.2 enabled (ps_DC drv) ro.1 ro.2) ;;
  assert_pico_ok st.

(** DataAcquisition.setup_channels() *)
Definition setup_channels (d : Device) : PyM World unit :=
  a <- acq_get ;;
  match driver a with
  | Some drv => py_for (channel_ids drv) (setup_channel d drv)
  | None => py_raise AttributeError
  end.

(** ** Theorems *)

Lemma dict_get_in_values {K V} `{EqDecision K} (d : list (K * V)) k v :
  dict_get d k = Some v -> In v (map snd d).
Proof.
  induction d as [|[k' v'] d IH]; simpl; [discriminate|].
  case_decide; [intros [= <-]; auto | auto].
Qed.

Lemma qdict_get_table q c : qdict_get voltage_to_range q = Some c -> 0 <= c <= 13.
Proof.
  unfold voltage_to_range. simpl.
  repeat (destruct (Qeq_bool q _); [intros [= <-]; lia|]). discriminate.
Qed.


(** What the resolution gives for names outside the tables, on the
    PS3000A driver: the driver's own dictionary answers first, so the
    "MAX" name PS3000A_MAX_RANGES becomes the code 12 (not the 20 V
    default); "500mV" and "5 V" are read by the regular expression; a
    voltage that is not in the table ("2.5V") and a name without any
    voltage both silently become the 20 V code 10, never an error. *)
Example convert_range_examples :
  map (convert_with_driver ps3000a_driver)
      ["PS3000A_MAX_RANGES"; "500mV"; "5 V"; "2.5V"; "banana"; "PS3000A_2V"] =
  [12; 5; 8; 10; 10; 7] /\ ps_20V ps3000a_driver = 10.
Proof. vm_compute. split; reflexivity. Qed.

(** setup_channel on an object whose channel setting is known, against a
    device that accepts everything: one logged psSetChannel call. *)
Definition setchannel_call (drv : Driver) (a : DataAcquisition) (chp : string * Z) (v : Z * Q)
    : dev_call :=
  SetChannel chp.2 (if gmap_get_false (channels a) chp.1 then 1 else 0) (ps_DC drv) v.1 v.2.

Definition push_trace (e : dev_call * Z) (w : World) : World :=
  {| w_acq := w_acq w; w_trace := w_trace w ++ [e]; w_fsr_connected := w_fsr_connected w;
     w_emits := w_emits w; w_polls := w_polls w |}.

Lemma setup_channel_ok d drv chp w v :
  (forall c, dev_status d c = PICO_OK) -> channel_setting drv (w_acq w) chp.1 = Normal v ->
  setup_channel d drv chp w = (Normal tt, push_trace (setchannel_call drv (w_acq w) chp v, PICO_OK) w).
Proof.
  intros Hst Hs. unfold setup_channel, py_bind, acq_get, py_lift. simpl. rewrite Hs.
  unfold dev, assert_pico_ok. simpl. rewrite Hst. reflexivity.
Qed.

Lemma setup_channels_loop d drv chps w :
  (forall c, dev_status d c = PICO_OK) ->
  (forall chp, In chp chps -> exists v, channel_setting drv (w_acq w) chp.1 = Normal v) ->
  exists calls, py_for chps (setup_channel d drv) w =
    (Normal tt, {| w_acq := w_acq w; w_trace := w_trace w ++ calls;
                   w_fsr_connected := w_fsr_connected w; w_emits := w_emits w;
                   w_polls := w_polls w |}) /\
    length calls = length chps /\
    Forall2 (fun chp e => exists v, channel_setting drv (w_acq w) chp.1 = Normal v /\
                                    e = (setchannel_call drv (w_acq w) chp v, PICO_OK)) chps calls.
Proof.
  intros Hst; revert w; induction chps as [|chp chps IH]; intros w Hset.
  - exists []. rewrite app_nil_r. split; [by destruct w|]. done.
  - destruct (Hset chp (or_introl eq_refl)) as [v Hv]. simpl. unfold py_bind.
    rewrite (setup_channel_ok d drv chp w v Hst Hv).
    destruct (IH (push_trace (setchannel_call drv (w_acq w) chp v, PICO_OK) w))
      as (calls & Hrun & Hlen & Hall); [intros; apply Hset; by right|].
    rewrite Hrun. exists ((setchannel_call drv (w_acq w) chp v, PICO_OK) :: calls). simpl.
    rewrite <- app_assoc. split; [reflexivity|]. split; [by rewrite Hlen|].
    constructor; [by exists v | exact Hall].
Qed.

Lemma channel_setting_disabled drv a ch :
  gmap_get_false (channels a) ch = false -> channel_setting drv a ch = Normal (ps_20V drv, 0%Q).
Proof. intros H. unfold channel_setting. by rewrite H. Qed.

(** With a driver set, the range and offset of a channel always resolve. *)
Lemma channel_setting_normal drv a ch d' :
  driver a = Some d' -> exists v, channel_setting drv a ch = Normal v.
Proof.
  intros Hd. unfold channel_setting. destruct (gmap_get_false (channels a) ch); [|by eexists].
  destruct (default RNone (voltage_range a !! ch)); simpl; try rewrite Hd; by eexists.
Qed.

(** setup_channels against an accepting device: one call per channel, in
    the order of [channel_ids], the object untouched. *)
Lemma setup_channels_run d drv w :
  driver (w_acq w) = Some drv -> (forall c, dev_status d c = PICO_OK) ->
  exists calls,
    setup_channels d w =
      (Normal tt, {| w_acq := w_acq w; w_trace := w_trace w ++ calls;
                     w_fsr_connected := w_fsr_connected w; w_emits := w_emits w;
                     w_polls := w_polls w |}) /\
    Forall2 (fun chp e => exists v, channel_setting drv (w_acq w) chp.1 = Normal v /\
                                    e = (setchannel_call drv (w_acq w) chp v, PICO_OK))
            (channel_ids drv) calls.
Proof.
  intros Hdrv Hst. unfold setup_channels, py_bind, acq_get. cbv beta iota. rewrite Hdrv.
  destruct (setup_channels_loop d drv (channel_ids drv) w Hst) as (calls & Hrun & _ & Hall).
  { intros chp _. exact (channel_setting_normal drv (w_acq w) chp.1 drv Hdrv). }
  exists calls. by split.
Qed.

(** Channel configuration.  Against a device that accepts every call,
    setup_channels makes exactly four psSetChannel calls, one per channel
    A, B, C, D in that order, and each disabled channel is configured
    disabled with the driver's 20 V code and offset 0, whatever range and
    offset were stored for it. *)
Theorem setup_channels_disabled_fallback d drv w :
  driver (w_acq w) = Some drv -> (forall c, dev_status d c = PICO_OK) ->
  (forall chp, In chp (channel_ids drv) -> exists v, channel_setting drv (w_acq w) chp.1 = Normal v) ->
  fst (setup_channels d w) = Normal tt /\
  length (w_trace (snd (setup_channels d w))) = (length (w_trace w) + 4)%nat /\
  forall ch p, In (ch, p) (channel_ids drv) -> gmap_get_false (channels (w_acq w)) ch = false ->
    In (SetChannel p 0 (ps_DC drv) (ps_20V drv) 0, PICO_OK) (w_trace (snd (setup_channels d w))).
Proof.
  intros Hdrv Hst Hset. unfold setup_channels, py_bind, acq_get. cbv beta iota. rewrite Hdrv.
  destruct (setup_channels_loop d drv (channel_ids drv) w Hst Hset)
    as (calls & Hrun & Hlen & Hall).
  rewrite Hrun. simpl. split; [done|]. split; [rewrite length_app, Hlen; reflexivity|].
  intros ch p Hin Hoff. apply in_or_app. right.
  destruct (Forall2_in_l _ _ _ _ Hall Hin) as (e & He & v & Hv & ->).
  cbn [fst] in Hv. rewrite (channel_setting_disabled drv (w_acq w) ch Hoff) in Hv.
  injection Hv as <-. unfold setchannel_call in He. cbn [fst snd] in He. rewrite Hoff in He. exact He.
Qed.

Lemma setup_channels_disabled_fallback_witness :
  let w := set_acq (set_channels {["A" := true]} (acq_init (Some ps3000a_driver)))
                   (world_init (Some ps3000a_driver) false) in
  let d := mkDevice (fun _ => 0) 32512 (fun _ => []) in
  fst (setup_channels d w) = Normal tt /\
  length (w_trace (snd (setup_channels d w))) = (length (w_trace w) + 4)%nat /\
  forall ch p, In (ch, p) (channel_ids ps3000a_driver) -> gmap_get_false (channels (w_acq w)) ch = false ->
    In (SetChannel p 0 (ps_DC ps3000a_driver) (ps_20V ps3000a_driver) 0, PICO_OK)
       (w_trace (snd (setup_channels d w))).
Proof.
  intros w d. apply setup_channels_disabled_fallback; [reflexivity | intros; reflexivity |].
  intros chp Hin. simpl in Hin.
  destruct Hin as [<-|[<-|[<-|[<-|[]]]]]; eexists; vm_compute; reflexivity.
Defined.

(** C13: The override is harmless.  With a driver installed, the effective
    set_voltage_range never fails, and for every channel the range and
    offset setup_channels then sends to the device are the same as if
    the first, shadowed definition (which stores a range name
    unconverted) were in effect: setup_channels converts a stored name
    with the same driver. *)
Theorem set_voltage_range_override_equiv drv ch rv off w :
  driver (w_acq w) = Some drv ->
  fst (set_voltage_range ch rv off w) = Normal tt /\
  forall ch', channel_setting drv (w_acq (snd (set_voltage_range ch rv off w))) ch' =
              channel_setting drv (w_acq (snd (set_voltage_range_shadowed ch rv off w))) ch'.
Proof.
  intros Hd. unfold set_voltage_range, set_voltage_range_shadowed, py_bind, acq_get, acq_modify,
    py_modify, _convert_range_string_to_constant.
  split; [destruct rv; cbn; rewrite ?Hd; reflexivity|]. intros ch'.
  destruct rv; cbn; rewrite ?Hd; cbn; unfold channel_setting; cbn; rewrite ?Hd;
    rewrite !lookup_insert; repeat case_decide; reflexivity.
Qed.

Lemma set_voltage_range_override_equiv_witness :
  driver (w_acq (world_init (Some ps3000a_driver) false)) = Some ps3000a_driver /\
  channel_setting ps3000a_driver
    (w_acq (snd (set_voltage_range "A" (RStr "PS3000A_5V") 0 (world_init (Some ps3000a_driver) false)))) "A" =
  channel_setting ps3000a_driver
    (w_acq (snd (set_voltage_range_shadowed "A" (RStr "PS3000A_5V") 0
                   (world_init (Some ps3000a_driver) false)))) "A".
Proof.
  split; [reflexivity|].
  exact (proj2 (set_voltage_range_override_equiv ps3000a_driver "A" (RStr "PS3000A_5V") 0
                  (world_init (Some ps3000a_driver) false) eq_refl) "A").
Defined.
