(* ===== verification/Streaming.v ===== *)
(** * The streaming engine (setup_buffers, run_streaming, streaming_callback)

    [setup_buffers] allocates and registers the per-channel buffers;
    [interval_conversion] is the time-unit dispatch at the top of
    run_streaming, with the c_int32 wrap-around of the requested interval;
    [run_streaming] starts streaming (the sample cap passes through a
    c_uint32 argument) and runs [stream_loop], the while loop that polls
    the device; [poll_once] is one psGetStreamingLatestValues call, during
    which the device writes into the registered buffers and invokes
    [streaming_callback] once per batch (ctypes swallows an exception
    raised by the callback, [ctypes_call]).  The callback builds each row
    with [build_row] and appends it with [csv_write_row].

    The whole loop is related to an abstract session ([spec_loop]: the
    rows, the counter and the auto-stop latch, advanced batch by batch)
    by a simulation ([sim], [stream_loop_sim]); [stream_loop_refines]
    states the refinement.

    The loop is a [Fixpoint] on fuel: one unit of fuel per iteration of
    the Python while loop; the termination theorem gives the fuel that
    suffices, the non-termination theorem shows that no fuel does after
    stop_recording. *)

From stdpp Require Import base list gmap strings.
From Stdlib Require Import ZArith QArith Lia.
From S2P Require Import Prelude Driver Calibration Sink AcqState.

Open Scope Z_scope.
Open Scope py_scope.

(** ** Buffers *)

(** The analog channels in the order the code visits them. *)
Definition analog_channels : list (string * buf_id) :=
  [("A", BufA); ("B", BufB); ("C", BufC); ("D", BufD)].

Definition pico_channel (drv : Driver) (id : buf_id) : Z :=
  match id with
  | BufA => ps_CHANNEL_A drv | BufB => ps_CHANNEL_B drv
  | BufC => ps_CHANNEL_C drv | BufD => ps_CHANNEL_D drv
  | BufDig0 => default 0 (ps_DIGITAL_PORT0 drv)
  | BufDig1 => default 0 (ps_DIGITAL_PORT1 drv)
  end.

Definition set_buffer (id : buf_id) (l : list Z) (a : DataAcquisition) : DataAcquisition :=
  set_buffers (fun j => if decide (j = id) then Some l else buffers a j) a.

(** self.driver, or AttributeError on None *)
Definition get_driver : PyM World Driver :=
  a <- acq_get ;;
  match driver a with Some drv => py_ret drv | None => py_raise AttributeError end.

(** One analog buffer of setup_buffers: np.zeros, then psSetDataBuffers. *)
Definition setup_analog_buffer (d : Device) (drv : Driver) (size : Z)
    (chb : string * buf_id) : PyM World unit :=
  a <- acq_get ;;
  if gmap_get_false (channels a) chb.1 then
    acq_modify (set_buffer chb.2 (replicate (Z.to_nat size) 0)) ;;
    st <- dev d (SetDataBuffers (pico_channel drv chb.2) size 0 (ratio_mode_none drv)) ;;
    assert_pico_ok st
  else py_ret tt.

(** The attribute self.driver.ps_DIGITAL_PORTi *)
Definition digital_port (p : option Z) : PyM World Z :=
  match p with Some z => py_ret z | None => py_raise AttributeError end.

(** The digital part of setup_buffers, with its try / except AttributeError. *)
Definition setup_digital_buffers (d : Device) (drv : Driver) (size : Z) : PyM World unit :=
  py_try
    (acq_modify (set_buffer BufDig0 (replicate (Z.to_nat size) 0)) ;;
     p0 <- digital_port (ps_DIGITAL_PORT0 drv) ;;
     st0 <- dev d (SetDataBuffers p0 size 0 (ratio_mode_none drv)) ;;
     assert_pico_ok st0 ;;
     acq_modify (set_buffer BufDig1 (replicate (Z.to_nat size) 0)) ;;
     p1 <- digital_port (ps_DIGITAL_PORT1 drv) ;;
     st1 <- dev d (SetDataBuffers p1 size 0 (ratio_mode_none drv)) ;;
     assert_pico_ok st1)
    (fun e => match e with
              | AttributeError => acq_modify (set_digital_channels [])
              | _ => py_raise e
              end).

(** DataAcquisition.setup_buffers(sizeOfOneBuffer) *)
Definition setup_buffers (d : Device) (sizeOfOneBuffer : Z) : PyM World unit :=
  drv <- get_driver ;;
  py_for analog_channels (setup_analog_buffer d drv sizeOfOneBuffer) ;;
  a <- acq_get ;;
  if bool_decide (digital_channels a <> []) && _has_digital_channels drv then
    setup_digital_buffers d drv sizeOfOneBuffer
  else py_ret tt.

(** buffer[index] on a numpy array (negative indices count from the end). *)
Definition buf_read (a : DataAcquisition) (id : buf_id) (idx : Z) : outcome Z :=
  match buffers a id with
  | None => Exc AttributeError
  | Some l =>
      let i := if decide (0 <= idx) then idx else Z.of_nat (length l) + idx in
      if decide (0 <= i) then
        match l !! Z.to_nat i with Some v => Normal v | None => Exc IndexError end
      else Exc IndexError
  end.

(** ** The time base *)

(** The branches of run_streaming: the interval passed to the driver
    (c_int32), its unit, and sampleIntervalNs. *)
Definition interval_conversion (drv : Driver) (time_unit : string) (sample_interval : Q)
    : Z * Z * Z :=
  if String.eqb time_unit "s" then
    let si := wrap_s32 (py_int (sample_interval * 1000000)) in (si, ps_US drv, si * 1000)
  else if String.eqb time_unit "ms" then
    let si := wrap_s32 (py_int (sample_interval * 1000)) in (si, ps_US drv, si * 1000)
  else if String.eqb time_unit "us" then
    let si := wrap_s32 (py_int sample_interval) in (si, ps_US drv, si * 1000)
  else if String.eqb time_unit "ns" then
    let si := wrap_s32 (py_int sample_interval) in (si, ps_NS drv, si)
  else
    let si := wrap_s32 (py_int (sample_interval * 1000)) in (si, ps_US drv, si * 1000).

(** The timestamp t of streaming_callback for absolute sample k: a float,
    except in the ns branch where it is the int product. *)
Definition timestamp (time_unit : string) (k sampleIntervalNs : Z) : cell :=
  let p := inject_Z (k * sampleIntervalNs) in
  if String.eqb time_unit "s" then CNum (p / 1000000000)
  else if String.eqb time_unit "ms" then CNum (p / 1000000)
  else if String.eqb time_unit "us" then CNum (p / 1000)
  else if String.eqb time_unit "ns" then CInt (k * sampleIntervalNs)
  else CNum (p / 1000000).

(** ** The callback *)

(** The analog part of a row: for each enabled channel, the converted
    reading of its buffer at [idx] (with self.driver.ps_20V as range). *)
Fixpoint analog_cells (a : DataAcquisition) (drv : Driver) (chs : list (string * buf_id))
    (idx : Z) : outcome row :=
  match chs with
  | [] => Normal []
  | (ch, id) :: chs' =>
      if gmap_get_false (channels a) ch then
        out_bind (buf_read a id idx) (fun adc =>
        out_bind (adc_to_mv_single adc (ps_20V drv) (maxADC a)) (fun mv =>
        out_bind (analog_cells a drv chs' idx) (fun rest => Normal (CNum mv :: rest))))
      else analog_cells a drv chs' idx
  end.

(** (digital_sample >> n) & 1 *)
Definition digital_bit (d0 d1 dch : Z) : cell :=
  if decide (dch < 8) then CInt (Z.land (Z.shiftr d0 dch) 1)
  else CInt (Z.land (Z.shiftr d1 (dch - 8)) 1).

Definition digital_cells (a : DataAcquisition) (idx : Z) : outcome row :=
  if bool_decide (digital_channels a <> []) then
    out_bind (buf_read a BufDig0 idx) (fun d0 =>
    out_bind (buf_read a BufDig1 idx) (fun d1 =>
    Normal (map (digital_bit d0 d1) (digital_channels a))))
  else Normal [].

(** The row of absolute sample [k], read at buffer offset [idx]. *)
Definition build_row (a : DataAcquisition) (drv : Driver) (k idx : Z) : outcome row :=
  out_bind (analog_cells a drv analog_channels idx) (fun an =>
  out_bind (digital_cells a idx) (fun dg =>
  Normal (timestamp (time_unit a) k (sampleIntervalNs a) :: an ++ dg))).

(** self.csvwriter.writerow(row) *)
Definition csv_write_row (r : row) : PyM World unit :=
  a <- acq_get ;;
  match csvwriter a, csvfile a with
  | true, Some f =>
      if csv_closed f then py_raise ValueError
      else acq_modify (set_csvfile (Some (csv_writerow r f)))
  | _, _ => py_raise AttributeError
  end.

(** self.csvfile.flush() *)
Definition csv_flush_file : PyM World unit :=
  a <- acq_get ;;
  match csvfile a with
  | Some f => if csv_closed f then py_raise ValueError
              else acq_modify (set_csvfile (Some (csv_flush f)))
  | None => py_raise AttributeError
  end.

(** One iteration of the for loop of streaming_callback. *)
Definition callback_sample (drv : Driver) (startIndex i : Z) : PyM World unit :=
  a <- acq_get ;;
  r <- py_lift (build_row a drv (nextSample a + i) (startIndex + i)) ;;
  csv_write_row r ;;
  if decide ((nextSample a + i) mod 1000 = 0) then csv_flush_file else py_ret tt.

(** DataAcquisition.streaming_callback(handle, noOfSamples, startIndex,
    overflow, triggerAt, triggered, autoStop, param) *)
Definition streaming_callback (noOfSamples startIndex : Z) (autoStop : bool)
    : PyM World unit :=
  acq_modify (set_wasCalledBack true) ;;
  w <- py_get ;;
  (if bool_decide (nextSample (w_acq w) = 0) && w_fsr_connected w
   then emit_first_sample else py_ret tt) ;;
  a <- acq_get ;;
  (if decide (maxADC a <> 0) then
     drv <- get_driver ;;
     py_for (py_range noOfSamples) (callback_sample drv startIndex)
   else py_ret tt) ;;
  acq_modify (fun a => set_nextSample (nextSample a + noOfSamples) a) ;;
  if autoStop then acq_modify (set_autoStopOuter true) else py_ret tt.

(** ** Polling *)

(** buffer[start : start + n] = values, done by the driver in place. *)
Fixpoint list_write (l : list Z) (start : nat) (vals : list Z) : list Z :=
  match vals with
  | [] => l
  | v :: vs => list_write (<[start := v]> l) (S start) vs
  end.

Definition device_write (b : batch) (a : DataAcquisition) : DataAcquisition :=
  set_buffers (fun id => option_map (fun l => list_write l (Z.to_nat (b_startIndex b)) (b_data b id))
                                    (buffers a id)) a.

(** A Python exception raised inside a ctypes callback is printed and
    dropped; the mutations made before it stay. *)
Definition ctypes_call (c : PyM World unit) : PyM World unit :=
  fun w => (Normal tt, snd (c w)).

Definition incr_polls : PyM World unit :=
  py_modify (fun w => {| w_acq := w_acq w; w_trace := w_trace w;
                         w_fsr_connected := w_fsr_connected w;
                         w_emits := w_emits w; w_polls := S (w_polls w) |}).

(** One batch: the driver fills the buffers, then calls back. *)
Definition deliver (b : batch) : PyM World unit :=
  acq_modify (device_write b) ;;
  ctypes_call (streaming_callback (b_noOfSamples b) (b_startIndex b) (b_autoStop b)).

(** self.driver.psGetStreamingLatestValues(self.chandle, self.cFuncPtr,
    None): its status is stored, never checked. *)
Definition poll_once (d : Device) : PyM World unit :=
  _ <- dev d GetStreamingLatestValues ;;
  w <- py_get ;;
  incr_polls ;;
  py_for (dev_batches d (w_polls w)) deliver.

(** The condition of the while loop. *)
Definition loop_continues (a : DataAcquisition) : bool :=
  bool_decide (nextSample a < totalSamples a) && negb (autoStopOuter a).

(** while nextSample < totalSamples and not autoStopOuter: ... *)
Fixpoint stream_loop (d : Device) (fuel : nat) : PyM World unit :=
  match fuel with
  | O => py_ret tt
  | S fuel' =>
      a <- acq_get ;;
      if loop_continues a then
        acq_modify (set_wasCalledBack false) ;;
        poll_once d ;;
        stream_loop d fuel'
      else py_ret tt
  end.

(** DataAcquisition.run_streaming(sizeOfOneBuffer), the loop given fuel. *)
Definition run_streaming (d : Device) (sizeOfOneBuffer : Z) (fuel : nat) : PyM World unit :=
  a <- acq_get ;;
  drv <- get_driver ;;
  let '(si, units, ns) := interval_conversion drv (time_unit a) (sample_interval a) in
  acq_modify (set_sampleIntervalNs ns) ;;
  a <- acq_get ;;
  st <- dev d (RunStreaming si units 0 (wrap_u32 (totalSamples a)) 1 1 (ratio_mode_none drv)
                            (wrap_u32 sizeOfOneBuffer)) ;;
  assert_pico_ok st ;;
  stream_loop d fuel.

(** ** The abstract row specification *)

(** The millivolt value the engine writes for a count (maxADC <> 0). *)
Definition mv_value (drv : Driver) (maxadc adc : Z) : Q :=
  (inject_Z adc * full_scale_volts (ps_20V drv) * 1000) / inject_Z maxadc.

(** The row of absolute sample [k] when buffer [id] holds [vals id] at the
    offset read: the timestamp, the enabled analog channels in order A..D,
    then the requested digital bits. *)
Definition spec_row (a : DataAcquisition) (drv : Driver) (k : Z) (vals : buf_id -> Z) : row :=
  timestamp (time_unit a) k (sampleIntervalNs a) ::
  flat_map (fun chb => if gmap_get_false (channels a) chb.1
                       then [CNum (mv_value drv (maxADC a) (vals chb.2))] else [])
           analog_channels ++
  (if bool_decide (digital_channels a <> [])
   then map (digital_bit (vals BufDig0) (vals BufDig1)) (digital_channels a) else []).

(** Every buffer the row reads holds [vals id] at [idx]. *)
Definition reads_ok (a : DataAcquisition) (idx : Z) (vals : buf_id -> Z) : Prop :=
  (forall ch id, In (ch, id) analog_channels -> gmap_get_false (channels a) ch = true ->
                 buf_read a id idx = Normal (vals id)) /\
  (digital_channels a <> [] ->
   buf_read a BufDig0 idx = Normal (vals BufDig0) /\ buf_read a BufDig1 idx = Normal (vals BufDig1)).

(** ** Helper lemmas *)

Lemma list_write_length l s vals : length (list_write l s vals) = length l.
Proof.
  revert l s; induction vals as [|v vs IH]; intros l s; simpl; [done|].
  by rewrite IH, length_insert.
Qed.

Lemma list_write_lookup l s vals i :
  (s + length vals <= length l)%nat -> (i < length vals)%nat ->
  list_write l s vals !! (s + i)%nat = vals !! i.
Proof.
  revert l s i; induction vals as [|v vs IH]; intros l s i Hlen Hi; simpl in *; [lia|].
  destruct i as [|i].
  - rewrite Nat.add_0_r.
    assert (Hkeep : forall l' s' (ws : list Z), (s < s')%nat -> list_write l' s' ws !! s = l' !! s).
    { intros l' s' ws; revert l' s'; induction ws as [|w ws IHw]; intros l' s' Hs; simpl; [done|].
      rewrite IHw by lia. apply list_lookup_insert_ne. lia. }
    rewrite Hkeep by lia. apply list_lookup_insert_eq. lia.
  - replace (s + S i)%nat with (S s + i)%nat by lia.
    apply IH; [rewrite length_insert; lia | lia].
Qed.

Lemma buf_read_some a id l idx v :
  buffers a id = Some l -> (0 <= idx) -> l !! Z.to_nat idx = Some v ->
  buf_read a id idx = Normal v.
Proof.
  intros Hb Hidx Hl. unfold buf_read. rewrite Hb.
  destruct (decide (0 <= idx)); [|lia]. destruct (decide (0 <= idx)); [|lia].
  by rewrite Hl.
Qed.

Lemma analog_cells_spec a drv idx vals chs :
  maxADC a <> 0 ->
  (forall ch id, In (ch, id) chs -> gmap_get_false (channels a) ch = true ->
                 buf_read a id idx = Normal (vals id)) ->
  analog_cells a drv chs idx =
  Normal (flat_map (fun chb => if gmap_get_false (channels a) chb.1
                               then [CNum (mv_value drv (maxADC a) (vals chb.2))] else []) chs).
Proof.
  intros Hmax; induction chs as [|[ch id] chs IH]; intros Hreads; simpl; [done|].
  destruct (gmap_get_false (channels a) ch) eqn:Hen.
  - rewrite (Hreads ch id) by (simpl; auto).
    simpl. rewrite adc_to_mv_single_normal by exact Hmax. simpl.
    rewrite IH; [reflexivity|].
    intros ch' id' Hin Hen'. apply (Hreads ch' id'); simpl; auto.
  - apply IH. intros ch' id' Hin Hen'. apply (Hreads ch' id'); simpl; auto.
Qed.

Lemma build_row_spec a drv k idx vals :
  maxADC a <> 0 -> reads_ok a idx vals ->
  build_row a drv k idx = Normal (spec_row a drv k vals).
Proof.
  intros Hmax [Han Hdg]. unfold build_row, spec_row.
  rewrite (analog_cells_spec a drv idx vals analog_channels Hmax Han). simpl.
  unfold digital_cells. case_bool_decide as Hd.
  - destruct (Hdg Hd) as [-> ->]. reflexivity.
  - reflexivity.
Qed.

(** ** The callback, step by step *)

(** What one iteration of the for loop does to the file: append the row,
    then flush when the absolute index is a multiple of 1000. *)
Definition csv_step (k : Z) (r : row) (f : CsvFile) : CsvFile :=
  let f1 := csv_writerow r f in
  if decide (k mod 1000 = 0) then csv_flush f1 else f1.

Lemma csv_step_closed k r f : csv_closed (csv_step k r f) = csv_closed f.
Proof. unfold csv_step. by case_decide. Qed.

Lemma csv_step_rows k r f : csv_rows (csv_step k r f) = csv_rows f ++ [r].
Proof. unfold csv_step. by case_decide. Qed.

(** The file after the rows of the samples [idxs] (offsets from [next]). *)
Definition csv_fold (next : Z) (rowf : Z -> row) (idxs : list Z) (f : CsvFile) : CsvFile :=
  fold_left (fun f i => csv_step (next + i) (rowf i) f) idxs f.

(** The object [a] except that its file is [f]. *)
Definition with_file (a : DataAcquisition) (f : CsvFile) : DataAcquisition :=
  set_csvfile (Some f) a.

(** The conditions under which the callback body runs without raising. *)
Definition cb_ready (a : DataAcquisition) (drv : Driver) : Prop :=
  driver a = Some drv /\ maxADC a <> 0 /\ csvwriter a = true.

Section CallbackLoop.
Context (a : DataAcquisition) (drv : Driver) (w : World) (s : Z) (vals : Z -> buf_id -> Z).
Hypothesis Hready : cb_ready a drv.

Lemma callback_sample_step i f :
  csv_closed f = false -> reads_ok a (s + i) (vals i) ->
  callback_sample drv s i (set_acq (with_file a f) w) =
  (Normal tt, set_acq (with_file a (csv_step (nextSample a + i)
                                       (spec_row a drv (nextSample a + i) (vals i)) f)) w).
Proof.
  intros Hopen Hreads. destruct Hready as (Hdrv & Hmax & Hw).
  unfold callback_sample, py_bind, acq_get, py_lift. simpl.
  rewrite (build_row_spec (with_file a f) drv _ _ (vals i)) by assumption.
  unfold csv_write_row, py_bind, acq_get. simpl. rewrite Hw, Hopen. simpl.
  unfold csv_step. case_decide; simpl; [|reflexivity].
  unfold csv_flush_file, py_bind, acq_get. simpl. rewrite Hopen. reflexivity.
Qed.

Lemma callback_samples_run (idxs : list Z) f :
  csv_closed f = false -> (forall i, In i idxs -> reads_ok a (s + i) (vals i)) ->
  py_for idxs (callback_sample drv s) (set_acq (with_file a f) w) =
  (Normal tt, set_acq (with_file a (csv_fold (nextSample a)
                         (fun i => spec_row a drv (nextSample a + i) (vals i)) idxs f)) w).
Proof.
  revert f; induction idxs as [|i idxs IH]; intros f Hopen Hreads; simpl; [done|].
  unfold py_bind at 1. rewrite callback_sample_step by (auto with datatypes).
  apply IH; [by rewrite csv_step_closed | auto with datatypes].
Qed.
End CallbackLoop.

Lemma with_file_id a f : csvfile a = Some f -> with_file a f = a.
Proof. destruct a; simpl; intros ->; reflexivity. Qed.

(** The object after a callback of [n] samples that wrote the file [f']. *)
Definition acq_after_callback (a : DataAcquisition) (f' : CsvFile) (n : Z) (autoStop : bool)
    : DataAcquisition :=
  let a1 := set_nextSample (nextSample a + n) (with_file (set_wasCalledBack true a) f') in
  if autoStop then set_autoStopOuter true a1 else a1.

(** The world after first_sample_recorded.emit() when [b] holds. *)
Definition emit_if (b : bool) (w : World) : World := if b then bump_emits w else w.

Lemma streaming_callback_run a drv w f n s autoStop vals :
  w_acq w = a -> cb_ready a drv -> csvfile a = Some f -> csv_closed f = false ->
  (forall i, 0 <= i < n -> reads_ok a (s + i) (vals i)) ->
  streaming_callback n s autoStop w =
  (Normal tt,
   set_acq (acq_after_callback a
              (csv_fold (nextSample a) (fun i => spec_row a drv (nextSample a + i) (vals i))
                        (py_range n) f) n autoStop)
           (emit_if (bool_decide (nextSample a = 0) && w_fsr_connected w) w)).
Proof.
  intros Hw Hready Hf Hopen Hreads. pose proof Hready as (Hdrv & Hmax & Hwr).
  assert (Hreads1 : forall i, In i (py_range n) ->
                              reads_ok (set_wasCalledBack true a) (s + i) (vals i)).
  { intros i Hi. apply Hreads. unfold py_range in Hi. apply in_map_iff in Hi.
    destruct Hi as (j & <- & Hj). apply in_seq in Hj. lia. }
  assert (Hstate : forall w', set_acq (set_wasCalledBack true a) w' =
                              set_acq (with_file (set_wasCalledBack true a) f) w')
    by (intros w'; rewrite with_file_id; [reflexivity | exact Hf]).
  unfold streaming_callback, py_bind, acq_modify, py_modify, py_get, acq_get. simpl.
  rewrite Hw.
  destruct (bool_decide (nextSample a = 0) && w_fsr_connected w); simpl;
  (destruct (decide (maxADC a <> 0)) as [_|Hn]; [|exfalso; apply Hn; exact Hmax]);
  unfold get_driver, py_bind, acq_get; simpl; rewrite Hdrv; simpl;
  [change (bump_emits (set_acq (set_wasCalledBack true a) w))
     with (set_acq (set_wasCalledBack true a) (bump_emits w)) | ];
  rewrite Hstate;
  (rewrite (callback_samples_run (set_wasCalledBack true a) drv _ s vals Hready
                                 (py_range n) f Hopen Hreads1); simpl);
  destruct autoStop; reflexivity.
Qed.

Lemma csv_fold_rows next rowf idxs f :
  csv_rows (csv_fold next rowf idxs f) = csv_rows f ++ map rowf idxs.
Proof.
  revert f; induction idxs as [|i idxs IH]; intros f; simpl; [by rewrite app_nil_r|].
  rewrite IH, csv_step_rows, <- app_assoc. reflexivity.
Qed.

Lemma csv_fold_closed next rowf idxs f :
  csv_closed (csv_fold next rowf idxs f) = csv_closed f.
Proof.
  revert f; induction idxs as [|i idxs IH]; intros f; simpl; [done|].
  by rewrite IH, csv_step_closed.
Qed.

Lemma spec_row_length a drv k vals :
  length (spec_row a drv k vals) =
  length (make_header (time_unit a) (channels a) (digital_channels a)).
Proof.
  rewrite make_header_length. unfold spec_row, n_enabled. cbn [length].
  rewrite length_app.
  assert (Hd : length (if bool_decide (digital_channels a <> [])
                       then map (digital_bit (vals BufDig0) (vals BufDig1)) (digital_channels a)
                       else []) = length (digital_channels a)).
  { case_bool_decide as Hd; [by rewrite length_map|].
    destruct (digital_channels a); [done | congruence]. }
  rewrite Hd. simpl. rewrite !filter_cons, filter_nil.
  destruct (gmap_get_false (channels a) "A"), (gmap_get_false (channels a) "B"),
    (gmap_get_false (channels a) "C"), (gmap_get_false (channels a) "D"); simpl; lia.
Qed.

(** ** One batch *)

(** Every buffer the callback will read is allocated with [size] samples. *)
Definition buffers_ready (size : Z) (a : DataAcquisition) : Prop :=
  (forall ch id, In (ch, id) analog_channels -> gmap_get_false (channels a) ch = true ->
     exists l, buffers a id = Some l /\ Z.of_nat (length l) = size) /\
  (digital_channels a <> [] -> forall id, id = BufDig0 \/ id = BufDig1 ->
     exists l, buffers a id = Some l /\ Z.of_nat (length l) = size).

(** The value the driver wrote for sample [i] of the batch into [id]. *)
Definition batch_vals (b : batch) (i : Z) (id : buf_id) : Z :=
  default 0 (b_data b id !! Z.to_nat i).

Lemma device_write_buf_read size a b id l i :
  buffers a id = Some l -> Z.of_nat (length l) = size -> batch_ok size b ->
  0 <= i < b_noOfSamples b ->
  buf_read (device_write b a) id (b_startIndex b + i) = Normal (batch_vals b i id).
Proof.
  intros Hb Hl (Hs & Hn & Hfit & Hdata) Hi.
  assert (Hlen : (Z.to_nat i < length (b_data b id))%nat) by (rewrite Hdata; lia).
  destruct (lookup_lt_is_Some_2 _ _ Hlen) as [v Hv].
  apply (buf_read_some _ _ (list_write l (Z.to_nat (b_startIndex b)) (b_data b id))); [| lia |].
  - unfold device_write. simpl. by rewrite Hb.
  - replace (Z.to_nat (b_startIndex b + i)) with (Z.to_nat (b_startIndex b) + Z.to_nat i)%nat by lia.
    rewrite list_write_lookup by (rewrite Hdata; lia).
    unfold batch_vals. by rewrite Hv.
Qed.

Lemma device_write_reads size a b i :
  batch_ok size b -> buffers_ready size a -> 0 <= i < b_noOfSamples b ->
  reads_ok (device_write b a) (b_startIndex b + i) (batch_vals b i).
Proof.
  intros Hok [Han Hdg] Hi. split.
  - intros ch id Hin Hen. destruct (Han ch id Hin Hen) as (l & Hb & Hl).
    by apply (device_write_buf_read size a b id l).
  - intros Hd. split;
    [destruct (Hdg Hd BufDig0 (or_introl eq_refl)) as (l & Hb & Hl)
    |destruct (Hdg Hd BufDig1 (or_intror eq_refl)) as (l & Hb & Hl)];
    by apply (device_write_buf_read size a b _ l).
Qed.

(** The rows a batch produces, in order. *)
Definition batch_rows (a : DataAcquisition) (drv : Driver) (b : batch) : list row :=
  map (fun i => spec_row a drv (nextSample a + i) (batch_vals b i)) (py_range (b_noOfSamples b)).

Lemma deliver_run size a drv w f b :
  w_acq w = a -> cb_ready a drv -> csvfile a = Some f -> csv_closed f = false ->
  buffers_ready size a -> batch_ok size b ->
  deliver b w =
  (Normal tt,
   set_acq (acq_after_callback (device_write b a)
              (csv_fold (nextSample a) (fun i => spec_row a drv (nextSample a + i) (batch_vals b i))
                        (py_range (b_noOfSamples b)) f) (b_noOfSamples b) (b_autoStop b))
           (emit_if (bool_decide (nextSample a = 0) && w_fsr_connected w) w)).
Proof.
  intros Hw Hready Hf Hopen Hbuf Hok.
  unfold deliver, py_bind, acq_modify, py_modify, ctypes_call. simpl.
  rewrite Hw.
  rewrite (streaming_callback_run (device_write b a) drv _ f _ _ _ (batch_vals b));
    [simpl; by destruct (bool_decide (nextSample a = 0) && w_fsr_connected w)
    | reflexivity | exact Hready | exact Hf | exact Hopen |].
  intros i Hi. by apply (device_write_reads size).
Qed.

(** ** The invariant of the streaming loop *)

(** What the loop needs of the object: the callback can run, its buffers
    are allocated with [size] samples, the file is open, the counter is
    non-negative. *)
Definition stream_inv (size : Z) (drv : Driver) (a : DataAcquisition) : Prop :=
  cb_ready a drv /\ buffers_ready size a /\
  (exists f, csvfile a = Some f /\ csv_closed f = false) /\ 0 <= nextSample a.

(** The device keeps its contract on every batch of every poll. *)
Definition device_ok (size : Z) (d : Device) : Prop :=
  forall k, Forall (batch_ok size) (dev_batches d k).

Lemma acq_after_callback_fields a f' n s :
  driver (acq_after_callback a f' n s) = driver a /\
  maxADC (acq_after_callback a f' n s) = maxADC a /\
  csvwriter (acq_after_callback a f' n s) = csvwriter a /\
  channels (acq_after_callback a f' n s) = channels a /\
  digital_channels (acq_after_callback a f' n s) = digital_channels a /\
  buffers (acq_after_callback a f' n s) = buffers a /\
  totalSamples (acq_after_callback a f' n s) = totalSamples a /\
  csvfile (acq_after_callback a f' n s) = Some f' /\
  nextSample (acq_after_callback a f' n s) = nextSample a + n /\
  autoStopOuter (acq_after_callback a f' n s) = autoStopOuter a || s.
Proof. unfold acq_after_callback. destruct s; simpl; rewrite ?orb_true_r, ?orb_false_r; done. Qed.

Lemma device_write_buffers_ready size a b :
  buffers_ready size a -> buffers_ready size (device_write b a).
Proof.
  intros [Han Hdg]. split.
  - intros ch id Hin Hen. destruct (Han ch id Hin Hen) as (l & Hb & Hl).
    exists (list_write l (Z.to_nat (b_startIndex b)) (b_data b id)).
    unfold device_write; simpl. rewrite Hb, list_write_length. done.
  - intros Hd id Hid. destruct (Hdg Hd id Hid) as (l & Hb & Hl).
    exists (list_write l (Z.to_nat (b_startIndex b)) (b_data b id)).
    unfold device_write; simpl. rewrite Hb, list_write_length. done.
Qed.

Lemma deliver_inv size drv w b :
  stream_inv size drv (w_acq w) -> batch_ok size b ->
  fst (deliver b w) = Normal tt /\ stream_inv size drv (w_acq (snd (deliver b w))).
Proof.
  intros (Hready & Hbuf & (f & Hf & Hopen) & Hnext) Hok.
  rewrite (deliver_run size (w_acq w) drv w f b) by done. simpl. split; [done|].
  destruct (acq_after_callback_fields (device_write b (w_acq w))
             (csv_fold (nextSample (w_acq w))
                (fun i => spec_row (w_acq w) drv (nextSample (w_acq w) + i) (batch_vals b i))
                (py_range (b_noOfSamples b)) f) (b_noOfSamples b) (b_autoStop b))
    as (E1 & E2 & E3 & E4 & E5 & E6 & E7 & E8 & E9 & E10).
  destruct Hready as (Hd & Hm & Hw). destruct Hok as (Hs & Hn & _).
  repeat split.
  - rewrite E1. exact Hd.
  - rewrite E2. exact Hm.
  - rewrite E3. exact Hw.
  - destruct (device_write_buffers_ready size _ b Hbuf) as [Han _].
    intros ch id Hin Hen. rewrite E6. apply (Han ch id Hin). rewrite <- E4. exact Hen.
  - destruct (device_write_buffers_ready size _ b Hbuf) as [_ Hdg].
    intros Hd' id Hid. rewrite E6. apply Hdg; [rewrite <- E5; exact Hd' | exact Hid].
  - eexists; split; [exact E8|]. by rewrite csv_fold_closed.
  - rewrite E9. simpl. lia.
Qed.

(** Any property of the world that every well-formed batch keeps, that
    depends only on the object and the emission count, and that does not
    depend on wasCalledBack, holds after the loop. *)
Section LoopInvariant.
Context (B : batch -> Prop) (d : Device) (P : World -> Prop).
Hypothesis Hdev : forall k, Forall B (dev_batches d k).
Hypothesis Hdeliver : forall b w, B b -> P w ->
  fst (deliver b w) = Normal tt /\ P (snd (deliver b w)).
Hypothesis Hproj : forall w w', w_acq w' = w_acq w -> w_emits w' = w_emits w ->
  w_fsr_connected w' = w_fsr_connected w -> P w -> P w'.
Hypothesis Hcalled : forall w, P w -> P (set_acq (set_wasCalledBack false (w_acq w)) w).

Lemma poll_once_keeps w :
  P w -> fst (poll_once d w) = Normal tt /\ P (snd (poll_once d w)).
Proof.
  intros Hinv. unfold poll_once, py_bind, dev, py_get, incr_polls, py_modify. simpl.
  apply (py_for_inv P B); [| apply Hdev | ].
  - intros b w' Hb Hw'. by apply Hdeliver.
  - eapply Hproj; [| | | exact Hinv]; reflexivity.
Qed.

Lemma stream_loop_keeps fuel w :
  P w -> fst (stream_loop d fuel w) = Normal tt /\ P (snd (stream_loop d fuel w)).
Proof.
  revert w; induction fuel as [|fuel IH]; intros w Hinv; simpl; [done|].
  unfold py_bind, acq_get. simpl. destruct (loop_continues (w_acq w)); [|done].
  unfold acq_modify, py_modify. simpl.
  set (w1 := set_acq (set_wasCalledBack false (w_acq w)) w).
  destruct (poll_once_keeps w1 (Hcalled _ Hinv)) as [Hn Hp].
  destruct (poll_once d w1) as [o w2]; simpl in *. subst o. by apply IH.
Qed.
End LoopInvariant.

Lemma stream_loop_inv size drv d fuel w :
  device_ok size d -> stream_inv size drv (w_acq w) ->
  fst (stream_loop d fuel w) = Normal tt /\ stream_inv size drv (w_acq (snd (stream_loop d fuel w))).
Proof.
  intros Hdev. apply (stream_loop_keeps (batch_ok size) d (fun w => stream_inv size drv (w_acq w)));
    [exact Hdev | | intros w1 w2 -> _ _; done | done].
  intros b w' Hb Hw'. by apply deliver_inv.
Qed.

(** ** Durability: the rows not yet flushed *)

(** The rows of the file not certainly on disk. *)
Definition unflushed (f : CsvFile) : Z :=
  Z.of_nat (length (csv_rows f)) - Z.of_nat (csv_flushed f).

(** The bound on [unflushed] when [next] samples have been written: the
    header alone before the first sample, then the rows since the last
    multiple of 1000. *)
Definition lag_bound (next : Z) : Z := if decide (next = 0) then 1 else (next - 1) mod 1000.

(** The file holds the header and one row per sample, and its unflushed
    tail is within [lag_bound]. *)
Definition lag_inv (next : Z) (f : CsvFile) : Prop :=
  Z.of_nat (length (csv_rows f)) = 1 + next /\
  (csv_flushed f <= length (csv_rows f))%nat /\ unflushed f <= lag_bound next.

Lemma mod1000_step x : 0 < x -> x mod 1000 <> 0 -> x mod 1000 = (x - 1) mod 1000 + 1.
Proof.
  intros Hx Hr. pose proof (Z.mod_pos_bound x 1000). pose proof (Z.div_mod x 1000).
  assert (E : (x - 1) mod 1000 = x mod 1000 - 1)
    by (symmetry; apply Z.mod_unique with (x / 1000); lia).
  lia.
Qed.

Lemma csv_step_lag next r f :
  0 <= next -> lag_inv next f -> lag_inv (next + 1) (csv_step next r f).
Proof.
  intros Hn (Hlen & Hfl & Hlag). unfold lag_inv, unflushed in *.
  assert (Hb1 : lag_bound (next + 1) = next mod 1000).
  { unfold lag_bound. destruct (decide (next + 1 = 0)); [lia|]. f_equal. lia. }
  rewrite Hb1. pose proof (Z.mod_pos_bound next 1000).
  unfold csv_step. destruct (decide (next mod 1000 = 0)) as [Hm|Hm]; simpl;
    rewrite length_app; simpl; split; [lia| |lia|]; [lia|].
  assert (Hb : lag_bound next = (next - 1) mod 1000).
  { unfold lag_bound. destruct (decide (next = 0)); [subst; done|done]. }
  assert (Hnz : next <> 0) by (intros ->; apply Hm; reflexivity).
  rewrite Hb in Hlag. rewrite (mod1000_step next ltac:(lia) Hm). lia.
Qed.

Lemma csv_fold_lag next rowf (m : nat) f :
  0 <= next -> lag_inv next f ->
  lag_inv (next + Z.of_nat m) (csv_fold next rowf (py_range (Z.of_nat m)) f).
Proof.
  intros Hn Hf. induction m as [|m IH]; [by rewrite Z.add_0_r|].
  rewrite py_range_succ. unfold csv_fold in *. rewrite fold_left_app. simpl.
  replace (next + Z.of_nat (S m)) with (next + Z.of_nat m + 1) by lia.
  apply csv_step_lag; [lia | exact IH].
Qed.

(** The counters after one delivered batch: nextSample advances by the
    batch's size and totalSamples is unchanged. *)
Lemma deliver_counters size drv w b :
  stream_inv size drv (w_acq w) -> batch_ok size b ->
  nextSample (w_acq (snd (deliver b w))) = nextSample (w_acq w) + b_noOfSamples b /\
  totalSamples (w_acq (snd (deliver b w))) = totalSamples (w_acq w).
Proof.
  intros (Hready & Hbuf & (f & Hf & Hopen) & _) Hok.
  rewrite (deliver_run size (w_acq w) drv w f b) by done. simpl.
  match goal with |- context [acq_after_callback ?a ?f' ?n ?s] =>
    destruct (acq_after_callback_fields a f' n s) as (_ & _ & _ & _ & _ & _ & E7 & _ & E9 & _)
  end.
  by rewrite E7, E9.
Qed.

(** The file of the object is open and within the lag bound. *)
Definition file_lag_inv (a : DataAcquisition) : Prop :=
  exists f, csvfile a = Some f /\ lag_inv (nextSample a) f.

Lemma deliver_lag size drv w b :
  stream_inv size drv (w_acq w) /\ file_lag_inv (w_acq w) -> batch_ok size b ->
  fst (deliver b w) = Normal tt /\
  (stream_inv size drv (w_acq (snd (deliver b w))) /\ file_lag_inv (w_acq (snd (deliver b w)))).
Proof.
  intros [Hinv (f & Hf & Hlag)] Hok.
  destruct (deliver_inv size drv w b Hinv Hok) as [Hn Hinv']. split; [exact Hn|]. split; [exact Hinv'|].
  destruct Hinv as (Hready & Hbuf & (f0 & Hf0 & Hopen) & Hnext).
  rewrite Hf in Hf0. injection Hf0 as <-.
  rewrite (deliver_run size (w_acq w) drv w f b) by done. simpl.
  destruct (acq_after_callback_fields (device_write b (w_acq w))
             (csv_fold (nextSample (w_acq w))
                (fun i => spec_row (w_acq w) drv (nextSample (w_acq w) + i) (batch_vals b i))
                (py_range (b_noOfSamples b)) f) (b_noOfSamples b) (b_autoStop b))
    as (_ & _ & _ & _ & _ & _ & _ & E8 & E9 & _).
  eexists; split; [exact E8|]. rewrite E9. simpl.
  destruct Hok as (_ & Hn0 & _).
  rewrite <- (Z2Nat.id (b_noOfSamples b)) at 1 2 by exact Hn0.
  by apply csv_fold_lag.
Qed.

(** C3: Durability bound.  While the loop runs, the CSV file always holds
    the header plus one row per sample counted in nextSample, and at most
    [lag_bound nextSample] of its rows are not yet flushed: never more
    than 999 data rows once the first sample is in, whatever the device
    delivers within its contract and however long the loop runs. *)
Theorem stream_loop_durable_lag size drv d fuel w :
  device_ok size d -> stream_inv size drv (w_acq w) -> file_lag_inv (w_acq w) ->
  exists f, csvfile (w_acq (snd (stream_loop d fuel w))) = Some f /\
            Z.of_nat (length (csv_rows f)) = 1 + nextSample (w_acq (snd (stream_loop d fuel w))) /\
            unflushed f <= lag_bound (nextSample (w_acq (snd (stream_loop d fuel w)))) /\
            unflushed f < 1000.
Proof.
  intros Hdev Hinv Hlag.
  destruct (stream_loop_keeps (batch_ok size) d
              (fun w => stream_inv size drv (w_acq w) /\ file_lag_inv (w_acq w))
              Hdev (fun b w' Hb Hw' => deliver_lag size drv w' b Hw' Hb)
              (fun w1 w2 E _ _ H => eq_ind_r (fun a => _ a /\ _ a) H E) (fun w1 Hw1 => Hw1) fuel w
              (conj Hinv Hlag)) as [_ [_ (f & Hf & Hlen & Hfl & Hun)]].
  exists f. split; [exact Hf|]. split; [exact Hlen|]. split; [exact Hun|].
  unfold lag_bound in Hun. destruct decide; [lia|].
  pose proof (Z.mod_pos_bound (nextSample (w_acq (snd (stream_loop d fuel w))) - 1) 1000). lia.
Qed.

(** Every row of the file has as many cells as the header the object's
    settings give. *)
Definition rows_width_inv (a : DataAcquisition) : Prop :=
  exists f, csvfile a = Some f /\
    Forall (fun r => length r = length (make_header (time_unit a) (channels a) (digital_channels a)))
           (csv_rows f).

Lemma acq_after_callback_settings a f' n s :
  time_unit (acq_after_callback a f' n s) = time_unit a /\
  channels (acq_after_callback a f' n s) = channels a /\
  digital_channels (acq_after_callback a f' n s) = digital_channels a /\
  sampleIntervalNs (acq_after_callback a f' n s) = sampleIntervalNs a.
Proof. unfold acq_after_callback. by destruct s. Qed.

Lemma deliver_width size drv w b :
  stream_inv size drv (w_acq w) /\ rows_width_inv (w_acq w) -> batch_ok size b ->
  fst (deliver b w) = Normal tt /\
  (stream_inv size drv (w_acq (snd (deliver b w))) /\ rows_width_inv (w_acq (snd (deliver b w)))).
Proof.
  intros [Hinv (f & Hf & Hrows)] Hok.
  destruct (deliver_inv size drv w b Hinv Hok) as [Hn Hinv']. split; [exact Hn|]. split; [exact Hinv'|].
  destruct Hinv as (Hready & Hbuf & (f0 & Hf0 & Hopen) & _).
  rewrite Hf in Hf0. injection Hf0 as <-.
  rewrite (deliver_run size (w_acq w) drv w f b) by done. simpl.
  match goal with |- context [acq_after_callback ?a ?f' ?n ?s] =>
    destruct (acq_after_callback_fields a f' n s) as (_ & _ & _ & _ & _ & _ & _ & E8 & _);
    destruct (acq_after_callback_settings a f' n s) as (T1 & T2 & T3 & _)
  end.
  eexists; split; [exact E8|]. rewrite T1, T2, T3. simpl.
  rewrite csv_fold_rows. apply Forall_app; split; [exact Hrows|].
  apply Forall_forall. intros r Hr. apply list_elem_of_In, in_map_iff in Hr.
  destruct Hr as (i & <- & _). apply spec_row_length.
Qed.

(** ** Theorems on the callback *)

(** C1: Refinement of one callback.  When the driver delivers a batch
    within its contract to an engine whose callback can run, the callback
    returns normally, advances nextSample by exactly noOfSamples, appends
    to the CSV file exactly the rows of the abstract specification (one per
    delivered sample, in order, sample k stamped with k and converted
    from the value the driver wrote), and latches the device's auto-stop
    flag. *)
Theorem streaming_callback_refines size a drv w f b :
  w_acq w = a -> cb_ready a drv -> csvfile a = Some f -> csv_closed f = false ->
  buffers_ready size a -> batch_ok size b ->
  fst (deliver b w) = Normal tt /\
  nextSample (w_acq (snd (deliver b w))) = nextSample a + b_noOfSamples b /\
  option_map csv_rows (csvfile (w_acq (snd (deliver b w)))) =
    Some (csv_rows f ++ batch_rows a drv b) /\
  autoStopOuter (w_acq (snd (deliver b w))) = autoStopOuter a || b_autoStop b.
Proof.
  intros Hw Hready Hf Hopen Hbuf Hok.
  rewrite (deliver_run size a drv w f b) by done. simpl.
  destruct (acq_after_callback_fields (device_write b a)
             (csv_fold (nextSample a) (fun i => spec_row a drv (nextSample a + i) (batch_vals b i))
                (py_range (b_noOfSamples b)) f) (b_noOfSamples b) (b_autoStop b))
    as (_ & _ & _ & _ & _ & _ & _ & E8 & E9 & E10).
  rewrite E8, E9, E10. simpl. rewrite csv_fold_rows. done.
Qed.

Lemma deliver_emits size a drv w f b :
  w_acq w = a -> cb_ready a drv -> csvfile a = Some f -> csv_closed f = false ->
  buffers_ready size a -> batch_ok size b ->
  w_emits (snd (deliver b w)) =
    (w_emits w + if bool_decide (nextSample a = 0%Z) && w_fsr_connected w then 1%nat else 0%nat)%nat /\
  w_fsr_connected (snd (deliver b w)) = w_fsr_connected w.
Proof.
  intros Hw Hready Hf Hopen Hbuf Hok.
  rewrite (deliver_run size a drv w f b) by done. simpl.
  destruct (bool_decide (nextSample a = 0) && w_fsr_connected w); simpl; split; try lia; reflexivity.
Qed.

(** The first-sample counter: before the first sample nothing was
    emitted beyond [e0]; after it, exactly one more emission if the
    signal is connected. *)
Definition emits_inv (e0 : nat) (w : World) : Prop :=
  (nextSample (w_acq w) = 0 -> w_emits w = e0) /\
  (0 < nextSample (w_acq w) -> w_emits w = (e0 + if w_fsr_connected w then 1%nat else 0%nat)%nat).

(** C4: The first-sample notification fires exactly once.  Starting from
    nextSample = 0 with [e0] emissions so far, if every batch the device
    delivers carries at least one sample, then after any number of loop
    iterations the signal was emitted exactly once more if it is
    connected (and not at all otherwise), as soon as a sample was
    recorded, and never before. *)
Theorem first_sample_emitted_once size drv d fuel w :
  device_ok size d -> (forall k, Forall (fun b => 0 < b_noOfSamples b) (dev_batches d k)) ->
  stream_inv size drv (w_acq w) -> nextSample (w_acq w) = 0 ->
  emits_inv (w_emits w) (snd (stream_loop d fuel w)).
Proof.
  intros Hdev Hpos Hinv H0.
  set (e0 := w_emits w).
  assert (Hstart : stream_inv size drv (w_acq w) /\ emits_inv e0 w).
  { split; [exact Hinv|]. split; [done | lia]. }
  apply (stream_loop_keeps (fun b => batch_ok size b /\ 0 < b_noOfSamples b) d
           (fun w => stream_inv size drv (w_acq w) /\ emits_inv e0 w)); [| | | | exact Hstart].
  - intros k. specialize (Hdev k). specialize (Hpos k). rewrite Forall_forall in *. auto.
  - intros b w1 [Hok Hn] [Hinv1 [Hz Hp]].
    destruct (deliver_inv size drv w1 b Hinv1 Hok) as [Hnorm Hinv2].
    split; [exact Hnorm|]. split; [exact Hinv2|].
    destruct Hinv1 as (Hready & Hbuf & (f & Hf & Hopen) & Hnext).
    destruct (deliver_counters size drv w1 b (conj Hready (conj Hbuf (conj (ex_intro _ f (conj Hf Hopen)) Hnext))) Hok)
      as [Enext _].
    destruct (deliver_emits size _ drv w1 f b eq_refl Hready Hf Hopen Hbuf Hok) as [Ee Ec].
    unfold emits_inv. rewrite Enext, Ee, Ec. split; [lia|]. intros _.
    destruct (decide (nextSample (w_acq w1) = 0)) as [Z0|Z0].
    + rewrite (Hz Z0), bool_decide_eq_true_2 by exact Z0. simpl. lia.
    + rewrite (Hp ltac:(lia)), bool_decide_eq_false_2 by exact Z0. simpl. lia.
  - intros w1 w2 E1 E2 E3 [Hi He]. unfold emits_inv. rewrite E1, E2, E3. done.
  - intros w1 [Hi He]. split; [exact Hi | exact He].
Qed.

(** ** Termination of the loop, and its absence *)

(** The samples the device delivers in its [k]-th poll. *)
Definition poll_total (d : Device) (k : nat) : Z :=
  fold_right (fun b acc => b_noOfSamples b + acc) 0 (dev_batches d k).

Lemma deliver_all_next size drv bs w :
  Forall (batch_ok size) bs -> stream_inv size drv (w_acq w) ->
  nextSample (w_acq (snd (py_for bs deliver w))) =
    nextSample (w_acq w) + fold_right (fun b acc => b_noOfSamples b + acc) 0 bs /\
  totalSamples (w_acq (snd (py_for bs deliver w))) = totalSamples (w_acq w) /\
  stream_inv size drv (w_acq (snd (py_for bs deliver w))).
Proof.
  intros Hbs; revert w; induction Hbs as [|b bs Hb Hbs IH]; intros w Hinv; simpl; [split; [lia|done]|].
  destruct (deliver_inv size drv w b Hinv Hb) as [Hn Hinv'].
  destruct (deliver_counters size drv w b Hinv Hb) as [Enext Etot].
  unfold py_bind. destruct (deliver b w) as [o w'] eqn:E; simpl in *. subst o.
  destruct (IH w' Hinv') as (IH1 & IH2 & IH3). rewrite IH1, IH2, Enext, Etot.
  split; [lia | split; [reflexivity | exact IH3]].
Qed.

Lemma poll_once_next size drv d w :
  device_ok size d -> stream_inv size drv (w_acq w) ->
  nextSample (w_acq (snd (poll_once d w))) = nextSample (w_acq w) + poll_total d (w_polls w) /\
  totalSamples (w_acq (snd (poll_once d w))) = totalSamples (w_acq w) /\
  stream_inv size drv (w_acq (snd (poll_once d w))).
Proof.
  intros Hdev Hinv. unfold poll_once, py_bind, dev, py_get, incr_polls, py_modify. simpl.
  match goal with
  | |- context [py_for ?bs deliver ?w'] => exact (deliver_all_next size drv bs w' (Hdev _) Hinv)
  end.
Qed.

Lemma poll_once_normal size drv d w :
  device_ok size d -> stream_inv size drv (w_acq w) -> fst (poll_once d w) = Normal tt.
Proof.
  intros Hdev Hinv.
  apply (poll_once_keeps (batch_ok size) d (fun w => stream_inv size drv (w_acq w))); try done.
  - intros b w' Hb Hw'. by apply deliver_inv.
  - intros w1 w2 -> _ _ H. exact H.
Qed.

(** C5: Termination.  If the device keeps its contract and every poll
    delivers at least one sample, the while loop of run_streaming exits
    within totalSamples - nextSample iterations: with that much fuel the
    loop condition is false at the end. *)
Theorem stream_loop_terminates size drv d (fuel : nat) w :
  device_ok size d -> (forall k, 1 <= poll_total d k) -> stream_inv size drv (w_acq w) ->
  totalSamples (w_acq w) - nextSample (w_acq w) <= Z.of_nat fuel ->
  loop_continues (w_acq (snd (stream_loop d fuel w))) = false.
Proof.
  intros Hdev Hpos; revert w; induction fuel as [|fuel IH]; intros w Hinv Hfuel; simpl.
  - unfold loop_continues. rewrite bool_decide_eq_false_2 by lia. done.
  - unfold py_bind, acq_get. simpl. destruct (loop_continues (w_acq w)) eqn:Hc; [|exact Hc].
    unfold acq_modify, py_modify. simpl.
    set (w1 := set_acq (set_wasCalledBack false (w_acq w)) w).
    destruct (poll_once_next size drv d w1 Hdev Hinv) as (En & Et & Hinv').
    pose proof (poll_once_normal size drv d w1 Hdev Hinv) as Hn.
    pose proof (Hpos (w_polls w1)).
    destruct (poll_once d w1) as [o w2] eqn:E. simpl in *. subst o.
    apply IH; [exact Hinv' | lia].
Qed.

Lemma poll_once_empty d w :
  dev_batches d (w_polls w) = [] ->
  poll_once d w =
  (Normal tt,
   {| w_acq := w_acq w; w_trace := w_trace w ++ [(GetStreamingLatestValues, dev_status d GetStreamingLatestValues)];
      w_fsr_connected := w_fsr_connected w; w_emits := w_emits w; w_polls := S (w_polls w) |}).
Proof. intros H. unfold poll_once, py_bind, dev, py_get, incr_polls, py_modify. simpl. by rewrite H. Qed.

Lemma stream_loop_S d fuel w :
  stream_loop d (S fuel) w =
  if loop_continues (w_acq w) then
    match poll_once d (set_acq (set_wasCalledBack false (w_acq w)) w) with
    | (Normal _, w') => stream_loop d fuel w'
    | (Exc e, w') => (Exc e, w')
    end
  else (Normal tt, w).
Proof.
  simpl. unfold py_bind, acq_get, acq_modify, py_modify. simpl.
  destruct (loop_continues (w_acq w)); reflexivity.
Qed.

(** C24: No termination without data.  If the device delivers no more
    batches (as after psStop / psCloseUnit, whose effect on the loop the
    code never checks) and the loop condition holds, then the loop never
    exits: after any number of iterations the condition still holds, the
    device has been polled once per iteration, and nextSample has not
    moved. *)
Theorem stream_loop_spins d (fuel : nat) w :
  (forall k, (w_polls w <= k)%nat -> dev_batches d k = []) ->
  loop_continues (w_acq w) = true ->
  loop_continues (w_acq (snd (stream_loop d fuel w))) = true /\
  w_polls (snd (stream_loop d fuel w)) = (w_polls w + fuel)%nat /\
  nextSample (w_acq (snd (stream_loop d fuel w))) = nextSample (w_acq w).
Proof.
  revert w; induction fuel as [|fuel IH]; intros w Hnone Hc; [rewrite Nat.add_0_r; done|].
  rewrite stream_loop_S, Hc.
  rewrite (poll_once_empty d (set_acq (set_wasCalledBack false (w_acq w)) w))
    by (apply Hnone; simpl; lia).
  match goal with |- context [stream_loop d fuel ?w2] =>
    assert (Hn2 : forall k, (w_polls w2 <= k)%nat -> dev_batches d k = [])
      by (intros k Hk; apply Hnone; simpl in Hk; lia);
    destruct (IH w2 Hn2 Hc) as (H1 & H2 & H3)
  end.
  split; [exact H1|]. split; [rewrite H2; simpl; lia | exact H3].
Qed.

(** ** A concrete run: the scenario of the specification

    Interval 0.25 ms, channel A only, maxADC 32768, buffers of three
    samples, one batch of the raw counts 0, 16384, -16384 per poll. *)

Definition scn_channels : gmap string bool :=
  <["A" := true]> (<["B" := false]> (<["C" := false]> {["D" := false]})).

Definition scn_file : CsvFile := csv_writerow (make_header "ms" scn_channels []) csv_open.

Definition scn_acq : DataAcquisition :=
  set_buffer BufA (replicate 3 0)
    (set_csvfile (Some scn_file) (set_csvwriter true (set_maxADC 32768
      (set_sampleIntervalNs 250000 (set_channels scn_channels
        (set_totalSamples 3 (acq_init (Some ps3000a_driver)))))))).

Definition scn_world : World := set_acq scn_acq (world_init (Some ps3000a_driver) true).

Definition scn_batch : batch := mkBatch 3 0 0 false (fun _ => [0; 16384; -16384]).

(** A device that answers every poll with [scn_batch]. *)
Definition scn_device : Device := mkDevice (fun _ => 0) 32768 (fun _ => [scn_batch]).

(** A device that delivers nothing any more (stopped and closed). *)
Definition silent_device : Device := mkDevice (fun _ => 0) 32768 (fun _ => []).

Lemma scn_ready : cb_ready scn_acq ps3000a_driver.
Proof. repeat split; discriminate. Qed.

Lemma scn_buffers_ready : buffers_ready 3 scn_acq.
Proof.
  split.
  - intros ch id Hin Hen. simpl in Hin.
    destruct Hin as [E|[E|[E|[E|[]]]]]; injection E as <- <-;
      vm_compute in Hen; try discriminate; eexists; split; reflexivity.
  - intros Hd. exfalso. apply Hd. reflexivity.
Qed.

Lemma scn_batch_ok : batch_ok 3 scn_batch.
Proof.
  split; [simpl; lia|]. split; [simpl; lia|]. split; [simpl; lia|].
  intros []; reflexivity.
Qed.

Lemma scn_device_ok : device_ok 3 scn_device.
Proof. intros k. constructor; [exact scn_batch_ok | constructor]. Qed.

Lemma scn_inv : stream_inv 3 ps3000a_driver scn_acq.
Proof.
  split; [exact scn_ready|]. split; [exact scn_buffers_ready|].
  split; [eexists; split; reflexivity | simpl; lia].
Qed.

Lemma streaming_callback_refines_witness :
  fst (deliver scn_batch scn_world) = Normal tt /\
  nextSample (w_acq (snd (deliver scn_batch scn_world))) = nextSample scn_acq + b_noOfSamples scn_batch /\
  option_map csv_rows (csvfile (w_acq (snd (deliver scn_batch scn_world)))) =
    Some (csv_rows scn_file ++ batch_rows scn_acq ps3000a_driver scn_batch) /\
  autoStopOuter (w_acq (snd (deliver scn_batch scn_world))) =
    autoStopOuter scn_acq || b_autoStop scn_batch.
Proof.
  apply (streaming_callback_refines 3 scn_acq ps3000a_driver scn_world scn_file scn_batch);
    [reflexivity | exact scn_ready | reflexivity | reflexivity | exact scn_buffers_ready
    | exact scn_batch_ok].
Defined.

Lemma stream_loop_durable_lag_witness :
  exists f, csvfile (w_acq (snd (stream_loop scn_device 5 scn_world))) = Some f /\
            Z.of_nat (length (csv_rows f)) = 1 + nextSample (w_acq (snd (stream_loop scn_device 5 scn_world))) /\
            unflushed f <= lag_bound (nextSample (w_acq (snd (stream_loop scn_device 5 scn_world)))) /\
            unflushed f < 1000.
Proof.
  apply (stream_loop_durable_lag 3 ps3000a_driver scn_device 5 scn_world);
    [exact scn_device_ok | exact scn_inv | eexists; split; [reflexivity | unfold lag_inv, unflushed, lag_bound; simpl; lia]].
Defined.

Lemma first_sample_emitted_once_witness :
  emits_inv (w_emits scn_world) (snd (stream_loop scn_device 5 scn_world)).
Proof.
  apply (first_sample_emitted_once 3 ps3000a_driver scn_device 5 scn_world);
    [exact scn_device_ok | intros k; repeat constructor | exact scn_inv | reflexivity].
Defined.

Lemma stream_loop_terminates_witness :
  loop_continues (w_acq (snd (stream_loop scn_device 3 scn_world))) = false.
Proof.
  apply (stream_loop_terminates 3 ps3000a_driver scn_device 3 scn_world);
    [exact scn_device_ok | intros k; vm_compute; discriminate | exact scn_inv | vm_compute; discriminate].
Defined.

Lemma stream_loop_spins_witness :
  loop_continues (w_acq (snd (stream_loop silent_device 100 scn_world))) = true /\
  w_polls (snd (stream_loop silent_device 100 scn_world)) = (w_polls scn_world + 100)%nat /\
  nextSample (w_acq (snd (stream_loop silent_device 100 scn_world))) = nextSample (w_acq scn_world).
Proof.
  apply (stream_loop_spins silent_device 100 scn_world); [intros k _; reflexivity | reflexivity].
Defined.

(** ** What the callback does in the corner cases *)

Definition zero_batch : batch := mkBatch 0 0 0 false (fun _ => []).


(** C33: With maxADC = 0 (never rejected by start_recording, which only
    checks the status of psMaximumValue) a callback writes no row at all
    but still advances nextSample by noOfSamples: the samples are
    silently dropped and the loop runs on to totalSamples. *)
Theorem zero_maxadc_drops_samples w b :
  maxADC (w_acq w) = 0 ->
  fst (deliver b w) = Normal tt /\
  csvfile (w_acq (snd (deliver b w))) = csvfile (w_acq w) /\
  nextSample (w_acq (snd (deliver b w))) = nextSample (w_acq w) + b_noOfSamples b.
Proof.
  intros H0. unfold deliver, py_bind, acq_modify, py_modify, ctypes_call. simpl.
  unfold streaming_callback, py_bind, acq_modify, py_modify, py_get, acq_get. simpl.
  destruct (bool_decide (nextSample (w_acq w) = 0) && w_fsr_connected w); simpl;
  (destruct (decide (maxADC (w_acq w) <> 0)); [contradiction|]); simpl;
  destruct (b_autoStop b); simpl; done.
Qed.

Lemma zero_maxadc_drops_samples_witness :
  maxADC (w_acq (set_acq (set_maxADC 0 scn_acq) scn_world)) = 0 /\
  fst (deliver scn_batch (set_acq (set_maxADC 0 scn_acq) scn_world)) = Normal tt /\
  csvfile (w_acq (snd (deliver scn_batch (set_acq (set_maxADC 0 scn_acq) scn_world)))) =
    csvfile (w_acq (set_acq (set_maxADC 0 scn_acq) scn_world)) /\
  nextSample (w_acq (snd (deliver scn_batch (set_acq (set_maxADC 0 scn_acq) scn_world)))) =
    nextSample (w_acq (set_acq (set_maxADC 0 scn_acq) scn_world)) + b_noOfSamples scn_batch.
Proof. split; [reflexivity|]. apply zero_maxadc_drops_samples. reflexivity. Defined.

(** ** The time base *)

Lemma py_int_nonneg_small q :
  0 <= Qnum q -> py_int q = Qnum q / Zpos (Qden q).
Proof. intros H. unfold py_int. apply Z.quot_div_nonneg; lia. Qed.




(** ** Buffer registration *)

(** The channel name of an analog buffer. *)
Definition analog_of (id : buf_id) : option string :=
  match id with
  | BufA => Some "A" | BufB => Some "B" | BufC => Some "C" | BufD => Some "D"
  | BufDig0 | BufDig1 => None
  end.

Lemma set_buffers_eta a : set_buffers (buffers a) a = a.
Proof. by destruct a. Qed.

(** The run of setup_buffers against an accepting device, without
    digital ports. *)
Lemma setup_buffers_run d drv size w :
  driver (w_acq w) = Some drv -> _has_digital_channels drv = false ->
  (forall c, dev_status d c = PICO_OK) ->
  fst (setup_buffers d size w) = Normal tt /\
  (forall id, buffers (w_acq (snd (setup_buffers d size w))) id =
     match analog_of id with
     | Some ch => if gmap_get_false (channels (w_acq w)) ch
                  then Some (replicate (Z.to_nat size) 0) else buffers (w_acq w) id
     | None => buffers (w_acq w) id
     end) /\
  w_acq (snd (setup_buffers d size w)) =
    set_buffers (buffers (w_acq (snd (setup_buffers d size w)))) (w_acq w) /\
  w_trace (snd (setup_buffers d size w)) =
    w_trace w ++ flat_map (fun chb => if gmap_get_false (channels (w_acq w)) chb.1
                                      then [(SetDataBuffers (pico_channel drv chb.2) size 0
                                               (ratio_mode_none drv), PICO_OK)]
                                      else []) analog_channels.
Proof.
  intros Hdrv Hdig Hst.
  unfold setup_buffers, get_driver, py_bind, acq_get. simpl. rewrite Hdrv. simpl.
  unfold setup_analog_buffer, py_bind, acq_get, acq_modify, py_modify, dev, assert_pico_ok. simpl.
  rewrite !Hst.
  repeat (simpl; match goal with |- context [gmap_get_false (channels (w_acq w)) ?ch] =>
                   destruct (gmap_get_false (channels (w_acq w)) ch) eqn:? end);
    simpl; rewrite ?Hdig, ?andb_false_r; simpl;
    (split; [reflexivity|]);
    (split; [intros []; simpl; repeat match goal with H : gmap_get_false _ _ = _ |- _ => rewrite H end;
             reflexivity|]);
    (split; [first [reflexivity | symmetry; apply set_buffers_eta] |
             rewrite <- ?app_assoc, ?app_nil_r; reflexivity]).
Qed.



(** C6: Row shape.  Through any number of iterations of the streaming
    loop, every row of the CSV file (the header included) has exactly as
    many cells as the header: a timestamp, one value per enabled analog
    channel and one bit per digital channel. *)
Theorem stream_loop_rows_width size drv d fuel w :
  device_ok size d -> stream_inv size drv (w_acq w) -> rows_width_inv (w_acq w) ->
  rows_width_inv (w_acq (snd (stream_loop d fuel w))).
Proof.
  intros Hdev Hinv Hw.
  apply (stream_loop_keeps (batch_ok size) d
           (fun w => stream_inv size drv (w_acq w) /\ rows_width_inv (w_acq w))
           Hdev (fun b w' Hb Hw' => deliver_width size drv w' b Hw' Hb)
           (fun w1 w2 E _ _ H => eq_ind_r (fun a => _ a /\ _ a) H E) (fun w1 Hw1 => Hw1) fuel w
           (conj Hinv Hw)).
Qed.

Lemma stream_loop_rows_width_witness :
  device_ok 3 scn_device /\ stream_inv 3 ps3000a_driver (w_acq scn_world) /\
  rows_width_inv (w_acq scn_world) /\
  rows_width_inv (w_acq (snd (stream_loop scn_device 5 scn_world))).
Proof.
  assert (Hw : rows_width_inv (w_acq scn_world)).
  { eexists; split; [reflexivity|]. repeat constructor. }
  split; [exact scn_device_ok|]. split; [exact scn_inv|]. split; [exact Hw|].
  exact (stream_loop_rows_width 3 ps3000a_driver scn_device 5 scn_world scn_device_ok scn_inv Hw).
Defined.

(** ** The calls of the streaming loop *)

Lemma streaming_callback_trace n s autoStop : preserves w_trace (streaming_callback n s autoStop).
Proof. unfold streaming_callback, callback_sample, csv_write_row, csv_flush_file, get_driver. frame_tac. Qed.

Lemma deliver_trace b : preserves w_trace (deliver b).
Proof.
  unfold deliver. apply preserves_bind; [eauto with frame|]. intros _ w.
  apply streaming_callback_trace.
Qed.

Lemma deliver_normal b w : fst (deliver b w) = Normal tt.
Proof. reflexivity. Qed.

(** One poll: a single psGetStreamingLatestValues call, then only callbacks,
    which make no vendor call; it always returns normally. *)
Lemma poll_once_trace d w :
  fst (poll_once d w) = Normal tt /\
  w_trace (snd (poll_once d w)) = w_trace w ++ [(GetStreamingLatestValues, dev_status d GetStreamingLatestValues)].
Proof.
  unfold poll_once, py_bind, py_get, incr_polls, py_modify. simpl.
  match goal with |- context [py_for ?bs deliver ?w0] =>
    destruct (py_for_inv (fun w' => w_trace w' = w_trace w0) (fun _ => True) bs deliver w0)
      as [Hn Ht]; [intros b w' _ Hw'; split; [reflexivity | rewrite deliver_trace; exact Hw'] |
                   apply Forall_true; done | reflexivity |]
  end.
  destruct (py_for _ deliver _) as [o w']; simpl in *. subst o. split; [reflexivity | exact Ht].
Qed.

(** The loop only ever polls: whatever the device does, it returns
    normally and appends to the call log nothing but
    psGetStreamingLatestValues calls. *)
Lemma stream_loop_trace d fuel w :
  fst (stream_loop d fuel w) = Normal tt /\
  exists rest, w_trace (snd (stream_loop d fuel w)) = w_trace w ++ rest /\
               Forall (fun e => e.1 = GetStreamingLatestValues) rest.
Proof.
  revert w; induction fuel as [|fuel IH]; intros w.
  - split; [reflexivity|]. exists []. rewrite app_nil_r. split; [reflexivity | constructor].
  - rewrite stream_loop_S. unfold py_bind, acq_get. simpl.
    destruct (loop_continues (w_acq w)); [|split; [reflexivity|]; exists []; rewrite app_nil_r; split; [reflexivity | constructor]].
    unfold acq_modify, py_modify. simpl.
    match goal with |- context [poll_once d ?w0] =>
      destruct (poll_once_trace d w0) as [Hn Ht]; destruct (poll_once d w0) as [o w1] eqn:E
    end.
    simpl in *. subst o. destruct (IH w1) as [Hn' (rest & Hr & Hf)].
    split; [exact Hn'|]. exists ((GetStreamingLatestValues, dev_status d GetStreamingLatestValues) :: rest).
    rewrite Hr, Ht, <- app_assoc. split; [reflexivity | constructor; [reflexivity | exact Hf]].
Qed.

(** ** The whole loop against an abstract session

    An abstract session is the list of rows written so far, the sample
    counter and the auto-stop latch ([spec_state]).  A batch appends the
    specified row of each of its samples, numbered from the counter
    ([spec_batch]); a poll folds the batches the device delivers at that
    poll ([spec_poll]); the loop polls while the counter is below the
    target and no auto-stop was seen ([spec_loop], on the same fuel as
    [stream_loop]).  The rows depend only on settings the loop never
    changes ([same_config]).  [sim] relates an abstract session to a
    world; the lemmas are the simulation diagram for one callback, one
    poll and the loop, built on the for-loop diagram [py_for_sim]. *)

Record spec_state := mkSpec {
  sp_rows : list row;
  sp_next : Z;
  sp_stop : bool
}.

Section Spec.
Context (cfg : DataAcquisition) (drv : Driver) (d : Device).

(** One callback: the rows of the batch's samples, the counter, the latch. *)
Definition spec_batch (s : spec_state) (b : batch) : spec_state :=
  mkSpec (sp_rows s ++ map (fun i => spec_row cfg drv (sp_next s + i) (batch_vals b i))
                           (py_range (b_noOfSamples b)))
         (sp_next s + b_noOfSamples b) (sp_stop s || b_autoStop b).

(** Poll number [k]: every batch the device delivers then, in order. *)
Definition spec_poll (k : nat) (s : spec_state) : spec_state :=
  fold_left spec_batch (dev_batches d k) s.

Definition spec_continues (s : spec_state) : bool :=
  bool_decide (sp_next s < totalSamples cfg) && negb (sp_stop s).

(** The loop from poll number [k] on. *)
Fixpoint spec_loop (fuel k : nat) (s : spec_state) : spec_state :=
  match fuel with
  | O => s
  | S fuel' => if spec_continues s then spec_loop fuel' (S k) (spec_poll k s) else s
  end.
End Spec.

(** The settings a row and the loop condition read. *)
Definition same_config (cfg a : DataAcquisition) : Prop :=
  time_unit a = time_unit cfg /\ sampleIntervalNs a = sampleIntervalNs cfg /\
  channels a = channels cfg /\ digital_channels a = digital_channels cfg /\
  maxADC a = maxADC cfg /\ totalSamples a = totalSamples cfg.

(** The abstract session [s] describes the world [w]. *)
Definition sim (size : Z) (cfg : DataAcquisition) (drv : Driver) (s : spec_state) (w : World)
    : Prop :=
  stream_inv size drv (w_acq w) /\ same_config cfg (w_acq w) /\
  option_map csv_rows (csvfile (w_acq w)) = Some (sp_rows s) /\
  nextSample (w_acq w) = sp_next s /\ autoStopOuter (w_acq w) = sp_stop s.

(** The session a world starts in. *)
Definition spec_of (a : DataAcquisition) (f : CsvFile) : spec_state :=
  mkSpec (csv_rows f) (nextSample a) (autoStopOuter a).

(** ** The simulation diagram *)

Lemma spec_row_config cfg a drv :
  same_config cfg a -> spec_row a drv = spec_row cfg drv.
Proof.
  intros (T & I & C & D & M & _). unfold spec_row, mv_value. by rewrite T, I, C, D, M.
Qed.

Lemma same_config_after_callback cfg a f' n st :
  same_config cfg a -> same_config cfg (acq_after_callback a f' n st).
Proof.
  intros (T & I & C & D & M & N).
  destruct (acq_after_callback_fields a f' n st) as (_ & E2 & _ & E4 & E5 & _ & E7 & _).
  destruct (acq_after_callback_settings a f' n st) as (S1 & _ & _ & S4).
  repeat split; congruence.
Qed.

(** One callback is simulated by [spec_batch]; it leaves the poll count. *)
Lemma deliver_sim size cfg drv s w b :
  sim size cfg drv s w -> batch_ok size b ->
  fst (deliver b w) = Normal tt /\ sim size cfg drv (spec_batch cfg drv s b) (snd (deliver b w)) /\
  w_polls (snd (deliver b w)) = w_polls w.
Proof.
  intros (Hinv & Hcfg & Hrows & Hnext & Hstop) Hok.
  destruct (deliver_inv size drv w b Hinv Hok) as [Hn Hinv'].
  destruct Hinv as (Hready & Hbuf & (f & Hf & Hopen) & _).
  rewrite Hf in Hrows. injection Hrows as Hrows.
  rewrite (deliver_run size (w_acq w) drv w f b) in Hinv' |- * by done.
  split; [reflexivity|]. cbn [fst snd w_acq set_acq] in *.
  split; [|cbn; by destruct (bool_decide _ && _)].
  match goal with |- context [acq_after_callback ?a ?f' ?n ?st] =>
    destruct (acq_after_callback_fields a f' n st) as (_ & _ & _ & _ & _ & _ & _ & E8 & E9 & E10)
  end.
  split; [exact Hinv'|]. split; [by apply same_config_after_callback|].
  cbn [w_acq set_acq]. rewrite E8, E9, E10. cbn. rewrite csv_fold_rows, Hrows, Hnext, Hstop.
  rewrite (spec_row_config cfg (w_acq w) drv Hcfg). repeat split.
Qed.

Lemma sim_called size cfg drv s w :
  sim size cfg drv s w -> sim size cfg drv s (set_acq (set_wasCalledBack false (w_acq w)) w).
Proof. intros H. exact H. Qed.

Lemma sim_continues size cfg drv s w :
  sim size cfg drv s w -> loop_continues (w_acq w) = spec_continues cfg s.
Proof.
  intros (_ & (_ & _ & _ & _ & _ & N) & _ & Hnext & Hstop).
  unfold loop_continues, spec_continues. by rewrite N, Hnext, Hstop.
Qed.

(** One poll is simulated by [spec_poll] at the current poll number. *)
Lemma poll_once_sim size cfg drv d s w :
  device_ok size d -> sim size cfg drv s w ->
  fst (poll_once d w) = Normal tt /\
  sim size cfg drv (spec_poll cfg drv d (w_polls w) s) (snd (poll_once d w)) /\
  w_polls (snd (poll_once d w)) = S (w_polls w).
Proof.
  intros Hdev Hs. unfold poll_once, py_bind, dev, py_get, incr_polls, py_modify. cbn [fst snd].
  match goal with |- context [py_for ?bs deliver ?w0] =>
    destruct (py_for_sim (fun s w' => sim size cfg drv s w' /\ w_polls w' = S (w_polls w))
                (batch_ok size) (spec_batch cfg drv) bs deliver s w0)
      as [Hn [Hs' Hp]]
  end.
  - intros b t w' Hb [Ht Hp]. destruct (deliver_sim size cfg drv t w' b Ht Hb) as (? & ? & ->).
    auto.
  - apply Hdev.
  - split; [exact Hs | reflexivity].
  - destruct (py_for _ deliver _) as [o w']; cbn [fst snd] in *. auto.
Qed.

(** The loop is simulated by [spec_loop] from the current poll number. *)
Lemma stream_loop_sim size cfg drv d fuel s w :
  device_ok size d -> sim size cfg drv s w ->
  fst (stream_loop d fuel w) = Normal tt /\
  sim size cfg drv (spec_loop cfg drv d fuel (w_polls w) s) (snd (stream_loop d fuel w)).
Proof.
  intros Hdev. revert s w; induction fuel as [|fuel IH]; intros s w Hs; [done|].
  rewrite stream_loop_S, (sim_continues size cfg drv s w Hs). cbn [spec_loop].
  destruct (spec_continues cfg s); [|done].
  destruct (poll_once_sim size cfg drv d s _ Hdev (sim_called size cfg drv s w Hs)) as (Hn & Hs' & Hp).
  destruct (poll_once d _) as [o w'] eqn:E; cbn [fst snd] in *. subst o.
  cbn [w_polls set_acq] in Hp. rewrite <- Hp. by apply IH.
Qed.

(** ** The refinement *)

(** C2: Refinement of the whole streaming loop.  From any state where the
    callback can run (buffers allocated, file open), against a device
    that keeps its contract, the while loop of run_streaming returns
    normally after any number of iterations, and the CSV file, the sample
    counter and the auto-stop latch are those of the abstract session:
    the rows already in the file followed, poll after poll and batch
    after batch, by the specified row of every delivered sample, numbered
    consecutively from the counter. *)
Theorem stream_loop_refines size drv d fuel w f :
  device_ok size d -> stream_inv size drv (w_acq w) -> csvfile (w_acq w) = Some f ->
  let s := spec_loop (w_acq w) drv d fuel (w_polls w) (spec_of (w_acq w) f) in
  fst (stream_loop d fuel w) = Normal tt /\
  option_map csv_rows (csvfile (w_acq (snd (stream_loop d fuel w)))) = Some (sp_rows s) /\
  nextSample (w_acq (snd (stream_loop d fuel w))) = sp_next s /\
  autoStopOuter (w_acq (snd (stream_loop d fuel w))) = sp_stop s.
Proof.
  intros Hdev Hinv Hf s.
  destruct (stream_loop_sim size (w_acq w) drv d fuel (spec_of (w_acq w) f) w Hdev)
    as (Hn & _ & _ & Hrows & Hnext & Hstop).
  - split; [exact Hinv|]. split; [repeat split|]. by rewrite Hf.
  - auto.
Qed.

Lemma stream_loop_refines_witness :
  device_ok 3 scn_device /\ stream_inv 3 ps3000a_driver (w_acq scn_world) /\
  csvfile (w_acq scn_world) = Some scn_file /\
  option_map csv_rows (csvfile (w_acq (snd (stream_loop scn_device 5 scn_world)))) =
    Some (sp_rows (spec_loop (w_acq scn_world) ps3000a_driver scn_device 5 (w_polls scn_world)
                             (spec_of (w_acq scn_world) scn_file))).
Proof.
  split; [exact scn_device_ok|]. split; [exact scn_inv|]. split; [reflexivity|].
  exact (proj1 (proj2 (stream_loop_refines 3 ps3000a_driver scn_device 5 scn_world scn_file
                         scn_device_ok scn_inv eq_refl))).
Defined.
