(* ===== verification/Rows.v ===== *)
(** * The rows the engine writes

    What each CSV row holds and in which order the rows come, for the
    row built by streaming_callback ([Streaming.build_row], specified by
    [Streaming.spec_row]).  The digital cells: a port word of the device
    carries eight logic lines (D0..D7 in port 0, D8..D15 in port 1, line
    n in bit n mod 8), and [digital_bit] reads line [dch] back with
    (word >> n) & 1; [pack_lines] is that encoding of a list of line
    states.  The cell types: [row_typed] says a data row is a timestamp
    (an int in the ns unit, a float otherwise), a float per enabled
    analog channel and a 0/1 int per digital line.  The order: through
    the streaming loop the data rows of the file are stamped with the
    sample numbers 0, 1, 2, ... with no gap and no repetition. *)

From stdpp Require Import base list gmap strings.
From Stdlib Require Import ZArith QArith Lia.
From S2P Require Import Prelude Driver Calibration Sink AcqState RangeConfig Streaming.

Open Scope Z_scope.

(** ** Digital lines *)

(** The port word whose bit i is the i-th line state. *)
Fixpoint pack_lines (lines : list bool) : Z :=
  match lines with
  | [] => 0
  | b :: bs => Z.b2z b + 2 * pack_lines bs
  end.

Lemma pack_lines_range lines : 0 <= pack_lines lines < 2 ^ Z.of_nat (length lines).
Proof.
  induction lines as [|b bs IH]; simpl; [lia|].
  rewrite Nat2Z.inj_succ, Z.pow_succ_r by lia. destruct b; simpl; lia.
Qed.

Lemma testbit_pack_lines lines i :
  (i < length lines)%nat -> Z.testbit (pack_lines lines) (Z.of_nat i) = nth i lines false.
Proof.
  revert i; induction lines as [|b bs IH]; intros i Hi; simpl in *; [lia|].
  destruct i as [|i].
  - destruct b; simpl; [rewrite Z.add_comm; apply Z.testbit_odd_0 | apply Z.testbit_even_0].
  - rewrite Nat2Z.inj_succ. rewrite <- (IH i) by lia.
    destruct b; simpl; [rewrite Z.add_comm; apply Z.testbit_odd_succ | apply Z.testbit_even_succ]; lia.
Qed.

(** (x >> n) & 1 is bit n of x. *)
Lemma shiftr_land_1 x n : 0 <= n -> Z.land (Z.shiftr x n) 1 = Z.b2z (Z.testbit x n).
Proof.
  intros Hn. apply Z.bits_inj'. intros m Hm.
  rewrite Z.land_spec, Z.shiftr_spec by lia.
  destruct (Z.eq_dec m 0) as [->|Hm0].
  - rewrite Z.add_0_l. destruct (Z.testbit x n); reflexivity.
  - rewrite (Z.bits_above_log2 1 m) by (simpl; lia).
    destruct (Z.testbit x n); simpl; rewrite ?andb_false_r;
      [rewrite Z.bits_above_log2 by (simpl; lia) | rewrite Z.testbit_0_l]; reflexivity.
Qed.

(** Bit n < 8 of a port word only depends on its low byte [lo]. *)
Lemma testbit_low_byte lo hi n :
  0 <= lo < 256 -> 0 <= n < 8 -> Z.testbit (lo + 256 * hi) n = Z.testbit lo n.
Proof.
  intros Hlo Hn. rewrite <- (Z.mod_pow2_bits_low (lo + 256 * hi) 8 n) by lia.
  change (2 ^ 8) with 256. rewrite Z.mul_comm, Z.mod_add, Z.mod_small by lia. reflexivity.
Qed.

Lemma pack_byte_range lines : length lines = 8%nat -> 0 <= pack_lines lines < 256.
Proof. intros H. pose proof (pack_lines_range lines) as R. rewrite H in R. exact R. Qed.

(** C10: Round trip of the digital lines.  When the device reports sixteen
    logic lines in its two port words (D0..D7 in the low byte of port 0,
    D8..D15 in the low byte of port 1, whatever their high bytes hold),
    the cell streaming_callback writes for line dch (0 <= dch < 16) is
    that line's state, 0 or 1. *)
Theorem digital_bit_roundtrip lines hi0 hi1 dch :
  length lines = 16%nat -> 0 <= dch < 16 ->
  digital_bit (pack_lines (take 8 lines) + 256 * hi0) (pack_lines (drop 8 lines) + 256 * hi1) dch =
  CInt (Z.b2z (nth (Z.to_nat dch) lines false)).
Proof.
  intros Hlen Hd. unfold digital_bit.
  assert (H0 : length (take 8 lines) = 8%nat) by (rewrite length_take; lia).
  assert (H1 : length (drop 8 lines) = 8%nat) by (rewrite length_drop; lia).
  case_decide as Hlt.
  - rewrite shiftr_land_1, testbit_low_byte by (try apply pack_byte_range; lia).
    rewrite <- (Z2Nat.id dch) at 1 by lia. rewrite testbit_pack_lines by lia.
    rewrite nth_firstn. destruct (Nat.ltb_spec (Z.to_nat dch) 8); [reflexivity | lia].
  - rewrite shiftr_land_1, testbit_low_byte by (try apply pack_byte_range; lia).
    replace (dch - 8) with (Z.of_nat (Z.to_nat dch - 8)) by lia.
    rewrite testbit_pack_lines by lia. rewrite nth_skipn.
    do 3 f_equal. lia.
Qed.

Lemma digital_bit_roundtrip_witness :
  length [true; false; true; true; false; false; false; true;
          false; true; false; false; false; false; true; false] = 16%nat /\ 0 <= 9 < 16 /\
  digital_bit (pack_lines (take 8 [true; false; true; true; false; false; false; true;
                                   false; true; false; false; false; false; true; false]) + 256 * 3)
              (pack_lines (drop 8 [true; false; true; true; false; false; false; true;
                                   false; true; false; false; false; false; true; false]) + 256 * 7) 9 =
  CInt (Z.b2z (nth (Z.to_nat 9) [true; false; true; true; false; false; false; true;
                                 false; true; false; false; false; false; true; false] false)).
Proof. split; [reflexivity|]. split; [lia|]. apply digital_bit_roundtrip; [reflexivity | lia]. Defined.

(** ** Cell types *)

Definition is_num (c : cell) : bool := match c with CNum _ => true | _ => false end.

Definition is_bit (c : cell) : bool :=
  match c with CInt z => (z =? 0) || (z =? 1) | _ => false end.

(** The timestamp is an int exactly in the ns unit. *)
Definition ts_ok (time_unit : string) (c : cell) : bool :=
  match c with
  | CInt _ => String.eqb time_unit "ns"
  | CNum _ => negb (String.eqb time_unit "ns")
  | CStr _ => false
  end.

(** A data row: a timestamp, [n_an] floats, [n_dig] bits. *)
Definition row_typed (time_unit : string) (n_an n_dig : nat) (r : row) : Prop :=
  exists t an dg, r = t :: an ++ dg /\ ts_ok time_unit t = true /\
    length an = n_an /\ Forall (fun c => is_num c = true) an /\
    length dg = n_dig /\ Forall (fun c => is_bit c = true) dg.

Lemma timestamp_ok tu k ns : ts_ok tu (timestamp tu k ns) = true.
Proof.
  unfold timestamp.
  destruct (String.eqb tu "s") eqn:E1; [apply String.eqb_eq in E1; by subst|].
  destruct (String.eqb tu "ms") eqn:E2; [apply String.eqb_eq in E2; by subst|].
  destruct (String.eqb tu "us") eqn:E3; [apply String.eqb_eq in E3; by subst|].
  destruct (String.eqb tu "ns") eqn:E4; simpl; by rewrite E4.
Qed.

Lemma land_1_is_bit y : is_bit (CInt (Z.land y 1)) = true.
Proof.
  replace (Z.land y 1) with (Z.land y (Z.ones 1)) by reflexivity. rewrite Z.land_ones by lia.
  change (2 ^ 1) with 2. pose proof (Z.mod_pos_bound y 2 ltac:(lia)) as H.
  destruct (Z.eq_dec (y mod 2) 0) as [->|H0]; [reflexivity|].
  replace (y mod 2) with 1 by lia. reflexivity.
Qed.

Lemma digital_bit_is_bit d0 d1 dch : is_bit (digital_bit d0 d1 dch) = true.
Proof. unfold digital_bit. case_decide; apply land_1_is_bit. Qed.

Lemma analog_cells_typed a drv chs idx an :
  analog_cells a drv chs idx = Normal an ->
  Forall (fun c => is_num c = true) an /\
  length an = length (List.filter (fun chb => gmap_get_false (channels a) chb.1) chs).
Proof.
  revert an; induction chs as [|[ch id] chs IH]; intros an H; simpl in *.
  - injection H as <-. split; [constructor | reflexivity].
  - destruct (gmap_get_false (channels a) ch); [|by apply IH].
    destruct (buf_read a id idx) as [adc|]; [|discriminate]. simpl in H.
    destruct (adc_to_mv_single adc (ps_20V drv) (maxADC a)) as [mv|]; [|discriminate]. simpl in H.
    destruct (analog_cells a drv chs idx) as [rest|] eqn:E; [|discriminate]. simpl in H.
    injection H as <-. destruct (IH rest eq_refl) as [Hf Hl].
    split; [constructor; [reflexivity | exact Hf] | simpl; by rewrite Hl].
Qed.

Lemma analog_channels_enabled channels :
  length (List.filter (fun chb => gmap_get_false channels chb.1) analog_channels) = n_enabled channels.
Proof.
  unfold n_enabled, analog_channels. simpl. rewrite !filter_cons, filter_nil.
  destruct (gmap_get_false channels "A"), (gmap_get_false channels "B"),
    (gmap_get_false channels "C"), (gmap_get_false channels "D"); reflexivity.
Qed.

(** C9: Cell types.  Every row streaming_callback builds for a sample is a
    timestamp (an int in the ns unit, a float in every other unit), one
    float per enabled analog channel and one 0/1 int per digital channel,
    whatever the buffers hold. *)
Theorem build_row_typed a drv k idx r :
  build_row a drv k idx = Normal r ->
  row_typed (time_unit a) (n_enabled (channels a)) (length (digital_channels a)) r.
Proof.
  unfold build_row. intros H.
  destruct (analog_cells a drv analog_channels idx) as [an|] eqn:Ea; [|discriminate]. simpl in H.
  destruct (digital_cells a idx) as [dg|] eqn:Ed; [|discriminate]. simpl in H. injection H as <-.
  destruct (analog_cells_typed a drv analog_channels idx an Ea) as [Hnum Hlen].
  exists (timestamp (time_unit a) k (sampleIntervalNs a)), an, dg.
  split; [reflexivity|]. split; [apply timestamp_ok|].
  split; [rewrite Hlen; apply analog_channels_enabled|]. split; [exact Hnum|].
  unfold digital_cells in Ed. case_bool_decide.
  - destruct (buf_read a BufDig0 idx) as [d0|]; [|discriminate].
    destruct (buf_read a BufDig1 idx) as [d1|]; [|discriminate]. simpl in Ed. injection Ed as <-.
    rewrite length_map. split; [reflexivity|].
    apply Forall_forall. intros c (dch & -> & _)%list_elem_of_fmap. apply digital_bit_is_bit.
  - injection Ed as <-. split; [|constructor].
    destruct (digital_channels a); [reflexivity | congruence].
Qed.

Lemma build_row_typed_witness :
  exists r, build_row scn_acq ps3000a_driver 1 1 = Normal r /\
            row_typed (time_unit scn_acq) (n_enabled (channels scn_acq))
                      (length (digital_channels scn_acq)) r.
Proof.
  eexists. split; [vm_compute; reflexivity|].
  apply (build_row_typed scn_acq ps3000a_driver 1 1). vm_compute. reflexivity.
Defined.

(** ** Order of the rows *)

(** The file has its header, then one row per counted sample, stamped
    with the sample numbers 0 .. nextSample - 1 in that order. *)
Definition order_inv (a : DataAcquisition) : Prop :=
  exists f hdr data, csvfile a = Some f /\ csv_rows f = hdr :: data /\
    map head data = map (fun k => Some (timestamp (time_unit a) k (sampleIntervalNs a)))
                        (py_range (nextSample a)).

Lemma deliver_order size drv w b :
  stream_inv size drv (w_acq w) /\ order_inv (w_acq w) -> batch_ok size b ->
  fst (deliver b w) = Normal tt /\
  (stream_inv size drv (w_acq (snd (deliver b w))) /\ order_inv (w_acq (snd (deliver b w)))).
Proof.
  intros [Hinv (f & hdr & data & Hf & Hrows & Hts)] Hok.
  destruct (deliver_inv size drv w b Hinv Hok) as [Hn Hinv']. split; [exact Hn|]. split; [exact Hinv'|].
  destruct Hinv as (Hready & Hbuf & (f0 & Hf0 & Hopen) & Hnext).
  rewrite Hf in Hf0. injection Hf0 as <-.
  rewrite (deliver_run size (w_acq w) drv w f b) by done. simpl.
  match goal with |- context [acq_after_callback ?a ?f' ?n ?s] =>
    destruct (acq_after_callback_fields a f' n s) as (_ & _ & _ & _ & _ & _ & _ & E8 & E9 & _);
    destruct (acq_after_callback_settings a f' n s) as (T1 & _ & _ & T4)
  end.
  eexists _, hdr, _. split; [exact E8|]. split; [rewrite csv_fold_rows, Hrows; reflexivity|].
  rewrite E9, T1, T4. simpl. destruct Hok as (_ & Hn0 & _).
  rewrite map_app, Hts, py_range_add, map_app by lia.
  apply (f_equal (app _)). rewrite !map_map. apply map_ext. reflexivity.
Qed.

(** Order of the rows.  Through any number of iterations of the
    streaming loop, the rows after the header are stamped with the
    sample numbers 0, 1, ..., nextSample - 1 (times the interval, in the
    session's unit), in that order: rows are appended in strictly
    increasing sample order, none is missing and none repeated. *)
Theorem stream_loop_ordered size drv d fuel w :
  device_ok size d -> stream_inv size drv (w_acq w) -> order_inv (w_acq w) ->
  order_inv (w_acq (snd (stream_loop d fuel w))).
Proof.
  intros Hdev Hinv Ho.
  apply (stream_loop_keeps (batch_ok size) d
           (fun w => stream_inv size drv (w_acq w) /\ order_inv (w_acq w))
           Hdev (fun b w' Hb Hw' => deliver_order size drv w' b Hw' Hb)
           (fun w1 w2 E _ _ H => eq_ind_r (fun a => _ a /\ _ a) H E) (fun w1 Hw1 => Hw1) fuel w
           (conj Hinv Ho)).
Qed.

Lemma stream_loop_ordered_witness :
  device_ok 3 scn_device /\ stream_inv 3 ps3000a_driver (w_acq scn_world) /\
  order_inv (w_acq scn_world) /\
  order_inv (w_acq (snd (stream_loop scn_device 5 scn_world))).
Proof.
  assert (Ho : order_inv (w_acq scn_world)).
  { exists scn_file, (make_header "ms" scn_channels []), []. split; [reflexivity|]. split; reflexivity. }
  split; [exact scn_device_ok|]. split; [exact scn_inv|]. split; [exact Ho|].
  exact (stream_loop_ordered 3 ps3000a_driver scn_device 5 scn_world scn_device_ok scn_inv Ho).
Defined.
