(* ===== verification/Session.v ===== *)
(** * The acquisition session (start_recording, stop_recording, the threads)

    [open_unit] is the psOpenUnit call of start_recording with its
    power-source recovery; [start_recording] the method, whose streaming
    loop is given fuel; [stop_recording] the method; [module_start_recording]
    the module function with its defaults (10000-sample buffers,
    999999999 buffers) and its RuntimeError when no driver is set;
    [acquisition_thread_run] the run() of gui.AcquisitionThread (the
    thread the window starts): [thread_setup] connects
    first_sample_recorded and applies the range names, then it starts
    recording.

    The two threads of the program (the Qt window and the acquisition
    thread) share the singleton.  [sys_step] interleaves one iteration of
    the streaming loop with the window's stop_recording at any point; the
    theorems about it are proved by induction on the steps. *)

From stdpp Require Import base list gmap strings.
From Stdlib Require Import ZArith QArith Lia.
From S2P Require Import Prelude Driver Calibration Sink AcqState RangeConfig Streaming.

Open Scope Z_scope.
Open Scope py_scope.

(** PICO_POWER_SUPPLY_NOT_CONNECTED and PICO_POWER_SUPPLY_UNDERVOLTAGE *)
Definition power_statuses : list Z := [286; 282].

(** psOpenUnit and its except branch. *)
Definition open_unit (d : Device) : PyM World unit :=
  st <- dev d OpenUnit ;;
  if decide (st = PICO_OK) then py_ret tt
  else if decide (st ∈ power_statuses) then
    st2 <- dev d (ChangePowerSource st) ;;
    assert_pico_ok st2
  else py_raise (PicoSDKError st).

(** PS3000ADriver.open_unit(chandle) and PS4000ADriver.open_unit(chandle):
    one ps3000aOpenUnit / ps4000aOpenUnit call whose status is returned
    unchecked.  Nothing calls these methods: start_recording calls
    psOpenUnit directly and checks its status ([open_unit]). *)
Definition ps3000a_open_unit (d : Device) : PyM World Z := dev d OpenUnit.

Definition ps4000a_open_unit (d : Device) : PyM World Z := dev d OpenUnit.

(** self._has_digital_channels() when self.driver may be None (hasattr on
    None is False). *)
Definition has_digital (drv : option Driver) : bool :=
  match drv with Some d => _has_digital_channels d | None => false end.

(** The digital channels start_recording keeps: the request if it is not
    empty and the driver has digital ports, else none. *)
Definition kept_digital (drv : option Driver) (digital_channels : option (list Z)) : list Z :=
  let requested := default [] digital_channels in
  if bool_decide (requested <> []) && has_digital drv then requested else [].

(** The resets at the top of start_recording.  The attributes set to None
    there (bufferCompleteA..D, bufferDigital0/1) are not the buffers the
    callback reads (bufferAMax.., bufferDigitalMax0/1), which keep their
    previous value. *)
Definition start_resets (sizeOfOneBuffer numBuffersToCapture : Z) (a : DataAcquisition)
    : DataAcquisition :=
  set_wasCalledBack false (set_autoStopOuter false (set_nextSample 0
    (set_totalSamples (sizeOfOneBuffer * numBuffersToCapture) a))).

(** DataAcquisition.start_recording(sizeOfOneBuffer, numBuffersToCapture,
    filename, time_unit, sample_interval, channels, digital_channels),
    the loop of run_streaming given [fuel] iterations. *)
Definition start_recording (d : Device) (sizeOfOneBuffer numBuffersToCapture : Z)
    (time_unit : string) (sample_interval : Q) (channels : gmap string bool)
    (digital_channels : option (list Z)) (fuel : nat) : PyM World unit :=
  acq_modify (set_is_recording true) ;;
  acq_modify (fun a => set_channels channels (set_sample_interval sample_interval
                         (set_time_unit time_unit a))) ;;
  a <- acq_get ;;
  acq_modify (set_digital_channels (kept_digital (driver a) digital_channels)) ;;
  acq_modify (start_resets sizeOfOneBuffer numBuffersToCapture) ;;
  a <- acq_get ;;
  acq_modify (set_csvfile (Some csv_open)) ;;
  acq_modify (set_csvwriter true) ;;
  csv_write_row (make_header time_unit channels (AcqState.digital_channels a)) ;;
  open_unit d ;;
  setup_channels d ;;
  setup_buffers d sizeOfOneBuffer ;;
  st <- dev d MaximumValue ;;
  acq_modify (set_maxADC (dev_maxADC d)) ;;
  assert_pico_ok st ;;
  run_streaming d sizeOfOneBuffer fuel.

(** The finally block of stop_recording: the file is closed and the
    object drops it (csvfile and csvwriter become None). *)
Definition stop_finally : PyM World unit :=
  acq_modify (set_is_recording false) ;;
  a <- acq_get ;;
  match csvfile a with
  | Some f => acq_modify (fun a => set_csvwriter false (set_csvfile None a))
  | None => py_ret tt
  end.

(** DataAcquisition.stop_recording() *)
Definition stop_recording (d : Device) : PyM World unit :=
  a <- acq_get ;;
  if negb (is_recording a) then py_ret tt
  else py_finally
         (py_try (st <- dev d Stop ;; assert_pico_ok st ;;
                  st2 <- dev d CloseUnit ;; assert_pico_ok st2)
                 (fun _ => py_ret tt))
         stop_finally.

(** The module function start_recording(time_unit, sample_interval,
    channels, filename, digital_channels). *)
Definition module_start_recording (d : Device) (time_unit : string) (sample_interval : Q)
    (channels : gmap string bool) (digital_channels : option (list Z)) (fuel : nat)
    : PyM World unit :=
  a <- acq_get ;;
  match driver a with
  | None => py_raise (RuntimeError "Scope driver not set. Please select a scope at startup.")
  | Some _ => start_recording d 10000 999999999 time_unit sample_interval channels
                              digital_channels fuel
  end.

(** The first part of gui.AcquisitionThread.run, before its
    countdown_update signal: connect first_sample_recorded to the
    thread's signal and apply the range names of the window (one per
    channel, with its offset). *)
Definition thread_setup (voltage_rails : list (string * string)) (voltage_offsets : gmap string Q)
    : PyM World unit :=
  py_modify (fun w => {| w_acq := w_acq w; w_trace := w_trace w; w_fsr_connected := true;
                         w_emits := w_emits w; w_polls := w_polls w |}) ;;
  py_for voltage_rails (fun chn =>
    set_voltage_range chn.1 (RStr chn.2) (default 0%Q (voltage_offsets !! chn.1))).

(** gui.AcquisitionThread.run: the set-up, then start recording (the
    countdown_update emitted in between reaches only the window). *)
Definition acquisition_thread_run (d : Device) (time_unit : string) (sample_interval : Q)
    (channels : gmap string bool) (digital_channels : option (list Z))
    (voltage_rails : list (string * string)) (voltage_offsets : gmap string Q) (fuel : nat)
    : PyM World unit :=
  thread_setup voltage_rails voltage_offsets ;;
  module_start_recording d time_unit sample_interval channels digital_channels fuel.

(** ** The two threads *)

(** One iteration of the while loop of run_streaming. *)
Definition loop_iteration (d : Device) : PyM World unit :=
  acq_modify (set_wasCalledBack false) ;; poll_once d.

(** Where the acquisition thread is: in the while loop, or past it. *)
Inductive thread_pc := Looping | Finished.

(** A step of the system: the acquisition thread runs one iteration or
    leaves the loop, or the window thread runs stop_recording. *)
Inductive sys_step (d : Device) : thread_pc * World -> thread_pc * World -> Prop :=
| step_iterate w :
    loop_continues (w_acq w) = true ->
    sys_step d (Looping, w) (Looping, snd (loop_iteration d w))
| step_exit w :
    loop_continues (w_acq w) = false ->
    sys_step d (Looping, w) (Finished, w)
| step_stop pc w :
    sys_step d (pc, w) (pc, snd (stop_recording d w)).

Inductive sys_star (d : Device) : thread_pc * World -> thread_pc * World -> Prop :=
| star_refl s : sys_star d s s
| star_step s1 s2 s3 : sys_step d s1 s2 -> sys_star d s2 s3 -> sys_star d s1 s3.

(** ** Theorems on stop_recording *)

(** C29: stop_recording when no recording is in progress returns normally
    and changes nothing: no vendor call, no field of the object. *)
Theorem stop_recording_idle d w :
  is_recording (w_acq w) = false -> stop_recording d w = (Normal tt, w).
Proof. intros H. unfold stop_recording, py_bind, acq_get. simpl. by rewrite H. Qed.

Lemma stop_recording_idle_witness :
  is_recording (w_acq (world_init (Some ps3000a_driver) true)) = false /\
  stop_recording silent_device (world_init (Some ps3000a_driver) true) =
    (Normal tt, world_init (Some ps3000a_driver) true).
Proof. split; [reflexivity | apply stop_recording_idle; reflexivity]. Defined.

(** The object after the finally block of stop_recording. *)
Definition acq_stopped (a : DataAcquisition) : DataAcquisition :=
  match csvfile a with
  | Some _ => set_csvwriter false (set_csvfile None (set_is_recording false a))
  | None => set_is_recording false a
  end.

(** C30: When psStop fails, stop_recording swallows the error, never calls
    psCloseUnit (the device stays open), and still clears is_recording
    and drops the CSV file. *)
Theorem stop_recording_stop_fails d w :
  is_recording (w_acq w) = true -> dev_status d Stop <> PICO_OK ->
  stop_recording d w =
  (Normal tt, set_acq (acq_stopped (w_acq w))
                {| w_acq := w_acq w; w_trace := w_trace w ++ [(Stop, dev_status d Stop)];
                   w_fsr_connected := w_fsr_connected w; w_emits := w_emits w;
                   w_polls := w_polls w |}).
Proof.
  intros Hrec Hst. unfold stop_recording, py_bind, acq_get. simpl. rewrite Hrec. simpl.
  unfold py_finally, py_try, py_bind, dev, assert_pico_ok. simpl.
  destruct (Z.eq_dec (dev_status d Stop) PICO_OK) as [|_]; [contradiction|]. simpl.
  unfold stop_finally, py_bind, acq_modify, py_modify, acq_get, acq_stopped. simpl.
  destruct (csvfile (w_acq w)); reflexivity.
Qed.

Definition failing_stop_device : Device :=
  mkDevice (fun c => match c with Stop => 3 | _ => 0 end) 32768 (fun _ => []).

Lemma stop_recording_stop_fails_witness :
  is_recording (set_is_recording true scn_acq) = true /\ dev_status failing_stop_device Stop <> PICO_OK /\
  stop_recording failing_stop_device (set_acq (set_is_recording true scn_acq) scn_world) =
  (Normal tt, set_acq (acq_stopped (set_is_recording true scn_acq))
     {| w_acq := set_is_recording true scn_acq;
        w_trace := w_trace scn_world ++ [(Stop, dev_status failing_stop_device Stop)];
        w_fsr_connected := w_fsr_connected scn_world; w_emits := w_emits scn_world;
        w_polls := w_polls scn_world |}).
Proof.
  split; [reflexivity|]. split; [discriminate|].
  apply (stop_recording_stop_fails failing_stop_device (set_acq (set_is_recording true scn_acq) scn_world));
    [reflexivity | discriminate].
Defined.

(** ** The loop and stop_recording, interleaved *)

Lemma stop_recording_frame d w :
  loop_continues (w_acq (snd (stop_recording d w))) = loop_continues (w_acq w) /\
  w_polls (snd (stop_recording d w)) = w_polls w.
Proof.
  unfold stop_recording, py_bind, acq_get. simpl. destruct (is_recording (w_acq w)); [|done].
  simpl. unfold py_finally, py_try, py_bind, dev, assert_pico_ok. simpl.
  unfold stop_finally, py_bind, acq_modify, py_modify, acq_get. simpl.
  destruct (Z.eq_dec (dev_status d Stop) PICO_OK); simpl;
  [destruct (Z.eq_dec (dev_status d CloseUnit) PICO_OK); simpl|];
  destruct (csvfile (w_acq w)); done.
Qed.

Lemma loop_iteration_silent d w :
  dev_batches d (w_polls w) = [] ->
  loop_continues (w_acq (snd (loop_iteration d w))) = loop_continues (w_acq w) /\
  w_polls (snd (loop_iteration d w)) = S (w_polls w).
Proof.
  intros H. unfold loop_iteration, py_bind, acq_modify, py_modify. simpl.
  rewrite poll_once_empty by exact H. done.
Qed.

(** C22: Once the device delivers nothing more (it has been stopped and
    closed by stop_recording), the acquisition thread never leaves its
    while loop, however its iterations interleave with further
    stop_recording calls of the window: stop_recording does not touch
    the loop condition, and the thread keeps polling a closed device. *)
Theorem after_stop_never_finishes d s s' :
  sys_star d s s' ->
  (forall k, (w_polls (snd s) <= k)%nat -> dev_batches d k = []) ->
  fst s = Looping -> loop_continues (w_acq (snd s)) = true ->
  fst s' = Looping /\ loop_continues (w_acq (snd s')) = true.
Proof.
  induction 1 as [s|s1 s2 s3 Hstep Hstar IH]; intros Hsilent Hpc Hc; [done|].
  inversion Hstep as [w Hw|w Hw|pc w]; subst; simpl in *.
  - destruct (loop_iteration_silent d w (Hsilent _ (le_n _))) as [E1 E2].
    apply IH; simpl; [intros k Hk; apply Hsilent; lia | done | by rewrite E1].
  - congruence.
  - destruct (stop_recording_frame d w) as [E1 E2].
    apply IH; simpl; [intros k Hk; apply Hsilent; lia | done | by rewrite E1].
Qed.

Lemma after_stop_never_finishes_witness :
  let s0 := (Looping, set_acq (set_is_recording true scn_acq) scn_world) in
  let s1 := (Looping, snd (stop_recording silent_device (snd s0))) in
  let s2 := (Looping, snd (loop_iteration silent_device (snd s1))) in
  sys_star silent_device s0 s2 /\ fst s2 = Looping /\ loop_continues (w_acq (snd s2)) = true.
Proof.
  intros s0 s1 s2.
  assert (Hstar : sys_star silent_device s0 s2).
  { apply (star_step _ s0 s1 s2); [apply step_stop|].
    apply (star_step _ s1 s2 s2); [apply step_iterate; reflexivity | apply star_refl]. }
  split; [exact Hstar|].
  apply (after_stop_never_finishes silent_device s0 s2 Hstar); [intros k _; reflexivity | reflexivity | reflexivity].
Defined.

(** ** Theorems on start_recording *)

(** C31: When psOpenUnit fails with a status that is not a power-source
    condition, start_recording raises that status, after having set
    is_recording and opened the CSV file with its header: nothing is
    unwound, the file stays open and a later stop_recording will call
    psStop and psCloseUnit on a unit that was never opened. *)
Theorem start_recording_open_fails d size nb tu si ch dig fuel w :
  dev_status d OpenUnit <> PICO_OK -> (dev_status d OpenUnit ∉ power_statuses) ->
  fst (start_recording d size nb tu si ch dig fuel w) = Exc (PicoSDKError (dev_status d OpenUnit)) /\
  is_recording (w_acq (snd (start_recording d size nb tu si ch dig fuel w))) = true /\
  csvfile (w_acq (snd (start_recording d size nb tu si ch dig fuel w))) =
    Some (csv_writerow (make_header tu ch (kept_digital (driver (w_acq w)) dig)) csv_open).
Proof.
  intros Hok Hpow.
  unfold start_recording, py_bind, acq_modify, py_modify, acq_get. simpl.
  unfold csv_write_row, py_bind, acq_get, acq_modify, py_modify. simpl.
  unfold open_unit, py_bind, dev. simpl.
  destruct (decide (dev_status d OpenUnit = PICO_OK)); [contradiction|].
  destruct (decide (dev_status d OpenUnit ∈ power_statuses)); [contradiction|].
  simpl. done.
Qed.

Lemma power_status_not_ok st : st ∈ power_statuses -> st <> PICO_OK.
Proof.
  unfold power_statuses. intros H ->.
  repeat (apply elem_of_cons in H as [H|H]; [discriminate|]). by apply not_elem_of_nil in H.
Qed.

(** C32: When psOpenUnit reports a power-supply status (286 or 282) and the
    following psChangePowerSource fails, start_recording raises that
    second status; the last two vendor calls are the open and the power
    change, and the session is left marked as recording with its file
    open. *)
Theorem start_recording_power_change_fails d size nb tu si ch dig fuel w :
  dev_status d OpenUnit ∈ power_statuses ->
  dev_status d (ChangePowerSource (dev_status d OpenUnit)) <> PICO_OK ->
  fst (start_recording d size nb tu si ch dig fuel w) =
    Exc (PicoSDKError (dev_status d (ChangePowerSource (dev_status d OpenUnit)))) /\
  w_trace (snd (start_recording d size nb tu si ch dig fuel w)) =
    w_trace w ++ [(OpenUnit, dev_status d OpenUnit);
                  (ChangePowerSource (dev_status d OpenUnit),
                   dev_status d (ChangePowerSource (dev_status d OpenUnit)))] /\
  is_recording (w_acq (snd (start_recording d size nb tu si ch dig fuel w))) = true.
Proof.
  intros Hpow Hchg.
  assert (Hok : dev_status d OpenUnit <> PICO_OK) by (apply power_status_not_ok, Hpow).
  unfold start_recording, py_bind, acq_modify, py_modify, acq_get. simpl.
  unfold csv_write_row, py_bind, acq_get, acq_modify, py_modify. simpl.
  unfold open_unit, py_bind, dev, assert_pico_ok. simpl.
  destruct (decide (dev_status d OpenUnit = PICO_OK)); [contradiction|].
  destruct (decide (dev_status d OpenUnit ∈ power_statuses)); [|contradiction].
  simpl. destruct (Z.eq_dec _ PICO_OK); [contradiction|]. simpl.
  by rewrite <- app_assoc.
Qed.

Definition brownout_device : Device :=
  mkDevice (fun c => match c with OpenUnit => 286 | ChangePowerSource _ => 3 | _ => 0 end)
           32768 (fun _ => []).

Lemma start_recording_power_change_fails_witness :
  dev_status brownout_device OpenUnit ∈ power_statuses /\
  dev_status brownout_device (ChangePowerSource (dev_status brownout_device OpenUnit)) <> PICO_OK /\
  fst (start_recording brownout_device 10000 999999999 "ms" (1#4) scn_channels None 1
         (world_init (Some ps3000a_driver) true)) = Exc (PicoSDKError 3).
Proof.
  split; [apply (bool_decide_unpack _); reflexivity|]. split; [discriminate|].
  exact (proj1 (start_recording_power_change_fails brownout_device 10000 999999999 "ms" (1#4)
                  scn_channels None 1 (world_init (Some ps3000a_driver) true)
                  ltac:(apply (bool_decide_unpack _); reflexivity) ltac:(discriminate))).
Defined.

Definition unplugged_device : Device :=
  mkDevice (fun c => match c with OpenUnit => 3 | _ => 0 end) 32768 (fun _ => []).

Lemma start_recording_open_fails_witness :
  dev_status unplugged_device OpenUnit <> PICO_OK /\ (dev_status unplugged_device OpenUnit ∉ power_statuses) /\
  (let w := world_init (Some ps3000a_driver) true in
  fst (start_recording unplugged_device 10000 999999999 "ms" (1#4) scn_channels None 1 w) =
    Exc (PicoSDKError (dev_status unplugged_device OpenUnit)) /\
  is_recording (w_acq (snd (start_recording unplugged_device 10000 999999999 "ms" (1#4) scn_channels None 1 w))) = true /\
  csvfile (w_acq (snd (start_recording unplugged_device 10000 999999999 "ms" (1#4) scn_channels None 1 w))) =
    Some (csv_writerow (make_header "ms" scn_channels (kept_digital (driver (w_acq w)) None)) csv_open)).
Proof.
  split; [discriminate|]. split; [apply (bool_decide_unpack _); reflexivity|].
  apply start_recording_open_fails; [discriminate | apply (bool_decide_unpack _); reflexivity].
Defined.

(** ** The session end to end *)

(** The window's request of the scenario: channel A only on its 20 V
    range, 0.25 ms, no digital channel. *)
Definition scn_rails : list (string * string) :=
  [("A", "PS3000A_20V"); ("B", "PS3000A_5V"); ("C", "PS3000A_5V"); ("D", "PS3000A_5V")].

Definition scn_session : outcome unit * World :=
  acquisition_thread_run scn_device "ms" (1#4) scn_channels None scn_rails ∅ 1
                         (world_init (Some ps3000a_driver) false).



(** C35: Digital capture never happens: neither driver wrapper defines the
    ps_DIGITAL_PORT0 / ps_DIGITAL_PORT1 attributes, so whatever digital
    lines the window requests (it offers D0..D15 for the 3000 series),
    start_recording keeps none of them. *)
Theorem digital_capture_never_kept (pico_voltage_range : list (string * Z)) req :
  kept_digital (Some ps3000a_driver) req = [] /\
  kept_digital (Some (ps4000a_driver pico_voltage_range)) req = [].
Proof.
  unfold kept_digital, has_digital, _has_digital_channels. simpl.
  rewrite !andb_false_r. done.
Qed.

(** ** The calls of a successful start *)

#[local] Arguments setup_channels : simpl never.
#[local] Arguments setup_buffers : simpl never.
#[local] Arguments stream_loop : simpl never.

(** The buffer registrations setup_buffers makes for the channel
    selection [ch]. *)
Definition buffer_calls (drv : Driver) (size : Z) (ch : gmap string bool) : list (dev_call * Z) :=
  flat_map (fun chb => if gmap_get_false ch chb.1
                       then [(SetDataBuffers (pico_channel drv chb.2) size 0 (ratio_mode_none drv), PICO_OK)]
                       else []) analog_channels.


