(* ===== verification/Gui.v ===== *)
(** * The window (src/gui.py, MainWindow)

    What the window hands to the engine, and what it displays.
    [range_names] is the list of range names MainWindow.__init__ puts in
    every voltage-range box (the PS3000A enumeration without its MAX
    entry, or the PS4000A probe ranges filtered by name), [default_range]
    the choice of the initial entry (a 5 V range, else a 20 V range), and
    [rail_text] the box's current text after that choice.  [Window] is the
    state of the widgets the start button reads; [window_start] is the
    start_recording slot (the float() of the interval, the filename or the
    save dialog, the channel and digital-line selection) returning either
    the warning it shows or the arguments of gui.AcquisitionThread, and
    [launch] runs that thread ([Session.acquisition_thread_run]).
    [WinState] holds the buttons, the timer and the first-sample time;
    [on_start], [on_first_sample], [on_stop] are the slots that change it,
    and [timer_text] is the label update_timer writes.  [name_voltage] is
    the voltage a range name spells; [window_title] and [window_layout]
    are the title and the rows the window shows.  The Qt widgets
    themselves are not modelled: a box's current text, a check box's
    state and the dialog's answer are fields of [Window].  The window
    together with its threads is in [GuiSystem.v]. *)

From stdpp Require Import base list gmap strings pretty.
From Stdlib Require Import ZArith QArith Lia.
From S2P Require Import Prelude Driver Calibration Sink AcqState Regex RangeConfig Streaming Session.

Open Scope Z_scope.

(** ** The range names of the voltage-range boxes *)

(** PS3000A branch: the first key containing "MAX" is removed. *)
Definition range_names_3000a (keys : list string) : list string :=
  match List.find (fun k => str_contains "MAX" k) keys with
  | Some m => List.filter (fun k => negb (String.eqb k m)) keys
  | None => keys
  end.

Definition probe_markers : list string := ["X1_PROBE"; "D9_BNC"; "DIFFERENTIAL"; "1KV"].

(** PS4000A branch: the four tests of the loop over
    PICO_CONNECT_PROBE_RANGE, in the order of the source. *)
Definition keep_4000a (k : string) : bool :=
  let u := str_upper k in
  if str_contains "MAX" u then false
  else if negb (existsb (fun unit => str_contains unit u) ["MV"; "V"]) then false
  else if str_contains "CURRENT_CLAMP" u then false
  else existsb (fun probe => str_contains probe u) probe_markers.

Definition range_names_4000a (keys : list string) : list string :=
  List.filter keep_4000a keys.

(** model_index 0 is the 3000 series; [keys] are the keys of the
    enumeration the window reads (PS3000A_RANGE, or
    PICO_CONNECT_PROBE_RANGE for the 4000 series). *)
Definition range_names (model_index : nat) (keys : list string) : list string :=
  if Nat.eqb model_index 0 then range_names_3000a keys else range_names_4000a keys.

(** The default of each range box: the first name with "5V" but neither
    "50V" nor "500MV", else the first with "20V" but not "200V". *)
Definition default_range (names : list string) : option string :=
  match List.find (fun n => str_contains "5V" n && negb (str_contains "50V" n)
                              && negb (str_contains "500MV" n)) names with
  | Some n => Some n
  | None => List.find (fun n => str_contains "20V" n && negb (str_contains "200V" n)) names
  end.

(** rail_combo.currentText() after setCurrentText(default_range), or
    setCurrentIndex(0) (the empty text of an empty box). *)
Definition rail_text (names : list string) : string :=
  match default_range names with
  | Some n => n
  | None => default EmptyString (head names)
  end.

(** ** The widgets the start button reads *)

Record Window := mkWindow {
  model_index : nat;
  time_unit_text : string;              (* time_unit_combo.currentText() *)
  interval_value : option Q;            (* float(interval_input.text()); None: ValueError *)
  filename_text : string;               (* filename_input.text() *)
  dialog_answer : string;               (* getSaveFileName(...)[0]; "" when cancelled *)
  channel_checks : list (string * bool);(* channel_a_checkbox .. channel_d_checkbox *)
  rail_texts : list (string * string);  (* rail_inputs[ch].currentText() *)
  offset_values : list (string * Q);    (* offset_inputs[ch].value() *)
  digital_checks : list bool            (* digital_checkboxes, D0 .. D15 *)
}.

(** str.strip() *)
Definition str_lstrip (s : string) : string := (span is_space s).2.

Fixpoint str_rstrip (s : string) : string :=
  match s with
  | EmptyString => EmptyString
  | String c s' =>
      let r := str_rstrip s' in
      if String.eqb r "" && is_space c then EmptyString else String c r
  end.

Definition str_strip (s : string) : string := str_rstrip (str_lstrip s).

(** [i for i, cb in enumerate(self.digital_checkboxes) if cb.isChecked()] *)
Fixpoint checked_indices (from : Z) (cbs : list bool) : list Z :=
  match cbs with
  | [] => []
  | c :: cbs' => if c then from :: checked_indices (from + 1) cbs' else checked_indices (from + 1) cbs'
  end.

(** What the start_recording slot does: a warning box, or a thread. *)
Inductive start_result :=
| Warning (title : string)
| Launch (time_unit : string) (sample_interval : Q) (channels : gmap string bool)
         (filename : string) (digital_channels : option (list Z))
         (voltage_rails : list (string * string)) (voltage_offsets : gmap string Q).

(** MainWindow.start_recording, up to self.acq_thread.start(). *)
Definition window_start (w : Window) : start_result :=
  match interval_value w with
  | None => Warning "Invalid Input"
  | Some sample_interval =>
      let fn := str_strip (filename_text w) in
      let filename := if String.eqb fn "" then dialog_answer w else fn in
      if String.eqb filename "" then Warning "No filename"
      else Launch (time_unit_text w) sample_interval (list_to_map (channel_checks w)) filename
             (if Nat.eqb (model_index w) 0 then Some (checked_indices 0 (digital_checks w)) else None)
             (rail_texts w) (list_to_map (offset_values w))
  end.

(** The widgets as MainWindow.__init__ leaves them: channel A checked,
    every range box on [rail_text], offsets 0, sixteen unchecked digital
    boxes on the 3000 series; the unit box on its first item "s". *)
Definition window_init (mi : nat) (keys : list string) (interval : option Q)
    (filename : string) : Window :=
  let r := rail_text (range_names mi keys) in
  {| model_index := mi; time_unit_text := "s"; interval_value := interval;
     filename_text := filename; dialog_answer := "";
     channel_checks := [("A", true); ("B", false); ("C", false); ("D", false)];
     rail_texts := [("A", r); ("B", r); ("C", r); ("D", r)];
     offset_values := [("A", 0%Q); ("B", 0%Q); ("C", 0%Q); ("D", 0%Q)];
     digital_checks := if Nat.eqb mi 0 then replicate 16 false else [] |}.

(** The thread the slot starts, run to the end of start_recording. *)
Definition launch (d : Device) (w : Window) (fuel : nat) : PyM World unit :=
  match window_start w with
  | Warning _ => py_ret tt
  | Launch tu si ch _ dig rails offs => acquisition_thread_run d tu si ch dig rails offs fuel
  end.

(** ** The window's own state: buttons, timer, first-sample time *)

Record WinState := mkWinState {
  start_enabled : bool;
  stop_enabled : bool;
  timer_running : bool;
  recording_start_time : option Z;   (* ms of the day, QTime.currentTime() *)
  status_text : string               (* initialization_label *)
}.

Definition winstate_init : WinState :=
  {| start_enabled := true; stop_enabled := false; timer_running := false;
     recording_start_time := None; status_text := "" |}.

(** The slot start_recording: on a warning nothing changes; otherwise the
    start time is cleared, the thread started and the buttons swapped. *)
Definition on_start (w : Window) (s : WinState) : WinState :=
  match window_start w with
  | Warning _ => s
  | Launch _ _ _ _ _ _ _ =>
      {| start_enabled := false; stop_enabled := true; timer_running := timer_running s;
         recording_start_time := None; status_text := status_text s |}
  end.

(** on_first_sample_recorded, at the time [now] (ms of the day). *)
Definition on_first_sample (now : Z) (s : WinState) : WinState :=
  {| start_enabled := start_enabled s; stop_enabled := stop_enabled s; timer_running := true;
     recording_start_time := Some now; status_text := "Recording in progress..." |}.

(** The slot stop_recording (after the module stop_recording). *)
Definition on_stop (s : WinState) : WinState :=
  {| start_enabled := true; stop_enabled := false; timer_running := false;
     recording_start_time := recording_start_time s; status_text := "" |}.

(** Python's f"{x:0w}" for a non-negative int: zero-padded to width w. *)
Definition zpad (width : nat) (x : Z) : string :=
  let s := pretty x in
  String.append (String.concat "" (replicate (width - String.length s) "0")) s.

(** The label of update_timer for [elapsed] ms (Python's // and % are
    floor division, as Z.div and Z.modulo). *)
Definition timer_text (elapsed : Z) : string :=
  let minutes := (elapsed / 60000) mod 60 in
  let seconds := (elapsed / 1000) mod 60 in
  let milliseconds := elapsed mod 1000 in
  "Elapsed Time: " +:+ zpad 2 minutes +:+ ":" +:+ zpad 2 seconds +:+ "." +:+ zpad 3 milliseconds.

(** QTime.msecsTo: the signed distance between two times of the day. *)
Definition msecs_to (t0 t1 : Z) : Z := t1 - t0.

(** update_timer at time [now]: the new label, if the first sample came. *)
Definition update_timer (now : Z) (s : WinState) : option string :=
  match recording_start_time s with
  | Some t0 => Some (timer_text (msecs_to t0 now))
  | None => None
  end.

(** The voltage a range name spells, as the engine's regular expression
    reads it. *)
Definition name_voltage (n : string) : option Q :=
  option_map (fun '(d1, frac, unit) => scaled_voltage d1 frac unit) (regex_search n).

(** C21: The three range tables agree on the 3000 series.  For every name
    the 3000-series range boxes offer, the engine resolves it through
    the driver's own PS3000A_RANGE entry, the voltage the name spells
    (read by the engine's regular expression) is the full scale the
    calibration table gives that code: the enumeration, the
    voltage-in-the-name and adc_to_mv_single's table are coherent, so a
    channel is converted correctly whenever its own range is used. *)
Theorem window_ranges_3000a_coherent :
  Forall (fun n => dict_get PS3000A_RANGE n = Some (convert_with_driver ps3000a_driver n) /\
                   exists v, name_voltage n = Some v /\
                             full_scale_volts (convert_with_driver ps3000a_driver n) == v)
         (range_names 0 (map fst PS3000A_RANGE)).
Proof.
  apply List.Forall_forall. intros n Hn. vm_compute in Hn.
  repeat destruct Hn as [<-|Hn]; try contradiction;
    (split; [reflexivity | eexists; split; [reflexivity | vm_compute; reflexivity]]).
Qed.

(** ** Lemmas *)

Lemma zpad_length_2 x : 0 <= x < 100 -> String.length (zpad 2 x) = 2%nat.
Proof.
  intros Hx. apply Nat.eqb_eq.
  exact (forallb_py_range (fun x => Nat.eqb (String.length (zpad 2 x)) 2) 100
           ltac:(vm_compute; reflexivity) x Hx).
Qed.

Lemma zpad_length_3 x : 0 <= x < 1000 -> String.length (zpad 3 x) = 3%nat.
Proof.
  intros Hx. apply Nat.eqb_eq.
  exact (forallb_py_range (fun x => Nat.eqb (String.length (zpad 3 x)) 3) 1000
           ltac:(vm_compute; reflexivity) x Hx).
Qed.

Lemma string_length_app s1 s2 :
  String.length (s1 +:+ s2) = (String.length s1 + String.length s2)%nat.
Proof. induction s1 as [|c s1 IH]; simpl; [done | by rewrite IH]. Qed.

Lemma mod_within a b c : 0 < b <= c -> 0 <= a mod b < c.
Proof. intros Hb. pose proof (Z.mod_pos_bound a b). lia. Qed.

(** The label only depends on the elapsed time modulo one hour. *)
Lemma timer_text_period e k : timer_text (e + k * 3600000) = timer_text e.
Proof.
  unfold timer_text.
  replace (e + k * 3600000) with (e + (k * 60) * 60000) by lia.
  rewrite Z.div_add, Z.mod_add by lia.
  replace (e + k * 60 * 60000) with (e + (k * 3600) * 1000) by lia.
  rewrite Z.div_add by lia.
  replace (e / 1000 + k * 3600) with (e / 1000 + (k * 60) * 60) by lia.
  rewrite !Z.mod_add by lia. reflexivity.
Qed.

(** ** Theorems on the elapsed-time label *)

(** The label update_timer writes always has the same width,
    "Elapsed Time: MM:SS.mmm" (23 characters), whatever the elapsed
    time, negative values included. *)
Theorem timer_text_length e : String.length (timer_text e) = 23%nat.
Proof.
  unfold timer_text. rewrite !string_length_app.
  rewrite zpad_length_2, zpad_length_2, zpad_length_3 by (apply mod_within; lia).
  reflexivity.
Qed.

(** C28: The elapsed-time display has no hour field: one hour after any
    elapsed time it shows the same label again (01:00:00.000 is shown as
    00:00.000), so it is not the monotonically increasing elapsed
    signal the window is meant to show. *)
Theorem timer_text_hour_wrap e : timer_text (e + 3600000) = timer_text e.
Proof. exact (timer_text_period e 1). Qed.

(** Across midnight the distance QTime.msecsTo returns is negative, yet
    the label shows the true elapsed time of day (modulo one hour): for
    every first-sample time t0 and current time t1 the label is the one
    of (t1 - t0) mod 24 h. *)
Theorem update_timer_midnight t0 t1 s :
  update_timer t1 (on_first_sample t0 s) = Some (timer_text ((t1 - t0) mod 86400000)).
Proof.
  unfold update_timer, on_first_sample, msecs_to. simpl. f_equal.
  rewrite (Z.div_mod (t1 - t0) 86400000) at 1 by lia.
  replace (86400000 * ((t1 - t0) / 86400000) + (t1 - t0) mod 86400000) with
    ((t1 - t0) mod 86400000 + ((t1 - t0) / 86400000 * 24) * 3600000) by lia.
  apply timer_text_period.
Qed.

(** ** Theorems on what the window configures *)

(** The range boxes of the 3000 series list the twelve PS3000A ranges
    without PS3000A_MAX_RANGES and start on PS3000A_5V, which the engine
    resolves to the 5 V code 8. *)
Example window_default_range_3000a :
  range_names 0 (map fst PS3000A_RANGE) =
    ["PS3000A_10MV"; "PS3000A_20MV"; "PS3000A_50MV"; "PS3000A_100MV"; "PS3000A_200MV";
     "PS3000A_500MV"; "PS3000A_1V"; "PS3000A_2V"; "PS3000A_5V"; "PS3000A_10V";
     "PS3000A_20V"; "PS3000A_50V"] /\
  rail_text (range_names 0 (map fst PS3000A_RANGE)) = "PS3000A_5V" /\
  _convert_range_string_to_constant (Some ps3000a_driver) "PS3000A_5V" = Normal 8.
Proof. vm_compute. repeat split. Qed.

(** Whatever range a channel is configured with, the callback converts
    its counts with the 20 V full scale of ps_20V: a value recorded for
    a count is 20 / (full scale of the configured range) times the value
    adc_to_mv_single gives at the configured range. *)
Theorem recorded_value_scale drv r c m q :
  ps_20V drv = 10 -> m <> 0 -> out_Qeq (adc_to_mv_single c r m) (Normal q) ->
  mv_value drv m c == (20 / full_scale_volts r) * q.
Proof.
  intros H20 Hm Hq. rewrite adc_to_mv_single_normal in Hq by exact Hm.
  simpl in Hq. rewrite <- Hq. unfold mv_value. rewrite H20. change (full_scale_volts 10) with 20%Q.
  field. auto with pico.
Qed.

Lemma recorded_value_scale_witness :
  ps_20V ps3000a_driver = 10 /\ 32768 <> 0 /\ out_Qeq (adc_to_mv_single 16384 8 32768) (Normal (2500 # 1)) /\
  mv_value ps3000a_driver 32768 16384 == (20 / full_scale_volts 8) * (2500 # 1).
Proof.
  split; [reflexivity|]. split; [lia|]. split; [vm_compute; reflexivity|].
  apply recorded_value_scale; [reflexivity | lia | vm_compute; reflexivity].
Defined.

(** The window as opened on the 3000 series, interval 0.25 typed in and
    " data.csv " as file name, started against the scenario device. *)
Definition default_window : Window :=
  window_init 0 (map fst PS3000A_RANGE) (Some (1#4)) " data.csv ".

Definition default_session : outcome unit * World :=
  launch scn_device default_window 1 (world_init (Some ps3000a_driver) false).


(** ** Theorems on the start and stop slots *)

(** C38: When the interval text is not a number, the start slot shows its
    warning and returns: no thread is started (nothing reaches the engine
    or the device) and the buttons do not change. *)
Theorem window_start_invalid_interval d w fuel st s :
  interval_value w = None ->
  window_start w = Warning "Invalid Input" /\ launch d w fuel st = (Normal tt, st) /\
  on_start w s = s.
Proof. intros H. unfold launch, on_start, window_start. by rewrite H. Qed.

Lemma window_start_invalid_interval_witness :
  interval_value (window_init 0 [] None "x.csv") = None /\
  window_start (window_init 0 [] None "x.csv") = Warning "Invalid Input" /\
  launch scn_device (window_init 0 [] None "x.csv") 1 scn_world = (Normal tt, scn_world) /\
  on_start (window_init 0 [] None "x.csv") winstate_init = winstate_init.
Proof. split; [reflexivity|]. apply window_start_invalid_interval. reflexivity. Defined.

(** ** The window's title and layout *)

(** setWindowTitle in MainWindow.__init__. *)
Definition window_title (model_index : nat) : string :=
  "PicoScope GUI Application - " +:+ (if Nat.eqb model_index 0 then "3000 Series" else "4000 Series").

(** What the window's vertical layout shows, top to bottom. *)
Inductive layout_item :=
| LLabel (text : string)
| LWidget (name : string)                 (* a widget attribute of the window *)
| LChannelRow                             (* the four channel check boxes *)
| LRailRow (ch : string) (text : string)  (* a row of the form layout *)
| LDigitalRow.                            (* digital_layout *)

(** The layout built at the end of MainWindow.__init__. *)
Definition window_layout (model_index : nat) : list layout_item :=
  [LLabel "Sample interval:"; LWidget "interval_input";
   LLabel "Time unit:"; LWidget "time_unit_combo";
   LLabel "CSV filename:"; LWidget "filename_input";
   LLabel "Select channels to record:"; LChannelRow] ++
  flat_map (fun ch => [LRailRow ch (ch +:+ " Voltage Range:"); LRailRow ch (ch +:+ " DC Offset:")])
           ["A"; "B"; "C"; "D"] ++
  (if Nat.eqb model_index 0 then [LLabel "Select digital channels to record:"] else []) ++
  [LDigitalRow; LWidget "initialization_label"; LWidget "timer_label";
   LWidget "start_button"; LWidget "stop_button"].

(** The form has a range row and an offset row per channel, in the order
    A, B, C, D, and only the 3000-series window has the digital heading. *)
Lemma window_layout_rows mi :
  List.filter (fun it => match it with LRailRow _ _ => true | _ => false end) (window_layout mi) =
    [LRailRow "A" "A Voltage Range:"; LRailRow "A" "A DC Offset:";
     LRailRow "B" "B Voltage Range:"; LRailRow "B" "B DC Offset:";
     LRailRow "C" "C Voltage Range:"; LRailRow "C" "C DC Offset:";
     LRailRow "D" "D Voltage Range:"; LRailRow "D" "D DC Offset:"] /\
  (In (LLabel "Select digital channels to record:") (window_layout mi) <-> mi = 0%nat).
Proof.
  split; [unfold window_layout; destruct (Nat.eqb mi 0); reflexivity|].
  unfold window_layout. destruct (Nat.eqb mi 0) eqn:E; cbn.
  - apply Nat.eqb_eq in E. split; [done|]. intros _. tauto.
  - apply Nat.eqb_neq in E. split; [|done]. intros H. repeat destruct H as [H|H]; try discriminate; contradiction.
Qed.
