(* ===== verification/GuiSystem.v ===== *)
(** * The window and its acquisition threads under Qt's event loop

    The system the operator drives (src/gui.py): the window's thread runs
    the slots of the buttons and of the signals the acquisition threads
    emit; each thread created by the start slot runs gui.AcquisitionThread.run
    on its own.  A configuration [sys] holds the threads the window has
    started ([qthread]: created, past its set-up, in the streaming loop,
    or finished), the shared engine state, the window's state, and the
    queue of signals posted to the window's thread ([ui_event]: Qt
    delivers a signal emitted by another thread as an event, in order).

    [gui_step] is one step of any of them: the start slot creates a
    thread; a created thread runs [Session.thread_setup] and emits
    countdown_update; a set-up thread runs the module start_recording (up
    to the streaming loop); the stop slot runs stop_recording on the
    window's thread; a thread in the loop iterates or leaves it; the
    window handles the first queued signal.  first_sample_recorded
    emissions, which the engine counts in [w_emits], become [FirstSample]
    events.  Properties of all reachable configurations are proved by
    induction on [gui_star]. *)

From stdpp Require Import base list gmap strings.
From Stdlib Require Import ZArith QArith Lia.
From S2P Require Import Prelude Driver Calibration Sink AcqState Regex RangeConfig Streaming Session Gui.

Open Scope Z_scope.

(** ** Threads, signals and the window's remaining slot *)

Inductive qthread :=
| QCreated        (* acq_thread.start() called, run not yet scheduled *)
| QStarted        (* ranges applied, countdown_update emitted *)
| QLooping        (* in the while loop of run_streaming *)
| QFinished.      (* run returned or raised *)

Inductive ui_event :=
| Countdown (message : string)   (* countdown_update.emit(message) *)
| FirstSample.                   (* first_sample_signal.emit() *)

(** update_initialization_status(message) *)
Definition on_countdown (message : string) (s : WinState) : WinState :=
  {| start_enabled := start_enabled s; stop_enabled := stop_enabled s;
     timer_running := timer_running s; recording_start_time := recording_start_time s;
     status_text := message |}.

(** The slot a queued signal runs, at the time of day [now]. *)
Definition handle_event (now : Z) (e : ui_event) (s : WinState) : WinState :=
  match e with
  | Countdown m => on_countdown m s
  | FirstSample => on_first_sample now s
  end.

(** The message run() emits after applying the ranges. *)
Definition init_message : string := "Initializing PicoScope...".

Record sys := mkSys {
  threads : list qthread;
  world : World;
  win : WinState;
  queue : list ui_event
}.

(** The first-sample signals a step of a thread emitted. *)
Definition emitted (w w' : World) : list ui_event :=
  replicate (w_emits w' - w_emits w) FirstSample.

Definition after_run (ths1 ths2 : list qthread) (s : WinState) (q : list ui_event) (w : World)
    (r : outcome unit * World) : sys :=
  mkSys (ths1 ++ (match fst r with Normal _ => QLooping | Exc _ => QFinished end) :: ths2)
        (snd r) s (q ++ emitted w (snd r)).

(** ** The step relation *)

Inductive gui_step (d : Device) (w0 : Window) : sys -> sys -> Prop :=
| gs_start c tu si ch fn dig rails offs :
    start_enabled (win c) = true ->
    window_start w0 = Launch tu si ch fn dig rails offs ->
    gui_step d w0 c (mkSys (threads c ++ [QCreated]) (world c) (on_start w0 (win c)) (queue c))
| gs_setup ths1 ths2 w s q tu si ch fn dig rails offs :
    window_start w0 = Launch tu si ch fn dig rails offs ->
    gui_step d w0 (mkSys (ths1 ++ QCreated :: ths2) w s q)
      (match thread_setup rails offs w with
       | (Normal _, w') => mkSys (ths1 ++ QStarted :: ths2) w' s (q ++ [Countdown init_message])
       | (Exc _, w') => mkSys (ths1 ++ QFinished :: ths2) w' s q
       end)
| gs_record ths1 ths2 w s q tu si ch fn dig rails offs :
    window_start w0 = Launch tu si ch fn dig rails offs ->
    gui_step d w0 (mkSys (ths1 ++ QStarted :: ths2) w s q)
      (after_run ths1 ths2 s q w (module_start_recording d tu si ch dig 0 w))
| gs_stop c :
    stop_enabled (win c) = true ->
    gui_step d w0 c (mkSys (threads c) (snd (stop_recording d (world c))) (on_stop (win c)) (queue c))
| gs_iterate ths1 ths2 w s q :
    loop_continues (w_acq w) = true ->
    gui_step d w0 (mkSys (ths1 ++ QLooping :: ths2) w s q)
      (mkSys (ths1 ++ QLooping :: ths2) (snd (loop_iteration d w)) s
             (q ++ emitted w (snd (loop_iteration d w))))
| gs_exit ths1 ths2 w s q :
    loop_continues (w_acq w) = false ->
    gui_step d w0 (mkSys (ths1 ++ QLooping :: ths2) w s q) (mkSys (ths1 ++ QFinished :: ths2) w s q)
| gs_event c now e q' :
    queue c = e :: q' ->
    gui_step d w0 c (mkSys (threads c) (world c) (handle_event now e (win c)) q').

Inductive gui_star (d : Device) (w0 : Window) : sys -> sys -> Prop :=
| gstar_refl c : gui_star d w0 c c
| gstar_step c1 c2 c3 : gui_step d w0 c1 c2 -> gui_star d w0 c2 c3 -> gui_star d w0 c1 c3.

(** The window just opened on an engine in state [w]. *)
Definition sys_init (w : World) : sys := mkSys [] w winstate_init [].

(** What holds of the window in every configuration the system reaches:
    exactly one of the two buttons is enabled, the label shows one of the
    three texts the slots write, and the queue holds only the signals
    the threads emit. *)
Definition win_ok (c : sys) : Prop :=
  start_enabled (win c) = negb (stop_enabled (win c)) /\
  (status_text (win c) = "" \/ status_text (win c) = init_message \/
   status_text (win c) = "Recording in progress...") /\
  Forall (fun e => e = Countdown init_message \/ e = FirstSample) (queue c).

(** ** Theorems *)

(** C19: The window's invariant.  In every configuration reachable from
    the freshly opened window, whatever the operator presses, whatever
    the threads do and in whatever order the queued signals are
    handled, exactly one of Start and Stop is enabled, the status label
    is empty, "Initializing PicoScope..." or "Recording in progress...",
    and only countdown and first-sample signals are pending.  Proved by
    induction on the reachability derivation. *)
Theorem gui_reachable_ok d w0 w c :
  gui_star d w0 (sys_init w) c -> win_ok c.
Proof.
  intros H. assert (Hi : win_ok (sys_init w)) by (split; [reflexivity|]; split; [left; reflexivity | constructor]).
  remember (sys_init w) as c0 eqn:E. clear E. revert Hi.
  induction H as [c|c1 c2 c3 Hs _ IH]; intros (Hb & Ht & Hq); [by split|]. apply IH. clear IH.
  assert (Hem : forall w w', Forall (fun e => e = Countdown init_message \/ e = FirstSample) (emitted w w'))
    by (intros; apply Forall_replicate; right; reflexivity).
  inversion Hs; subst; unfold win_ok; cbn -[thread_setup module_start_recording loop_iteration stop_recording] in *.
  - unfold on_start. match goal with Hl : window_start w0 = _ |- _ => rewrite Hl end. cbn. auto.
  - match goal with |- context [thread_setup ?r ?o ?x] => destruct (thread_setup r o x) as [[]] end; cbn; (split; [exact Hb|]); split; try exact Ht;
      try apply Forall_app; auto.
  - unfold after_run. cbn. split; [exact Hb|]. split; [exact Ht|]. apply Forall_app; auto.
  - unfold on_stop. cbn. auto.
  - split; [exact Hb|]. split; [exact Ht|]. apply Forall_app; auto.
  - auto.
  - match goal with Hl : queue c1 = _ |- _ => rewrite Hl in Hq end. apply Forall_cons in Hq as [He Hq]. split; [|split; [|exact Hq]].
    + destruct e; exact Hb.
    + destruct He as [-> | ->]; cbn; auto.
Qed.

Lemma gui_reachable_ok_witness :
  let w := world_init (Some ps3000a_driver) false in
  let c := mkSys [QCreated] w (on_start default_window winstate_init) [] in
  gui_star silent_device default_window (sys_init w) c /\ win_ok c.
Proof.
  intros w c. assert (H : gui_star silent_device default_window (sys_init w) c).
  { eapply gstar_step; [eapply gs_start; reflexivity | apply gstar_refl]. }
  split; [exact H | exact (gui_reachable_ok silent_device default_window w c H)].
Defined.

(** C23: Restart while the first thread still polls.  Stop re-enables the
    start button but cannot end the first thread's loop, so Start, Stop,
    Start from the opened window reaches a configuration with two
    threads in the streaming loop of the same object and device, both
    able to poll: two sessions streaming against one device handle. *)
Example restart_two_pollers :
  exists c,
    gui_star silent_device default_window (sys_init (world_init (Some ps3000a_driver) false)) c /\
    threads c = [QLooping; QLooping] /\ loop_continues (w_acq (world c)) = true /\
    start_enabled (win c) = false /\ stop_enabled (win c) = true.
Proof.
  eexists. split.
  - eapply gstar_step; [eapply gs_start; reflexivity|]. vm_compute.
    eapply gstar_step; [eapply (gs_setup _ _ [] []); reflexivity|]. vm_compute.
    eapply gstar_step; [eapply (gs_record _ _ [] []); reflexivity|]. vm_compute.
    eapply gstar_step; [apply gs_stop; reflexivity|]. vm_compute.
    eapply gstar_step; [eapply gs_start; reflexivity|]. vm_compute.
    eapply gstar_step; [eapply (gs_setup _ _ [QLooping] []); reflexivity|]. vm_compute.
    eapply gstar_step; [eapply (gs_record _ _ [QLooping] []); reflexivity|]. vm_compute.
    apply gstar_refl.
  - vm_compute. repeat split.
Qed.

(** C20: Stop pressed while the thread is initializing is lost.  After
    Start, the thread applies the ranges and emits its countdown; if the
    operator presses Stop before the thread reaches start_recording, the
    engine is not recording yet, so stop_recording does nothing; the
    thread then starts the session anyway.  The configuration reached
    has a session recording and polling while the window shows Start
    enabled, Stop disabled and "Initializing PicoScope...". *)
Example stop_during_init_lost :
  exists c,
    gui_star silent_device default_window (sys_init (world_init (Some ps3000a_driver) false)) c /\
    threads c = [QLooping] /\ is_recording (w_acq (world c)) = true /\
    loop_continues (w_acq (world c)) = true /\
    start_enabled (win c) = true /\ stop_enabled (win c) = false /\ status_text (win c) = init_message.
Proof.
  eexists. split.
  - eapply gstar_step; [eapply gs_start; reflexivity|]. vm_compute.
    eapply gstar_step; [eapply (gs_setup _ _ [] []); reflexivity|]. vm_compute.
    eapply gstar_step; [apply gs_stop; reflexivity|]. vm_compute.
    eapply gstar_step; [eapply (gs_record _ _ [] []); reflexivity|]. vm_compute.
    eapply gstar_step; [eapply (gs_event _ _ _ 0); reflexivity|]. vm_compute.
    apply gstar_refl.
  - vm_compute. repeat split.
Qed.
