(* ===== verification/App.v ===== *)
(** * The application around the engine

    src/main.py: [run_app] after its DLL loading ([Boot.load_dlls]): the
    model dialog (gui.ScopeSelectDialog, whose combo box lists
    [scope_dialog_items] and whose [selected_model] is its index) either
    is cancelled, and the program exits, or selects a series, whose driver wrapper is installed in the engine
    singleton before the window opens with that model index.
    src/gui.py's own main ([gui_main]), the entry point when gui.py is
    run as a script, opens the window without installing any driver.

    src/data_acquisition.py: the module function stop_recording, which
    forwards to the method, and the class AcquisitionThread that the
    window never uses ([dead_thread_run]; its 3.5 s sleep is not
    modelled): it sets the ranges, calls the module start_recording and
    catches every exception, writing it to the crash log (the returned
    [option exn] is what it logs).

    src/utils.py: [validate_input], and [format_data] with Python's
    round(d, 2) on the exact value of the float ([py_round2]: round half
    to even at two decimals).

    Info.py: [get_picoscope_info], which opens the unit with the same
    power-source recovery as the engine ([Session.open_unit]), reads
    eleven unit-information strings with ps3000aGetUnitInfo (each
    decoded and stripped; the string the driver writes is the oracle
    [unit_info]) and closes the unit.  Its module-level code (picosdk's
    find_unit, print and close) is library I/O and is not modelled. *)

From stdpp Require Import base list gmap strings.
From Stdlib Require Import ZArith QArith Qround Qabs Lia Lqa.
From S2P Require Import Prelude Driver Calibration Sink AcqState Regex RangeConfig Streaming Session Gui.

Open Scope Z_scope.

(** ** main.py *)

(** The items of the dialog's combo box, in the order they are added. *)
Definition scope_dialog_items : list string := ["PicoScope 3000 Series"; "PicoScope 4000 Series"].

(** ScopeSelectDialog.selected_model: combo.currentIndex(), 0 for the
    3000 series, 1 for the 4000 series. *)
Definition selected_model (current_index : nat) : nat := current_index.

(** The wrapper run_app instantiates for a model index; the PS4000A
    wrapper's ps_RANGE is picosdk's PICO_VOLTAGE_RANGE [pvr]. *)
Definition scope_driver_of (model_index : nat) (pvr : list (string * Z)) : Driver :=
  if Nat.eqb model_index 0 then ps3000a_driver else ps4000a_driver pvr.

Inductive app_outcome :=
| AppExit (code : Z)             (* sys.exit(code) *)
| AppWindow (model_index : nat). (* MainWindow(model_index) shown *)

(** run_app from the dialog on: [dialog_exec] is dlg.exec_() (0 when
    cancelled), [current_index] the dialog's combo box index. *)
Definition run_app (dialog_exec : Z) (current_index : nat) (pvr : list (string * Z))
    : PyM World app_outcome :=
  if Z.eqb dialog_exec 0 then py_ret (AppExit 0)
  else
    let model_index := selected_model current_index in
    acq_modify (set_driver (Some (scope_driver_of model_index pvr))) ;;
    py_ret (AppWindow model_index).

(** gui.main(model_index=0), the entry point when gui.py runs as a
    script: it opens the window without installing a driver. *)
Definition gui_main (model_index : nat) : PyM World app_outcome :=
  py_ret (AppWindow model_index).

(** ** data_acquisition.py: module stop_recording and the unused thread *)

(** The module function stop_recording(). *)
Definition module_stop_recording (d : Device) : PyM World unit := stop_recording d.

(** data_acquisition.AcquisitionThread(...).run(): the constructor's
    [voltage_rails or {}] and [voltage_offsets or {}], then run, which
    returns the exception it catches and logs, if any. *)
Definition dead_thread_run (d : Device) (time_unit : string) (sample_interval : Q)
    (channels : gmap string bool) (digital_channels : option (list Z))
    (voltage_rails : option (list (string * string))) (voltage_offsets : option (gmap string Q))
    (fuel : nat) : PyM World (option exn) :=
  let rails := default [] voltage_rails in
  let offsets := default ∅ voltage_offsets in
  py_try
    (py_for rails (fun chr =>
       set_voltage_range chr.1 (RStr chr.2) (default 0%Q (offsets !! chr.1))) ;;
     module_start_recording d time_unit sample_interval channels digital_channels fuel ;;
     py_ret None)
    (fun e => py_ret (Some e)).

(** ** utils.py *)

(** validate_input(value, min_value, max_value) *)
Definition validate_input (value min_value max_value : Q) : bool :=
  Qle_bool min_value value && Qle_bool value max_value.

(** Round half to even of an exact rational. *)
Definition round_half_even (x : Q) : Z :=
  let f := Qfloor x in
  let r := (x - inject_Z f)%Q in
  if Qlt_le_dec r (1#2) then f
  else if Qlt_le_dec (1#2) r then f + 1
  else if Z.even f then f else f + 1.

(** round(d, 2) *)
Definition py_round2 (d : Q) : Q := (inject_Z (round_half_even (d * 100)) / 100)%Q.

(** format_data(data) *)
Definition format_data (data : list Q) : list Q := map py_round2 data.

(** ** Info.py *)

(** The keys of the info dictionary and the info numbers read. *)
Definition info_fields : list (string * Z) :=
  [("Driver Version", 0); ("USB Version", 1); ("Hardware Version", 2);
   ("Variant Info", 3); ("Serial Number", 4); ("Cal Date", 5); ("Kernel Version", 6);
   ("Digital Hardware Version", 7); ("Analogue Hardware Version", 8);
   ("Firmware 1", 9); ("Firmware 2", 10)].

(** get_info(info_num): the status of ps3000aGetUnitInfo is not looked at. *)
Definition get_info (d : Device) (unit_info : Z -> string) (info_num : Z) : PyM World string :=
  _ <- dev d (GetUnitInfo info_num) ;;
  py_ret (str_strip (unit_info info_num)).

Fixpoint get_infos (d : Device) (unit_info : Z -> string) (fields : list (string * Z))
    : PyM World (list (string * string)) :=
  match fields with
  | [] => py_ret []
  | (k, n) :: fs =>
      v <- get_info d unit_info n ;;
      rest <- get_infos d unit_info fs ;;
      py_ret ((k, v) :: rest)
  end.

(** get_picoscope_info() *)
Definition get_picoscope_info (d : Device) (unit_info : Z -> string)
    : PyM World (list (string * string)) :=
  open_unit d ;;
  info <- get_infos d unit_info info_fields ;;
  st <- dev d CloseUnit ;;
  assert_pico_ok st ;;
  py_ret info.

(** A unit whose information strings are padded, for the witnesses. *)
Definition info_strings (n : Z) : string := " 1.2.3 ".

(** ** Lemmas *)

(** The series the operator picks in the dialog is the one the window's
    title names and the one whose wrapper run_app installs. *)
Lemma dialog_series_agree i pvr :
  (i < length scope_dialog_items)%nat ->
  exists series,
    nth i scope_dialog_items "" = "PicoScope " +:+ series /\
    window_title (selected_model i) = "PicoScope GUI Application - " +:+ series /\
    drv_type_name (scope_driver_of (selected_model i) pvr) =
      (if Nat.eqb i 0 then "PS3000ADriver" else "PS4000ADriver").
Proof.
  intros Hi. destruct i as [|[|i]]; cbn in Hi; [| | lia];
    eexists; (split; [reflexivity | split; reflexivity]).
Qed.

(** run_app installs the wrapper of the chosen series and makes no call. *)
Lemma run_app_installs dialog_exec current_index pvr w :
  Z.eqb dialog_exec 0 = false ->
  run_app dialog_exec current_index pvr w =
  (Normal (AppWindow current_index),
   set_acq (set_driver (Some (scope_driver_of current_index pvr)) (w_acq w)) w).
Proof. intros H. unfold run_app. by rewrite H. Qed.

(** The unused thread never lets an exception out: what start_recording
    raises is what it logs. *)
Lemma dead_thread_run_catches d tu si ch dig rails offs fuel w :
  exists r, fst (dead_thread_run d tu si ch dig rails offs fuel w) = Normal r.
Proof.
  unfold dead_thread_run, py_try.
  match goal with |- context [match ?c w with _ => _ end] => destruct (c w) as [[r|e] w'] end;
    simpl; eauto.
Qed.

Lemma round_half_even_close x : (Qabs (inject_Z (round_half_even x) - x) <= 1#2)%Q.
Proof.
  unfold round_half_even. set (f := Qfloor x).
  pose proof (Qfloor_le x) as Hle. pose proof (Qlt_floor x) as Hlt. fold f in Hle, Hlt.
  rewrite inject_Z_plus in Hlt. change (inject_Z 1) with 1%Q in Hlt.
  destruct (Qlt_le_dec (x - inject_Z f) (1#2)) as [H1|H1].
  - apply Qabs_Qle_condition. split; lra.
  - destruct (Qlt_le_dec (1#2) (x - inject_Z f)) as [H2|H2];
      [|destruct (Z.even f)];
      rewrite ?inject_Z_plus; change (inject_Z 1) with 1%Q; apply Qabs_Qle_condition; split; lra.
Qed.

(** round(d, 2) moves a value by at most half a hundredth. *)
Lemma py_round2_close d : (Qabs (py_round2 d - d) <= 1#200)%Q.
Proof.
  unfold py_round2. pose proof (round_half_even_close (d * 100)) as H.
  set (n := inject_Z (round_half_even (d * 100))) in *.
  assert (E : (n / 100 - d == (n - d * 100) * (1#100))%Q) by field.
  rewrite E. apply Qabs_Qle_condition in H as [H1 H2]. apply Qabs_Qle_condition. split; lra.
Qed.

Lemma get_infos_run d ui fs w :
  get_infos d ui fs w =
  (Normal (map (fun kn => (kn.1, str_strip (ui kn.2))) fs),
   {| w_acq := w_acq w;
      w_trace := w_trace w ++ map (fun kn => (GetUnitInfo kn.2, dev_status d (GetUnitInfo kn.2))) fs;
      w_fsr_connected := w_fsr_connected w; w_emits := w_emits w; w_polls := w_polls w |}).
Proof.
  revert w; induction fs as [|[k n] fs IH]; intros w; simpl.
  - rewrite app_nil_r. by destruct w.
  - unfold py_bind, get_info, dev, py_ret. simpl. rewrite IH. simpl. by rewrite <- app_assoc.
Qed.

Lemma open_unit_ok d w :
  dev_status d OpenUnit = PICO_OK -> open_unit d w = (Normal tt, push_trace (OpenUnit, PICO_OK) w).
Proof.
  intros H. unfold open_unit, py_bind, dev. cbn [fst snd]. rewrite H.
  destruct (decide (PICO_OK = PICO_OK)); [reflexivity | contradiction].
Qed.

Lemma module_start_recording_no_driver d tu si ch dig fuel w :
  driver (w_acq w) = None ->
  module_start_recording d tu si ch dig fuel w =
  (Exc (RuntimeError "Scope driver not set. Please select a scope at startup."), w).
Proof. intros H. unfold module_start_recording, py_bind, acq_get. cbn. by rewrite H. Qed.

(** ** Theorems *)





(** C18: Info.py.  Once psOpenUnit succeeds, get_picoscope_info makes
    exactly the eleven ps3000aGetUnitInfo calls in the order of the info
    dictionary, whatever statuses they return (none is checked: a failed
    call yields whatever the buffer holds), then psCloseUnit; it returns
    the stripped strings under their keys, and when the close fails it
    raises that status after having read everything. *)
Theorem get_picoscope_info_calls d ui w :
  dev_status d OpenUnit = PICO_OK ->
  fst (get_picoscope_info d ui w) =
    (if Z.eq_dec (dev_status d CloseUnit) PICO_OK
     then Normal (map (fun kn => (kn.1, str_strip (ui kn.2))) info_fields)
     else Exc (PicoSDKError (dev_status d CloseUnit))) /\
  w_trace (snd (get_picoscope_info d ui w)) =
    w_trace w ++ [(OpenUnit, PICO_OK)] ++
    map (fun kn => (GetUnitInfo kn.2, dev_status d (GetUnitInfo kn.2))) info_fields ++
    [(CloseUnit, dev_status d CloseUnit)].
Proof.
  intros Hopen. unfold get_picoscope_info, py_bind.
  rewrite !(open_unit_ok d w Hopen). cbv beta iota.
  rewrite !get_infos_run. cbv beta iota. unfold dev, assert_pico_ok. cbn [fst snd w_trace push_trace].
  destruct (Z.eq_dec (dev_status d CloseUnit) PICO_OK); cbn [fst snd w_trace];
    rewrite <- !app_assoc; split; reflexivity.
Qed.

Lemma get_picoscope_info_calls_witness :
  dev_status scn_device OpenUnit = PICO_OK /\
  fst (get_picoscope_info scn_device info_strings (world_init (Some ps3000a_driver) false)) =
    Normal (map (fun kn => (kn.1, str_strip (info_strings kn.2))) info_fields).
Proof.
  split; [reflexivity|].
  exact (proj1 (get_picoscope_info_calls scn_device info_strings
                  (world_init (Some ps3000a_driver) false) eq_refl)).
Defined.
